(** * The playground router of agno (libs/agno/agno/app/playground/async_router.py)

    A shallow embedding of the asynchronous playground router: the four
    response streamers and the request handlers for agent, team and workflow
    runs, session display and session renaming, followed by the properties
    of the run protocol that the specification states about them, and then
    by further properties of the handlers: the session listings, the
    deletion of sessions, the session view of a workflow, the uploaded files
    of a run request and the error replies.

    The router is a dispatcher.  The entities it serves (Agent, Team,
    Workflow), the session storage and the media helpers are collaborators
    whose code lives elsewhere; they enter the development as the fields of
    the class [Collaborators], and every invocation of an entity is recorded
    in a call log so that what the router hands over can be stated. *)

From Stdlib Require Import ZArith.
From stdpp Require Import base option list strings gmap.

Local Open Scope string_scope.
Local Open Scope list_scope.
Set Warnings "-register-all".

(** ** Python data *)

Module Py.

(** The JSON-like values of session dictionaries and request bodies. *)
Inductive value : Type :=
| None_
| Bool (b : bool)
| Int (z : Z)
| Str (s : string)
| List (l : list value)
| Dict (d : list (string * value)).

(** A [dict] keeps its keys in insertion order; keys are unique. *)
Definition dict : Type := list (string * value).

(** [d.get(k)] with Python's result for a missing key left to the caller. *)
Fixpoint lookup (k : string) (d : dict) : option value :=
  match d with
  | [] => None
  | (k', v) :: d' => if String.eqb k k' then Some v else lookup k d'
  end.

(** [k in d] *)
Definition contains (k : string) (d : dict) : bool :=
  match lookup k d with Some _ => true | None => false end.

(** [d.get(k)]: a missing key reads as [None]. *)
Definition get (k : string) (d : dict) : value :=
  match lookup k d with Some v => v | None => None_ end.

(** [d.get(k, default)] *)
Definition get_default (k : string) (default : value) (d : dict) : value :=
  match lookup k d with Some v => v | None => default end.

(** [d.pop(k, None)], the dictionary that is left. *)
Fixpoint pop (k : string) (d : dict) : dict :=
  match d with
  | [] => []
  | (k', v) :: d' => if String.eqb k k' then d' else (k', v) :: pop k d'
  end.

(** [d[k] = v]: an existing key keeps its place, a new one goes last. *)
Fixpoint set (k : string) (v : value) (d : dict) : dict :=
  match d with
  | [] => [(k, v)]
  | (k', v') :: d' =>
      if String.eqb k k' then (k, v) :: d' else (k', v') :: set k v d'
  end.

(** Truth value of an object, as [if x:] takes it. *)
Definition truthy (v : value) : bool :=
  match v with
  | None_ => false
  | Bool b => b
  | Int z => negb (Z.eqb z 0)
  | Str s => negb (String.eqb s "")
  | List l => match l with [] => false | _ => true end
  | Dict d => match d with [] => false | _ => true end
  end.

(** [v == s] for a string [s]. *)
Definition eq_str (v : value) (s : string) : bool :=
  match v with Str s' => String.eqb s' s | _ => false end.

(** [v is False] *)
Definition is_False (v : value) : bool :=
  match v with Bool false => true | _ => false end.

(** [v is not None] *)
Definition is_not_None (v : value) : bool :=
  match v with None_ => false | _ => true end.

Definition of_option_str (o : option string) : value :=
  match o with Some s => Str s | None => None_ end.

(** [f"{o}"] for an optional string. *)
Definition format_opt (o : option string) : string :=
  match o with Some s => s | None => "None" end.

(** Instances of [Exception]: the class name and [str(e)]. *)
Record exn : Type := Exception { exn_class : string; str : string }.

Definition IndexError : exn := Exception "IndexError" "list index out of range".
Definition TypeError (msg : string) : exn := Exception "TypeError" msg.
Definition AttributeError (msg : string) : exn := Exception "AttributeError" msg.
Definition KeyError (msg : string) : exn := Exception "KeyError" msg.

#[global] Instance exn_ret : MRet (sum exn) := λ A a, inr a.

#[global] Instance exn_bind : MBind (sum exn) := λ A B f m,
  match m with inl e => inl e | inr a => f a end.

(** The elements [for x in v] goes through: a dictionary gives its keys, a
    string its characters. *)
Definition iter (v : value) : exn + list value :=
  match v with
  | List l => inr l
  | Dict d => inr (List.map (λ kv, Str (fst kv)) d)
  | Str s =>
      inr (List.map (λ c, Str (String c EmptyString)) (String.list_ascii_of_string s))
  | None_ => inl (TypeError "'NoneType' object is not iterable")
  | Bool _ => inl (TypeError "'bool' object is not iterable")
  | Int _ => inl (TypeError "'int' object is not iterable")
  end.

(** [v[0]]: the first element of a list, the first character of a string;
    a dictionary, whose keys are strings here, has no key [0], and the other
    values cannot be subscripted. *)
Definition first (v : value) : exn + value :=
  match v with
  | List (x :: _) => inr x
  | List [] => inl IndexError
  | Str (String c _) => inr (Str (String c EmptyString))
  | Str EmptyString => inl (Exception "IndexError" "string index out of range")
  | Dict _ => inl (KeyError "0")
  | None_ => inl (TypeError "'NoneType' object is not subscriptable")
  | Bool _ => inl (TypeError "'bool' object is not subscriptable")
  | Int _ => inl (TypeError "'int' object is not subscriptable")
  end.

(** [k in v] for a string [k]: a key of a dictionary, an element of a list,
    a part of a string; the other values cannot be searched. *)
Definition has (k : string) (v : value) : exn + bool :=
  match v with
  | Dict d => inr (contains k d)
  | List l => inr (existsb (λ x, eq_str x k) l)
  | Str s => inr (match String.index 0 k s with Some _ => true | None => false end)
  | None_ => inl (TypeError "argument of type 'NoneType' is not iterable")
  | Bool _ => inl (TypeError "argument of type 'bool' is not iterable")
  | Int _ => inl (TypeError "argument of type 'int' is not iterable")
  end.

(** The receiver of [.get]: a dictionary, or else the attribute is missing. *)
Definition as_dict (v : value) : exn + dict :=
  match v with
  | Dict d => inr d
  | _ => inl (AttributeError "object has no attribute 'get'")
  end.

(** A finite (async) generator, seen from its consumer: it yields, and it
    ends either by returning or by raising. *)
Inductive gen (A : Type) : Type :=
| Yield (a : A) (rest : gen A)
| Return
| Raise (e : exn).
Arguments Yield {A} a rest.
Arguments Return {A}.
Arguments Raise {A} e.

(** What a consumer that drains the generator has received ... *)
Fixpoint items {A} (g : gen A) : list A :=
  match g with
  | Yield a rest => a :: items rest
  | Return | Raise _ => []
  end.

(** ... and the exception that broke the iteration, if one did. *)
Fixpoint failure {A} (g : gen A) : option exn :=
  match g with
  | Yield _ rest => failure rest
  | Return => None
  | Raise e => Some e
  end.

(** [(f(x) for x in g)] *)
Fixpoint gmap_gen {A B} (f : A → B) (g : gen A) : gen B :=
  match g with
  | Yield a rest => Yield (f a) (gmap_gen f rest)
  | Return => Return
  | Raise e => Raise e
  end.

(** A generator that yields the elements of a list and returns. *)
Fixpoint of_list {A} (l : list A) : gen A :=
  match l with
  | [] => Return
  | a :: l' => Yield a (of_list l')
  end.

End Py.

Import Py (exn, gen, Yield, Return, Raise).

(** ** Objects and the store they live in

    Agents, teams, workflows, knowledge bases and session storages are
    Python objects that the router reaches through references; several
    requests, and several entries of a registry, may reach the same object.
    They live in a heap per class, addressed by [loc]. *)

Definition loc : Type := nat.

(** Media objects and documents are opaque to the router, which only
    moves them from the helpers that build them to the entity. *)
Definition Image : Type := string.
Definition Audio : Type := string.
Definition Video : Type := string.
Definition Document : Type := string.

(** [FileMedia(content=contents)] *)
Record FileMedia : Type := mkFileMedia { content : string }.

(** What the handlers read of an uploaded file. *)
Record UploadFile : Type := mkUploadFile {
  content_type : option string;
  filename : option string;
  contents : string;            (* the bytes that were uploaded *)
}.

(** The classes of the entities are declared outside the router.  Their
    records hold the fields the handlers read or write; an optional
    collaborator ([knowledge], [storage]) is a reference or [None]. *)
Module Agent.
Record t : Type := mk {
  agent_id : option string;
  name : option string;
  monitoring : bool;
  knowledge : option loc;
  storage : option loc;
}.
(** [agent.monitoring = b] *)
Definition set_monitoring (b : bool) (a : t) : t :=
  mk (agent_id a) (name a) b (knowledge a) (storage a).
End Agent.

Module Team.
Record t : Type := mk {
  team_id : option string;
  name : option string;
  monitoring : bool;
  storage : option loc;
}.
(** [team.monitoring = b] *)
Definition set_monitoring (b : bool) (a : t) : t :=
  mk (team_id a) (name a) b (storage a).
End Team.

(** [agno.workflow.workflow.Workflow], the first generation. *)
Module Workflow.
Record t : Type := mk {
  workflow_id : option string;
  name : option string;
  session_id : option string;
  user_id : option string;
  session_name : option string;
  _run_return_type : option string;
  storage : option loc;
}.
Definition set_session_id (s : option string) (w : t) : t :=
  mk (workflow_id w) (name w) s (user_id w) (session_name w)
     (_run_return_type w) (storage w).
Definition set_user_id (u : option string) (w : t) : t :=
  mk (workflow_id w) (name w) (session_id w) u (session_name w)
     (_run_return_type w) (storage w).
Definition set_session_name (n : option string) (w : t) : t :=
  mk (workflow_id w) (name w) (session_id w) (user_id w) n
     (_run_return_type w) (storage w).
Definition set_workflow_id (i : option string) (w : t) : t :=
  mk i (name w) (session_id w) (user_id w) (session_name w)
     (_run_return_type w) (storage w).
End Workflow.

(** [agno.workflow.v2.workflow.Workflow] *)
Module WorkflowV2.
Record t : Type := mk {
  workflow_id : option string;
  name : option string;
  session_id : option string;
  storage : option loc;
}.
Definition set_session_id (s : option string) (w : t) : t :=
  mk (workflow_id w) (name w) s (storage w).
End WorkflowV2.

(** The [workflows] registry holds objects of either class; the handlers
    tell them apart with [isinstance(workflow, Workflow)]. *)
Inductive AnyWorkflow : Type :=
| V1 (w : Workflow.t)
| V2 (w : WorkflowV2.t).

Module AnyWorkflow.
Definition workflow_id (w : AnyWorkflow) : option string :=
  match w with V1 w => Workflow.workflow_id w | V2 w => WorkflowV2.workflow_id w end.
Definition name (w : AnyWorkflow) : option string :=
  match w with V1 w => Workflow.name w | V2 w => WorkflowV2.name w end.
Definition session_id (w : AnyWorkflow) : option string :=
  match w with V1 w => Workflow.session_id w | V2 w => WorkflowV2.session_id w end.
Definition storage (w : AnyWorkflow) : option loc :=
  match w with V1 w => Workflow.storage w | V2 w => WorkflowV2.storage w end.
(** [workflow.session_id = s] *)
Definition set_session_id (s : option string) (w : AnyWorkflow) : AnyWorkflow :=
  match w with
  | V1 w => V1 (Workflow.set_session_id s w)
  | V2 w => V2 (WorkflowV2.set_session_id s w)
  end.
End AnyWorkflow.

(** Modelled from the spec: the Session of the data model (an identifier,
    the owning entity, the user, the prior runs kept under the ["runs"] key
    of [memory], and free-form metadata); the classes [AgentSession],
    [TeamSession] and [WorkflowSession] are declared outside the router. *)
Module Session.
Record t : Type := mk {
  session_id : string;
  user_id : option string;
  entity_id : option string;
  memory : option Py.dict;
  session_data : option Py.dict;
  created_at : Z;
}.
(** Modelled from the spec: [to_dict()] gives a dictionary of the fields,
    sharing nothing with the session object; [id_key] is ["agent_id"] or
    ["team_id"]. *)
Definition to_dict (id_key : string) (s : t) : Py.dict :=
  [ ("session_id", Py.Str (session_id s));
    ("user_id", Py.of_option_str (user_id s));
    (id_key, Py.of_option_str (entity_id s));
    ("memory", match memory s with Some m => Py.Dict m | None => Py.None_ end);
    ("session_data",
       match session_data s with Some m => Py.Dict m | None => Py.None_ end);
    ("created_at", Py.Int (created_at s)) ].
Definition set_session_data (d : option Py.dict) (s : t) : t :=
  mk (session_id s) (user_id s) (entity_id s) (memory s) d (created_at s).
End Session.

(** Modelled from the spec: the Session Store contract.  A storage object
    holds sessions; when [fault] is set the backend is failing and every
    operation raises it. *)
Module Storage.
Record t : Type := mk {
  sessions : list Session.t;
  fault : option exn;
}.

Definition matches (want : option string) (have : option string) : bool :=
  match want with
  | None => true
  | Some u => match have with Some u' => String.eqb u u' | None => false end
  end.

(** Modelled from the spec: [getAllSessions(userId?, entityId?)], the
    ordered list of the sessions of that user and entity. *)
Definition get_all_sessions (user_id entity_id : option string) (st : t)
  : exn + list Session.t :=
  match fault st with
  | Some e => inl e
  | None =>
      inr (List.filter
             (λ s, matches user_id (Session.user_id s)
                   && matches entity_id (Session.entity_id s))
             (sessions st))
  end.

(** Modelled from the spec: [readSession(sessionId, userId?)], the session
    or not-found. *)
Definition read (session_id : string) (user_id : option string) (st : t)
  : exn + option Session.t :=
  match fault st with
  | Some e => inl e
  | None =>
      inr (List.find
             (λ s, String.eqb (Session.session_id s) session_id
                   && matches user_id (Session.user_id s))
             (sessions st))
  end.

(** Modelled from the spec: [renameSession(sessionId, newName)], which sets
    the display name kept in the session metadata. *)
Definition rename (session_id name : string) (st : t) : t :=
  mk (List.map
        (λ s, if String.eqb (Session.session_id s) session_id
              then Session.set_session_data
                     (Some (Py.set "session_name" (Py.Str name)
                              (default [] (Session.session_data s)))) s
              else s)
        (sessions st))
     (fault st).
End Storage.

(** ** Runs, events and what the entities are called with *)

(** Modelled from the spec: the Event of the data model, a kind (the
    tagged variant of the produced event wire record) and its payload; the
    event classes themselves are declared outside the router. *)
Inductive EventKind : Type :=
| content_delta | tool_call_proposed | tool_result | paused | completed | error.

Record Event : Type := mkEvent { kind : EventKind; payload : string }.

(** The three error event classes the streamers build.  They differ in
    their class only; each carries [str(e)]. *)
Definition RunResponseErrorEvent (content : string) : Event := mkEvent error content.
Definition TeamRunResponseErrorEvent (content : string) : Event := mkEvent error content.
Definition WorkflowErrorEvent (error_ : string) : Event := mkEvent error error_.

(** Modelled from the spec: the terminal Response of a buffered run, which
    aggregates the transcript of the run. *)
Record RunResponse : Type := mkRunResponse {
  run_id : option string;
  transcript : list Event;
}.

(** What a call of [arun], [acontinue_run] or [run] evaluates to: a response
    object or an iterator of events. *)
Inductive RunValue : Type :=
| Response (r : RunResponse)
| Iterator (g : gen Event).

(** Modelled from the spec: a resolution [{ tool_call_id, result }] of a
    resume request, which the router holds as a [ToolExecution]. *)
Record ToolExecution : Type := mkToolExecution {
  tool_call_id : option string;
  result : option string;
}.

(** Keyword arguments of [Agent.arun] and [Team.arun]; [None] for a flag
    stands for a keyword that the call does not pass. *)
Module RunArgs.
Record t : Type := mk {
  message : string;
  session_id : option string;
  user_id : option string;
  images : option (list Image);
  audio : option (list Audio);
  videos : option (list Video);
  files : option (list FileMedia);
  stream : option bool;
  stream_intermediate_steps : option bool;
}.
End RunArgs.

(** Keyword arguments of [Agent.acontinue_run]. *)
Module ContinueArgs.
Record t : Type := mk {
  run_id : option string;
  updated_tools : option (list ToolExecution);
  session_id : option string;
  user_id : option string;
  stream : option bool;
  stream_intermediate_steps : option bool;
}.
End ContinueArgs.

(** Keyword arguments of the second-generation [Workflow.arun]:
    [**body.input] and the keywords next to it. *)
Module WorkflowArgs.
Record t : Type := mk {
  input : Py.dict;
  user_id : option string;
  session_id : option string;
  stream : option bool;
  stream_intermediate_steps : option bool;
}.
End WorkflowArgs.

(** Every method the router invokes on a collaborator object, with the
    receiver and the arguments. *)
Inductive Call : Type :=
| agent_arun (self : loc) (args : RunArgs.t)
| agent_acontinue_run (self : loc) (args : ContinueArgs.t)
| agent_rename_session (self : loc) (name : string) (session_id : string)
| team_arun (self : loc) (args : RunArgs.t)
| team_rename_session (self : loc) (name : string) (session_id : string)
| workflow_run (self : loc) (input : Py.dict)
| workflow_arun (self : loc) (args : WorkflowArgs.t)
| workflow_rename_session (self : loc) (name : string)
| knowledge_load_documents (kb : loc) (docs : list Document).

Record World : Type := mkWorld {
  agent_objs : gmap loc Agent.t;
  team_objs : gmap loc Team.t;
  workflow_objs : gmap loc AnyWorkflow;
  knowledge_objs : gmap loc (list Document);   (* as [load_documents] left them *)
  storage_objs : gmap loc Storage.t;
  uuid_calls : nat;             (* how often [uuid4()] was called *)
  calls : list Call;            (* the call log, oldest first *)
}.

(** The lists handed to [get_async_playground_router]. *)
Record Registry : Type := mkRegistry {
  agents : option (list loc);
  workflows : option (list loc);
  teams : option (list loc);
}.

(** ** Collaborators

    Code the router calls and does not contain.  The behaviour of an entity
    may depend on anything it can reach, so it is a function of the whole
    world at the moment of the call.  A call of an entity gives a value or
    raises; what the entity does to itself while it runs is its own and is
    not part of the world, which keeps what the router reads and writes.  A
    statement about the world after a request is therefore a statement about
    the writes of the router, and about the world in which the entity was
    called.  The one collaborator whose effect the router relies on without
    seeing it is [load_documents] of a knowledge base: it gives what the
    knowledge base holds after the call, whatever that is, or raises. *)

Inductive Reader : Type :=
| PDFReader | CSVReader | DocxReader | TextReader | JSONReader.

Class Collaborators : Type := {
  uuid4 : nat → string;
  to_json : Event → string;
  to_dict : RunResponse → Py.dict;
  Agent_arun : World → loc → RunArgs.t → exn + RunValue;
  Agent_acontinue_run : World → loc → ContinueArgs.t → exn + RunValue;
  Agent_rename_session : World → loc → string → string → option exn;
  Team_arun : World → loc → RunArgs.t → exn + RunValue;
  Team_rename_session : World → loc → string → string → option exn;
  Workflow_run : World → loc → Py.dict → exn + RunValue;
  Workflow_arun : World → loc → WorkflowArgs.t → exn + RunValue;
  Workflow_rename_session : World → loc → string → option exn;
  process_image : UploadFile → exn + Image;
  process_audio : UploadFile → exn + Audio;
  process_video : UploadFile → exn + Video;
  process_document : UploadFile → exn + option FileMedia;
  Reader_read : Reader → option string → string → exn + list Document;
  ToolExecution_from_dict : Py.value → exn + ToolExecution;
  import_reader : Reader → option exn;           (* [from ... import PDFReader], ... *)
  UploadFile_read : UploadFile → exn + string;   (* [await file.read()] *)
  Knowledge_load_documents : World → loc → list Document → exn + list Document;
}.

(** ** The handler monad

    A handler runs in a world, may change it, and ends in one of three
    ways: it returns, it raises [HTTPException] (which the framework turns
    into an error reply with that status), or another exception escapes
    it. *)

Inductive Outcome (A : Type) : Type :=
| Ok (a : A)
| HTTPException (status_code : nat) (detail : string)
| Uncaught (e : exn).
Arguments Ok {A} a.
Arguments HTTPException {A} status_code detail.
Arguments Uncaught {A} e.

Definition M (A : Type) : Type := World → World * Outcome A.

#[global] Instance M_ret : MRet M := λ A a w, (w, Ok a).

#[global] Instance M_bind : MBind M := λ A B f m w,
  match m w with
  | (w', Ok a) => f a w'
  | (w', HTTPException c d) => (w', HTTPException c d)
  | (w', Uncaught e) => (w', Uncaught e)
  end.

Definition raise_http {A} (status_code : nat) (detail : string) : M A :=
  λ w, (w, HTTPException status_code detail).

Definition raise {A} (e : exn) : M A := λ w, (w, Uncaught e).

Definition get_world : M World := λ w, (w, Ok w).

Definition modify (f : World → World) : M unit := λ w, (f w, Ok tt).

(** A collaborator result that is not guarded by [try]. *)
Definition unguarded {A} (r : exn + A) : M A :=
  match r with inl e => raise e | inr a => mret a end.

Definition log (c : Call) : M unit :=
  modify (λ w, mkWorld (agent_objs w) (team_objs w) (workflow_objs w)
                 (knowledge_objs w) (storage_objs w) (uuid_calls w)
                 (calls w ++ [c])).

Definition set_agent_objs (h : gmap loc Agent.t) (w : World) : World :=
  mkWorld h (team_objs w) (workflow_objs w) (knowledge_objs w)
    (storage_objs w) (uuid_calls w) (calls w).
Definition set_team_objs (h : gmap loc Team.t) (w : World) : World :=
  mkWorld (agent_objs w) h (workflow_objs w) (knowledge_objs w)
    (storage_objs w) (uuid_calls w) (calls w).
Definition set_workflow_objs (h : gmap loc AnyWorkflow) (w : World) : World :=
  mkWorld (agent_objs w) (team_objs w) h (knowledge_objs w)
    (storage_objs w) (uuid_calls w) (calls w).
Definition set_knowledge_objs (h : gmap loc (list Document)) (w : World) : World :=
  mkWorld (agent_objs w) (team_objs w) (workflow_objs w) h
    (storage_objs w) (uuid_calls w) (calls w).
Definition set_storage_objs (h : gmap loc Storage.t) (w : World) : World :=
  mkWorld (agent_objs w) (team_objs w) (workflow_objs w) (knowledge_objs w)
    h (uuid_calls w) (calls w).

(** [str(uuid4())] *)
Definition str_uuid4 `{Collaborators} : M string :=
  λ w, (mkWorld (agent_objs w) (team_objs w) (workflow_objs w)
          (knowledge_objs w) (storage_objs w) (S (uuid_calls w)) (calls w),
        Ok (uuid4 (uuid_calls w))).

(** What a handler hands back to the framework. *)
Inductive Reply : Type :=
| JSONResponse (status_code : nat) (content_ : Py.value)
| StreamingResponse (body : gen string)   (* media_type="text/event-stream" *)
| Returned (v : Py.value)                 (* a dictionary or list, returned as is *)
| ReturnedRun (v : RunValue).             (* the object a workflow run gave, returned as is *)

(** ** Registry lookup *)

(** Modelled from the spec: the Entity Registry contract, a fixed mapping
    queryable by identifier ([get_agent_by_id] of the operator module): the
    first entity of the list that carries the identifier. *)
Definition get_agent_by_id (w : World) (agent_id : string)
    (agents : option (list loc)) : option loc :=
  match agents with
  | None => None
  | Some l =>
      List.find
        (λ a, match agent_objs w !! a with
              | Some o => bool_decide (Agent.agent_id o = Some agent_id)
              | None => false
              end) l
  end.

(** Modelled from the spec: the same lookup among the teams
    ([get_team_by_id]). *)
Definition get_team_by_id (w : World) (team_id : string)
    (teams : option (list loc)) : option loc :=
  match teams with
  | None => None
  | Some l =>
      List.find
        (λ a, match team_objs w !! a with
              | Some o => bool_decide (Team.team_id o = Some team_id)
              | None => false
              end) l
  end.

(** Modelled from the spec: the same lookup among the workflows
    ([get_workflow_by_id]). *)
Definition get_workflow_by_id (w : World) (workflow_id : string)
    (workflows : option (list loc)) : option loc :=
  match workflows with
  | None => None
  | Some l =>
      List.find
        (λ a, match workflow_objs w !! a with
              | Some o => bool_decide (AnyWorkflow.workflow_id o = Some workflow_id)
              | None => false
              end) l
  end.

(** ** The response streamers

    A streamer is an asynchronous generator: its body runs when the server
    consumes the [StreamingResponse] that wraps it, right after the handler
    returned.  Requests are taken one at a time here, so that consumption is
    part of the request: the call of the entity is logged, and the stream is
    determined, when the handler builds the response. *)

Section Streamers.
Context `{Collaborators}.

(** [async for chunk in value] needs an asynchronous iterator. *)
Definition aiter (v : RunValue) : exn + gen Event :=
  match v with
  | Iterator g => inr g
  | Response _ =>
      inl (Py.TypeError
             "'async for' requires an object with __aiter__ method, got RunResponse")
  end.

(** The loop of a streamer under its [try]: every chunk goes out as JSON;
    an exception that stops the iteration is answered by one error event,
    after which the streamer returns. *)
Fixpoint relay (error_event : string → Event) (g : gen Event) : gen string :=
  match g with
  | Yield run_response_chunk rest =>
      Yield (to_json run_response_chunk) (relay error_event rest)
  | Return => Return
  | Raise e => Yield (to_json (error_event (Py.str e))) Return
  end.

(** The [try ... except Exception as e] that is the whole body of each
    streamer: the awaited call and the loop are both inside it. *)
Definition try_stream (error_event : string → Event) (call : exn + RunValue)
  : gen string :=
  match call with
  | inl e => Yield (to_json (error_event (Py.str e))) Return
  | inr run_response =>
      match aiter run_response with
      | inl e => Yield (to_json (error_event (Py.str e))) Return
      | inr g => relay error_event g
      end
  end.

Definition chat_response_streamer (agent : loc) (message : string)
    (session_id user_id : option string)
    (images : option (list Image)) (audio : option (list Audio))
    (videos : option (list Video)) (files : option (list FileMedia))
  : M (gen string) :=
  let args := RunArgs.mk message session_id user_id images audio videos files
                (Some true) (Some true) in
  log (agent_arun agent args);;
  w ← get_world;
  mret (try_stream RunResponseErrorEvent (Agent_arun w agent args)).

Definition agent_acontinue_run_streamer (agent : loc) (run_id : option string)
    (updated_tools : option (list ToolExecution))
    (session_id user_id : option string)
  : M (gen string) :=
  let args := ContinueArgs.mk run_id updated_tools session_id user_id
                (Some true) (Some true) in
  log (agent_acontinue_run agent args);;
  w ← get_world;
  mret (try_stream RunResponseErrorEvent (Agent_acontinue_run w agent args)).

Definition team_chat_response_streamer (team : loc) (message : string)
    (session_id user_id : option string)
    (images : option (list Image)) (audio : option (list Audio))
    (videos : option (list Video)) (files : option (list FileMedia))
  : M (gen string) :=
  let args := RunArgs.mk message session_id user_id images audio videos files
                (Some true) (Some true) in
  log (team_arun team args);;
  w ← get_world;
  mret (try_stream TeamRunResponseErrorEvent (Team_arun w team args)).

(** The body of a workflow run request. *)
Record WorkflowRunRequest : Type := mkWorkflowRunRequest {
  input : Py.dict;
  user_id : option string;
  session_id : option string;
  stream : bool;
}.

(** [body.session_id or str(uuid4())] *)
Definition session_id_or_uuid4 (session_id : option string) : M string :=
  match session_id with
  | Some s => if String.eqb s "" then str_uuid4 else mret s
  | None => str_uuid4
  end.

(** A call that unpacks [input] next to explicit keywords raises
    [TypeError] when [input] repeats one of them.  The message of the
    interpreter starts with the qualified name of the callee, which depends
    on the class of the workflow; the text here is the message without that
    prefix. *)
Definition keyword_clash (input : Py.dict) (keywords : list string) : option exn :=
  match List.find (λ k, Py.contains k input) keywords with
  | Some k =>
      Some (Py.TypeError ("got multiple values for keyword argument '" +:+ k +:+ "'"))
  | None => None
  end.

Definition workflow_response_streamer (workflow : loc) (body : WorkflowRunRequest)
  : M (gen string) :=
  sid ← session_id_or_uuid4 (session_id body);
  let args := WorkflowArgs.mk (input body) (user_id body) (Some sid)
                (Some true) (Some true) in
  match keyword_clash (input body)
          ["user_id"; "session_id"; "stream"; "stream_intermediate_steps"] with
  | Some e => mret (try_stream WorkflowErrorEvent (inl e))
  | None =>
      log (workflow_arun workflow args);;
      w ← get_world;
      mret (try_stream WorkflowErrorEvent (Workflow_arun w workflow args))
  end.

End Streamers.

(** ** The request handlers *)

(** The [tools] form field of a continue request, by what [json.loads]
    makes of it. *)
Inductive ToolsField : Type :=
| tools_empty                 (* the empty string, which is not parsed *)
| tools_invalid               (* [json.loads] raises [JSONDecodeError] *)
| tools_json (v : Py.value).  (* [json.loads(tools)] is [v] *)

(** The lists the run handlers fill from the uploaded files. *)
Record Uploads : Type := mkUploads {
  base64_images : list Image;
  base64_audios : list Audio;
  base64_videos : list Video;
  input_files : list FileMedia;
}.

Definition image_types : list string :=
  ["image/png"; "image/jpeg"; "image/jpg"; "image/webp"].
Definition audio_types : list string :=
  ["audio/wav"; "audio/mp3"; "audio/mpeg"].
Definition video_types : list string :=
  ["video/x-flv"; "video/quicktime"; "video/mpeg"; "video/mpegs"; "video/mpgs";
   "video/mpg"; "video/mpg"; "video/mp4"; "video/webm"; "video/wmv"; "video/3gpp"].
Definition document_types : list string :=
  ["application/pdf"; "text/csv";
   "application/vnd.openxmlformats-officedocument.wordprocessingml.document";
   "text/plain"; "application/json"].

(** [file.content_type in types] *)
Definition type_in (content_type : option string) (types : list string) : bool :=
  match content_type with
  | Some c => existsb (String.eqb c) types
  | None => false
  end.

(** The chain of comparisons that picks the reader of a document. *)
Definition document_reader (content_type : option string) : option Reader :=
  if type_in content_type ["application/pdf"] then Some PDFReader
  else if type_in content_type ["text/csv"] then Some CSVReader
  else if type_in content_type
            ["application/vnd.openxmlformats-officedocument.wordprocessingml.document"]
       then Some DocxReader
  else if type_in content_type ["text/plain"] then Some TextReader
  else if type_in content_type ["application/json"] then Some JSONReader
  else None.

(** [xs if xs else None] *)
Definition if_any {A} (xs : list A) : option (list A) :=
  match xs with [] => None | _ => Some xs end.

(** A session identifier that is given and not empty continues a session;
    otherwise [str(uuid4())] names a new one. *)
Definition continuing_or_new `{Collaborators} (session_id : option string) : M string :=
  match session_id with
  | Some s => if negb (String.eqb s "") then mret s else str_uuid4
  | None => str_uuid4
  end.

(** [[ToolExecution.from_dict(tool) for tool in tools_data]] *)
Fixpoint tool_executions `{Collaborators} (tools_data : list Py.value)
  : exn + list ToolExecution :=
  match tools_data with
  | [] => inr []
  | tool :: rest =>
      match ToolExecution_from_dict tool with
      | inl e => inl e
      | inr t =>
          match tool_executions rest with
          | inl e => inl e
          | inr ts => inr (t :: ts)
          end
      end
  end.

(** The inner loop of the session views: the first message of the run that
    the user sent and that does not come from the history. *)
Fixpoint first_user_message (messages : list Py.value) : exn + Py.value :=
  match messages with
  | [] => inr Py.None_
  | msg :: rest =>
      match Py.as_dict msg with
      | inl e => inl e
      | inr m =>
          if Py.eq_str (Py.get "role" m) "user"
             && Py.is_False (Py.get_default "from_history" (Py.Bool false) m)
          then inr msg
          else first_user_message rest
      end
  end.

(** This is how the views know a [RunResponse] or a paused run. *)
Definition is_run_response (first_run : Py.dict) : bool :=
  Py.contains "content" first_run
  || Py.truthy (Py.get_default "is_paused" (Py.Bool false) first_run)
  || Py.eq_str (Py.get "event" first_run) "RunPaused".

(** The same test on [runs[0]] as it is stored, which need not be a
    dictionary: the membership test comes first, and [.get] is reached only
    when it fails. *)
Definition first_run_is_response (first_run : Py.value) : exn + bool :=
  found ← Py.has "content" first_run;
  if found : bool then inr true
  else
    first_run ← Py.as_dict first_run;
    inr (is_run_response first_run).

(** [d["runs"].append(entry)] *)
Definition append_run (entry : Py.value) (d : Py.dict) : Py.dict :=
  match Py.get "runs" d with
  | Py.List l => Py.set "runs" (Py.List (l ++ [entry])) d
  | _ => d
  end.

(** The entry of the display transcript for one run. *)
Definition run_entry (first_user_message : Py.value) (run : Py.dict) : Py.value :=
  Py.Dict [("message", first_user_message); ("response", Py.Dict run)].

(** The loop over the runs in [get_agent_session]. *)
Fixpoint agent_runs_loop (runs : list Py.value) (agent_session_dict : Py.dict)
  : exn + Py.dict :=
  match runs with
  | [] => inr agent_session_dict
  | run :: rest =>
      run ← Py.as_dict run;
      messages ← Py.iter (Py.get_default "messages" (Py.List []) run);
      message ← first_user_message messages;
      (* Remove the memory from the response *)
      let run := Py.pop "memory" run in
      agent_runs_loop rest (append_run (run_entry message run) agent_session_dict)
  end.

(** The loop over the runs in [get_team_session]. *)
Fixpoint team_runs_loop (session_id : string) (runs : list Py.value)
    (team_session_dict : Py.dict) : exn + Py.dict :=
  match runs with
  | [] => inr team_session_dict
  | run :: rest =>
      run ← Py.as_dict run;
      (* We skip runs that are not from the parent team *)
      if Py.is_not_None (Py.get "team_session_id" run)
         && Py.eq_str (Py.get "team_session_id" run) session_id
      then team_runs_loop session_id rest team_session_dict
      else
        messages ← Py.iter (Py.get_default "messages" (Py.List []) run);
        message ← first_user_message messages;
        (* Remove the memory from the response *)
        let team_session_dict := Py.pop "memory" team_session_dict in
        team_runs_loop session_id rest
          (append_run (run_entry message run) team_session_dict)
  end.

(** The part of both session views after the session was read. *)
Definition runs_view (loop : list Py.value → Py.dict → exn + Py.dict)
    (memory : option Py.dict) (session_dict : Py.dict) : exn + Py.dict :=
  match memory with
  | None => inr session_dict
  | Some memory =>
      let runs := Py.get "runs" memory in
      if Py.is_not_None runs then
        first_run ← Py.first runs;
        known ← first_run_is_response first_run;
        if known : bool then
          runs ← Py.iter runs;
          loop runs (Py.set "runs" (Py.List []) session_dict)
        else inr session_dict
      else inr session_dict
  end.

(** The storage object behind a reference. *)
Definition storage_at (w : World) (st : loc) : Storage.t :=
  default (Storage.mk [] None) (storage_objs w !! st).

(** A rename request body. *)
Record RenameRequest : Type := mkRenameRequest {
  rename_name : string;
  rename_user_id : option string;
}.

Section Router.
Context `{Collaborators}.
Variable reg : Registry.

(** One uploaded file in [create_agent_run]. *)
Definition agent_file (agent : loc) (file : UploadFile) (up : Uploads) : M Uploads :=
  if type_in (content_type file) image_types then
    match process_image file with
    | inr base64_image =>
        mret (mkUploads (base64_images up ++ [base64_image]) (base64_audios up)
                (base64_videos up) (input_files up))
    | inl _ => mret up
    end
  else if type_in (content_type file) audio_types then
    match process_audio file with
    | inr base64_audio =>
        mret (mkUploads (base64_images up) (base64_audios up ++ [base64_audio])
                (base64_videos up) (input_files up))
    | inl _ => mret up
    end
  else if type_in (content_type file) video_types then
    match process_video file with
    | inr base64_video =>
        mret (mkUploads (base64_images up) (base64_audios up)
                (base64_videos up ++ [base64_video]) (input_files up))
    | inl _ => mret up
    end
  else
    (* Process document files *)
    match document_reader (content_type file) with
    | Some reader =>
        match import_reader reader with Some e => raise e | None => mret tt end;;
        contents ← unguarded (UploadFile_read file);
        w ← get_world;
        match agent_objs w !! agent ≫= Agent.knowledge with
        | Some kb =>
            (* If agent has knowledge base, load the document into it *)
            file_content ← unguarded (Reader_read reader (filename file) contents);
            log (knowledge_load_documents kb file_content);;
            w ← get_world;
            knowledge ← unguarded (Knowledge_load_documents w kb file_content);
            modify (λ w, set_knowledge_objs (<[kb := knowledge]> (knowledge_objs w)) w);;
            mret up
        | None =>
            (* If no knowledge base, treat as direct file input *)
            mret (mkUploads (base64_images up) (base64_audios up) (base64_videos up)
                    (input_files up ++ [mkFileMedia contents]))
        end
    | None => raise_http 400 "Unsupported file type"
    end.

Fixpoint agent_files (agent : loc) (files : list UploadFile) (up : Uploads) : M Uploads :=
  match files with
  | [] => mret up
  | file :: rest => up ← agent_file agent file up; agent_files agent rest up
  end.

(** [create_agent_run] up to the point where the run is started: the agent
    is resolved, the session is chosen, the monitoring flag is written and
    the uploaded files are sorted. *)
Definition agent_run_setup (agent_id : string) (monitor : bool)
    (session_id : option string) (files : option (list UploadFile))
  : M (loc * string * Uploads) :=
  w ← get_world;
  match get_agent_by_id w agent_id (agents reg) with
  | None => raise_http 404 "Agent not found"
  | Some agent =>
      session_id ← continuing_or_new session_id;
      (if monitor
       then modify (λ w, set_agent_objs
                           (alter (Agent.set_monitoring true) agent (agent_objs w)) w)
       else modify (λ w, set_agent_objs
                           (alter (Agent.set_monitoring false) agent (agent_objs w)) w));;
      up ← agent_files agent (default [] files) (mkUploads [] [] [] []);
      mret (agent, session_id, up)
  end.

Definition create_agent_run (agent_id message : string) (stream monitor : bool)
    (session_id user_id : option string) (files : option (list UploadFile))
  : M Reply :=
  setup ← agent_run_setup agent_id monitor session_id files;
  match setup with
  | (agent, session_id, up) =>
      if stream then
        body ← chat_response_streamer agent message (Some session_id) user_id
                 (if_any (base64_images up)) (if_any (base64_audios up))
                 (if_any (base64_videos up)) (if_any (input_files up));
        mret (StreamingResponse body)
      else
        let args := RunArgs.mk message (Some session_id) user_id
                      (if_any (base64_images up)) (if_any (base64_audios up))
                      (if_any (base64_videos up)) (if_any (input_files up))
                      (Some false) None in
        log (agent_arun agent args);;
        w ← get_world;
        run_response ← unguarded (Agent_arun w agent args);
        match run_response with
        | Response r => mret (Returned (Py.Dict (to_dict r)))
        | Iterator _ =>
            raise (Py.AttributeError "'async_generator' object has no attribute 'to_dict'")
        end
  end.

(** [json.loads(tools) if tools else None] *)
Definition tools_data_of (tools : ToolsField) : Py.value :=
  match tools with tools_json v => v | _ => Py.None_ end.

(** The conversion of the parsed field: nothing when it is empty, and
    otherwise the tool executions, or the exception that stopped the
    conversion. *)
Definition updated_tools_of (tools_data : Py.value)
  : exn + option (list ToolExecution) :=
  if Py.truthy tools_data then
    match Py.iter tools_data ≫= tool_executions with
    | inr ts => inr (Some ts)
    | inl e => inl e
    end
  else inr None.

Definition continue_agent_run (agent_id run_id : string) (tools : ToolsField)
    (session_id user_id : option string) (stream : bool) : M Reply :=
  (* Parse the JSON string manually *)
  match tools with
  | tools_invalid => raise_http 400 "Invalid JSON in tools field"
  | _ =>
      let tools_data := tools_data_of tools in
      w ← get_world;
      match get_agent_by_id w agent_id (agents reg) with
      | None => raise_http 404 "Agent not found"
      | Some agent =>
          (* Convert tools dict to ToolExecution objects if provided *)
          updated_tools ←
            match updated_tools_of tools_data with
            | inr updated_tools => mret updated_tools
            | inl e =>
                raise_http 400
                  ("Invalid structure or content for tools: " +:+ Py.str e)
            end;
          if stream then
            body ← agent_acontinue_run_streamer agent (Some run_id) updated_tools
                     session_id user_id;
            mret (StreamingResponse body)
          else
            let args := ContinueArgs.mk (Some run_id) updated_tools session_id user_id
                          (Some false) None in
            log (agent_acontinue_run agent args);;
            w ← get_world;
            run_response_obj ← unguarded (Agent_acontinue_run w agent args);
            match run_response_obj with
            | Response r => mret (Returned (Py.Dict (to_dict r)))
            | Iterator _ =>
                raise (Py.AttributeError
                         "'async_generator' object has no attribute 'to_dict'")
            end
      end
  end.

Definition get_agent_session (agent_id session_id : string) (user_id : option string)
  : M Reply :=
  w ← get_world;
  match get_agent_by_id w agent_id (agents reg) with
  | None => raise_http 404 "Agent not found"
  | Some agent =>
      match agent_objs w !! agent ≫= Agent.storage with
      | None => mret (JSONResponse 404 (Py.Str "Agent does not have storage enabled."))
      | Some st =>
          agent_session ← unguarded (Storage.read session_id user_id (storage_at w st));
          match agent_session with
          | None => mret (JSONResponse 404 (Py.Str "Session not found."))
          | Some agent_session =>
              agent_session_dict ←
                unguarded (runs_view agent_runs_loop (Session.memory agent_session)
                             (Session.to_dict "agent_id" agent_session));
              mret (Returned (Py.Dict agent_session_dict))
          end
      end
  end.

(** [for session in all_sessions: if session.session_id == session_id: ...] *)
Definition find_session (session_id : string) (all_sessions : list Session.t)
  : option Session.t :=
  List.find (λ session, String.eqb (Session.session_id session) session_id) all_sessions.

Definition rename_agent_session (agent_id session_id : string) (body : RenameRequest)
  : M Reply :=
  w ← get_world;
  match get_agent_by_id w agent_id (agents reg) with
  | None => mret (JSONResponse 404 (Py.Str ("couldn't find agent with " +:+ agent_id)))
  | Some agent =>
      match agent_objs w !! agent ≫= Agent.storage with
      | None => mret (JSONResponse 404 (Py.Str "Agent does not have storage enabled."))
      | Some st =>
          all_agent_sessions ←
            unguarded (Storage.get_all_sessions (rename_user_id body) None (storage_at w st));
          match find_session session_id all_agent_sessions with
          | Some session =>
              log (agent_rename_session agent (rename_name body) session_id);;
              w ← get_world;
              match Agent_rename_session w agent (rename_name body) session_id with
              | Some e => raise e
              | None =>
                  modify (λ w, set_storage_objs
                                 (alter (Storage.rename session_id (rename_name body)) st
                                    (storage_objs w)) w);;
                  mret (JSONResponse 200
                          (Py.Dict [("message",
                             Py.Str ("successfully renamed session "
                                     +:+ Session.session_id session))]))
              end
          | None => mret (JSONResponse 404 (Py.Str "Session not found."))
          end
      end
  end.

(** Modelled from the spec: the engine borrows a registered handle and
    every run has its own state.  [Workflow.deep_copy(update=...)], a method
    of the workflow class, gives a new object that shares nothing with its
    receiver: the receiver's fields with the entries of [update] written
    over them, at a reference that was not in use. *)
Definition deep_copy (workflow : Workflow.t) (workflow_id : string)
    (session_id : option string) : M loc :=
  λ w,
    let new_workflow_instance := fresh (dom (workflow_objs w)) in
    (set_workflow_objs
       (<[new_workflow_instance :=
            V1 (Workflow.set_session_id session_id
                  (Workflow.set_workflow_id (Some workflow_id) workflow))]>
          (workflow_objs w)) w,
     Ok new_workflow_instance).

(** An assignment to a field of a first-generation workflow object. *)
Definition assign_v1 (f : Workflow.t → Workflow.t) (o : AnyWorkflow) : AnyWorkflow :=
  match o with V1 wf => V1 (f wf) | V2 wf => V2 wf end.

(** [iter(value)], which the generator expression of the streaming branch
    evaluates at once. *)
Definition iter_run (v : RunValue) : exn + gen Event :=
  match v with
  | Iterator g => inr g
  | Response _ => inl (Py.TypeError "'RunResponse' object is not iterable")
  end.

Definition create_workflow_run (workflow_id : string) (body : WorkflowRunRequest)
  : M Reply :=
  (* Retrieve the workflow by ID *)
  w ← get_world;
  match get_workflow_by_id w workflow_id (workflows reg) with
  | None => raise_http 404 "Workflow not found"
  | Some workflow =>
      match workflow_objs w !! workflow with
      | None => raise_http 404 "Workflow not found"
      | Some (V1 registered) =>
          (* Create a new instance of this workflow *)
          new_workflow_instance ← deep_copy registered workflow_id (session_id body);
          modify (λ w, set_workflow_objs
                         (alter (assign_v1 (Workflow.set_user_id (user_id body)))
                            new_workflow_instance (workflow_objs w)) w);;
          modify (λ w, set_workflow_objs
                         (alter (assign_v1 (Workflow.set_session_name None))
                            new_workflow_instance (workflow_objs w)) w);;
          w ← get_world;
          let return_type :=
            match workflow_objs w !! new_workflow_instance with
            | Some (V1 wf) => Workflow._run_return_type wf
            | _ => None
            end in
          (* Return based on the response type *)
          if bool_decide (return_type = Some "RunResponse") then
            (* Return as a normal response *)
            log (workflow_run new_workflow_instance (input body));;
            w ← get_world;
            match Workflow_run w new_workflow_instance (input body) with
            | inr v => mret (ReturnedRun v)
            | inl e => raise_http 500 ("Error running workflow: " +:+ Py.str e)
            end
          else
            (* Return as a streaming response *)
            log (workflow_run new_workflow_instance (input body));;
            w ← get_world;
            match Workflow_run w new_workflow_instance (input body) ≫= iter_run with
            | inr g => mret (StreamingResponse (Py.gmap_gen to_json g))
            | inl e => raise_http 500 ("Error running workflow: " +:+ Py.str e)
            end
      | Some (V2 _) =>
          (* Return based on the response type *)
          if stream body then
            (* Return as a streaming response *)
            events ← workflow_response_streamer workflow body;
            mret (StreamingResponse events)
          else
            (* Return as a normal response *)
            sid ← session_id_or_uuid4 (session_id body);
            let args := WorkflowArgs.mk (input body) (user_id body) (Some sid)
                          None None in
            match keyword_clash (input body) ["session_id"; "user_id"] with
            | Some e => raise_http 500 ("Error running workflow: " +:+ Py.str e)
            | None =>
                log (workflow_arun workflow args);;
                w ← get_world;
                match Workflow_arun w workflow args with
                | inr v => mret (ReturnedRun v)
                | inl e => raise_http 500 ("Error running workflow: " +:+ Py.str e)
                end
            end
      end
  end.

Definition rename_workflow_session (workflow_id session_id : string)
    (body : RenameRequest) : M Reply :=
  w ← get_world;
  match get_workflow_by_id w workflow_id (workflows reg) with
  | None => raise_http 404 "Workflow not found"
  | Some workflow =>
      modify (λ w, set_workflow_objs
                     (alter (AnyWorkflow.set_session_id (Some session_id)) workflow
                        (workflow_objs w)) w);;
      log (workflow_rename_session workflow (rename_name body));;
      w ← get_world;
      match Workflow_rename_session w workflow (rename_name body) with
      | Some e => raise e
      | None =>
          match workflow_objs w !! workflow ≫= AnyWorkflow.storage with
          | Some st =>
              modify (λ w, set_storage_objs
                             (alter (Storage.rename session_id (rename_name body)) st
                                (storage_objs w)) w)
          | None => mret tt
          end;;
          mret (JSONResponse 200
                  (Py.Dict [("message",
                     Py.Str ("successfully renamed workflow "
                             +:+ Py.format_opt
                                   (workflow_objs w !! workflow ≫= AnyWorkflow.name)))]))
      end
  end.

(** One uploaded file in [create_team_run]. *)
Definition team_file (file : UploadFile) (up : Uploads) : M Uploads :=
  if type_in (content_type file) image_types then
    match process_image file with
    | inr base64_image =>
        mret (mkUploads (base64_images up ++ [base64_image]) (base64_audios up)
                (base64_videos up) (input_files up))
    | inl _ => mret up
    end
  else if type_in (content_type file) audio_types then
    match process_audio file with
    | inr base64_audio =>
        mret (mkUploads (base64_images up) (base64_audios up ++ [base64_audio])
                (base64_videos up) (input_files up))
    | inl _ => mret up
    end
  else if type_in (content_type file) video_types then
    match process_video file with
    | inr base64_video =>
        mret (mkUploads (base64_images up) (base64_audios up)
                (base64_videos up ++ [base64_video]) (input_files up))
    | inl _ => mret up
    end
  else if type_in (content_type file) document_types then
    document_file ← unguarded (process_document file);
    match document_file with
    | Some document_file =>
        mret (mkUploads (base64_images up) (base64_audios up) (base64_videos up)
                (input_files up ++ [document_file]))
    | None => mret up
    end
  else raise_http 400 "Unsupported file type".

Fixpoint team_files (files : list UploadFile) (up : Uploads) : M Uploads :=
  match files with
  | [] => mret up
  | file :: rest => up ← team_file file up; team_files rest up
  end.

(** [create_team_run] up to the point where the run is started. *)
Definition team_run_setup (team_id : string) (monitor : bool)
    (session_id : option string) (files : option (list UploadFile))
  : M (loc * string * Uploads) :=
  w ← get_world;
  match get_team_by_id w team_id (teams reg) with
  | None => raise_http 404 "Team not found"
  | Some team =>
      session_id ← continuing_or_new session_id;
      (if monitor
       then modify (λ w, set_team_objs
                           (alter (Team.set_monitoring true) team (team_objs w)) w)
       else modify (λ w, set_team_objs
                           (alter (Team.set_monitoring false) team (team_objs w)) w));;
      up ← team_files (default [] files) (mkUploads [] [] [] []);
      mret (team, session_id, up)
  end.

Definition create_team_run (team_id message : string) (stream monitor : bool)
    (session_id user_id : option string) (files : option (list UploadFile))
  : M Reply :=
  setup ← team_run_setup team_id monitor session_id files;
  match setup with
  | (team, session_id, up) =>
      if stream then
        body ← team_chat_response_streamer team message (Some session_id) user_id
                 (if_any (base64_images up)) (if_any (base64_audios up))
                 (if_any (base64_videos up)) (if_any (input_files up));
        mret (StreamingResponse body)
      else
        let args := RunArgs.mk message (Some session_id) user_id
                      (if_any (base64_images up)) (if_any (base64_audios up))
                      (if_any (base64_videos up)) (if_any (input_files up))
                      (Some false) None in
        log (team_arun team args);;
        w ← get_world;
        run_response ← unguarded (Team_arun w team args);
        match run_response with
        | Response r => mret (Returned (Py.Dict (to_dict r)))
        | Iterator _ =>
            raise (Py.AttributeError "'async_generator' object has no attribute 'to_dict'")
        end
  end.

Definition get_team_session (team_id session_id : string) (user_id : option string)
  : M Reply :=
  w ← get_world;
  match get_team_by_id w team_id (teams reg) with
  | None => raise_http 404 "Team not found"
  | Some team =>
      match team_objs w !! team ≫= Team.storage with
      | None => raise_http 404 "Team does not have storage enabled"
      | Some st =>
          match Storage.read session_id user_id (storage_at w st) with
          | inl e => raise_http 500 ("Error retrieving session: " +:+ Py.str e)
          | inr None => raise_http 404 "Session not found"
          | inr (Some team_session) =>
              team_session_dict ←
                unguarded (runs_view (team_runs_loop session_id)
                             (Session.memory team_session)
                             (Session.to_dict "team_id" team_session));
              mret (Returned (Py.Dict team_session_dict))
          end
      end
  end.

Definition rename_team_session (team_id session_id : string) (body : RenameRequest)
  : M Reply :=
  w ← get_world;
  match get_team_by_id w team_id (teams reg) with
  | None => raise_http 404 "Team not found"
  | Some team =>
      match team_objs w !! team ≫= Team.storage with
      | None => raise_http 404 "Team does not have storage enabled"
      | Some st =>
          all_team_sessions ←
            unguarded (Storage.get_all_sessions (rename_user_id body) (Some team_id)
                         (storage_at w st));
          match find_session session_id all_team_sessions with
          | Some session =>
              log (team_rename_session team (rename_name body) session_id);;
              w ← get_world;
              match Team_rename_session w team (rename_name body) session_id with
              | Some e => raise e
              | None =>
                  modify (λ w, set_storage_objs
                                 (alter (Storage.rename session_id (rename_name body)) st
                                    (storage_objs w)) w);;
                  mret (JSONResponse 200
                          (Py.Dict [("message",
                             Py.Str ("successfully renamed team session "
                                     +:+ rename_name body))]))
              end
          | None => raise_http 404 "Session not found"
          end
      end
  end.

End Router.

(** ** A concrete playground

    One instance of the collaborators and one small world, on which the
    handlers can be run: an agent whose model fails on the messages
    ["boom"] (at once) and ["late boom"] (after the first chunk), a team, a
    workflow of each generation, and a storage with a few sessions. *)

Module Demo.

Definition kind_name (k : EventKind) : string :=
  match k with
  | content_delta => "content-delta"
  | tool_call_proposed => "tool-call-proposed"
  | tool_result => "tool-result"
  | paused => "paused"
  | completed => "completed"
  | error => "error"
  end.

Definition digit (n : nat) : string :=
  match n with
  | 0 => "0" | 1 => "1" | 2 => "2" | 3 => "3" | 4 => "4"
  | 5 => "5" | 6 => "6" | 7 => "7" | 8 => "8" | _ => "9"
  end.

Definition provider_failure : exn := Py.Exception "ModelProviderError" "model provider failed".

(** The events of a run on [message].  On ["research"] the entity uses a
    tool, and it reports the steps of that only when it is asked to stream
    intermediate steps. *)
Definition script (message : string) (stream_intermediate_steps : option bool)
  : gen Event :=
  if String.eqb message "boom" then Raise provider_failure
  else if String.eqb message "late boom"
  then Yield (mkEvent content_delta "partial") (Raise provider_failure)
  else if String.eqb message "research"
  then match stream_intermediate_steps with
       | Some true =>
           Yield (mkEvent tool_call_proposed "search")
             (Yield (mkEvent tool_result "3 hits")
                (Yield (mkEvent content_delta "summary")
                   (Yield (mkEvent completed "") Return)))
       | _ => Yield (mkEvent content_delta "summary") (Yield (mkEvent completed "") Return)
       end
  else Yield (mkEvent content_delta message) (Yield (mkEvent completed "") Return).

(** An entity run: the iterator of the script when streaming, and the
    response that aggregates it (or the failure) when not. *)
Definition run_entity (message : string) (stream stream_intermediate_steps : option bool)
  : exn + RunValue :=
  match stream with
  | Some true => inr (Iterator (script message stream_intermediate_steps))
  | _ =>
      match Py.failure (script message stream_intermediate_steps) with
      | Some e => inl e
      | None =>
          inr (Response (mkRunResponse (Some "run-1")
                           (Py.items (script message stream_intermediate_steps))))
      end
  end.

Definition message_of (input : Py.dict) : string :=
  match Py.get "message" input with Py.Str s => s | _ => "" end.

(** A lenient entity: it resumes a run with whatever resolutions came. *)
Definition resume_entity (stream : option bool) : exn + RunValue :=
  let events := [mkEvent tool_result "resumed"; mkEvent completed ""] in
  match stream with
  | Some true => inr (Iterator (Py.of_list events))
  | _ => inr (Response (mkRunResponse (Some "run-1") events))
  end.

Definition from_dict (tool : Py.value) : exn + ToolExecution :=
  match tool with
  | Py.Dict d =>
      inr (mkToolExecution
             (match Py.get "tool_call_id" d with Py.Str s => Some s | _ => None end)
             (match Py.get "result" d with Py.Str s => Some s | _ => None end))
  | _ => inl (Py.AttributeError "object has no attribute 'get'")
  end.

#[export] Instance collaborators : Collaborators := {|
  uuid4 := λ n, "uuid4-" +:+ digit n;
  to_json := λ ev, kind_name (kind ev) +:+ ": " +:+ payload ev;
  to_dict := λ r,
    [("run_id", Py.of_option_str (run_id r));
     ("events", Py.List (List.map (λ ev, Py.Str (kind_name (kind ev) +:+ ": " +:+ payload ev))
                           (transcript r)))];
  Agent_arun := λ _ _ args,
    run_entity (RunArgs.message args) (RunArgs.stream args)
      (RunArgs.stream_intermediate_steps args);
  Agent_acontinue_run := λ _ _ args, resume_entity (ContinueArgs.stream args);
  Agent_rename_session := λ _ _ _ _, None;
  Team_arun := λ _ _ args,
    run_entity (RunArgs.message args) (RunArgs.stream args)
      (RunArgs.stream_intermediate_steps args);
  Team_rename_session := λ _ _ _ _, None;
  Workflow_run := λ w self input,
    match workflow_objs w !! self with
    | Some (V1 wf) =>
        if bool_decide (Workflow._run_return_type wf = Some "RunResponse")
        then run_entity (message_of input) (Some false) None
        else run_entity (message_of input) (Some true) None
    | _ => inl (Py.AttributeError "run")
    end;
  Workflow_arun := λ _ _ args,
    run_entity (message_of (WorkflowArgs.input args)) (WorkflowArgs.stream args)
      (WorkflowArgs.stream_intermediate_steps args);
  Workflow_rename_session := λ _ _ _, None;
  process_image := λ file, inr (contents file);
  process_audio := λ file, inr (contents file);
  process_video := λ file, inr (contents file);
  process_document := λ file, inr (Some (mkFileMedia (contents file)));
  Reader_read := λ _ _ contents, inr [contents];
  ToolExecution_from_dict := from_dict;
  import_reader := λ _, None;
  UploadFile_read := λ file, inr (contents file);
  Knowledge_load_documents := λ w kb docs, inr (default [] (knowledge_objs w !! kb) ++ docs);
|}.

(** A run the parent team produced, a run of a member tagged with the
    parent session ["S"], and a run tagged with another session. *)
Definition team_run : Py.value :=
  Py.Dict [("content", Py.Str "plan");
           ("messages", Py.List [Py.Dict [("role", Py.Str "user");
                                          ("content", Py.Str "hello")]])].
Definition member_run : Py.value :=
  Py.Dict [("content", Py.Str "draft"); ("team_session_id", Py.Str "S")].
Definition foreign_run : Py.value :=
  Py.Dict [("content", Py.Str "other"); ("team_session_id", Py.Str "T")].

(** A paused run of the agent that waits for the tool calls ["t1"] and
    ["t2"]. *)
Definition paused_run : Py.dict :=
  [("run_id", Py.Str "run-1"); ("is_paused", Py.Bool true);
   ("event", Py.Str "RunPaused");
   ("tools", Py.List [Py.Dict [("tool_call_id", Py.Str "t1"); ("tool_name", Py.Str "search")];
                      Py.Dict [("tool_call_id", Py.Str "t2"); ("tool_name", Py.Str "fetch")]])].

Definition sessions : list Session.t :=
  [ Session.mk "S" (Some "ann") (Some "writers")
      (Some [("runs", Py.List [team_run; member_run; foreign_run])]) None 0;
    Session.mk "E" (Some "ann") (Some "writer-agent")
      (Some [("runs", Py.List [])]) None 1;
    Session.mk "A" (Some "ann") (Some "writer-agent")
      (Some [("runs", Py.List [team_run])]) None 2;
    Session.mk "P" (Some "ann") (Some "writer-agent")
      (Some [("runs", Py.List [Py.Dict paused_run])]) None 3 ].

(** A resolution of ["t1"] alone, and one of a tool call nobody proposed. *)
Definition resolve_t1 : ToolsField :=
  tools_json (Py.List [Py.Dict [("tool_call_id", Py.Str "t1"); ("result", Py.Str "ok")]]).
Definition resolve_unknown : ToolsField :=
  tools_json (Py.List [Py.Dict [("tool_call_id", Py.Str "t1"); ("result", Py.Str "ok")];
                       Py.Dict [("tool_call_id", Py.Str "t2"); ("result", Py.Str "ok")];
                       Py.Dict [("tool_call_id", Py.Str "t9"); ("result", Py.Str "ok")]]).

Definition world : World := {|
  agent_objs := {[ 0 := Agent.mk (Some "writer-agent") (Some "Writer") true None (Some 0) ]};
  team_objs := {[ 0 := Team.mk (Some "writers") (Some "Writers") true (Some 0) ]};
  workflow_objs :=
    {[ 0 := V1 (Workflow.mk (Some "blog") (Some "Blog") (Some "old") (Some "bob")
                  (Some "kept") (Some "RunResponse") (Some 0));
       1 := V2 (WorkflowV2.mk (Some "pipeline") (Some "Pipeline") None (Some 0));
       2 := V1 (Workflow.mk (Some "digest") (Some "Digest") None None None
                  (Some "Iterator") (Some 0)) ]};
  knowledge_objs := ∅;
  storage_objs := {[ 0 := Storage.mk sessions None ]};
  uuid_calls := 0;
  calls := [];
|}.

Definition registry : Registry := mkRegistry (Some [0]) (Some [0; 1; 2]) (Some [0]).

End Demo.

(** ** Notions the properties are stated with *)

(** What a handler logged on top of the calls that were there before. *)
Definition new_calls (before after : World) : list Call :=
  drop (length (calls before)) (calls after).

(** The events an entity call delivers to a streamer before it stops ... *)
Definition delivered_events (call : exn + RunValue) : list Event :=
  match call with
  | inr (Iterator g) => Py.items g
  | _ => []
  end.

(** ... and the exception that stops it, if one does. *)
Definition raised (call : exn + RunValue) : option exn :=
  match call with
  | inl e => Some e
  | inr v => match aiter v with inl e => Some e | inr g => Py.failure g end
  end.

(** A stream that carries a run whose failure was converted: the events
    that were delivered, then one error event if the run failed, and a
    normal end. *)
Definition converted `{Collaborators} (error_event : string → Event)
    (call : exn + RunValue) (body : gen string) : Prop :=
  Py.failure body = None
  ∧ Py.items body
    = List.map to_json (delivered_events call)
      ++ match raised call with
         | Some e => [to_json (error_event (Py.str e))]
         | None => []
         end.

(** The caller is answered: by a stream that ends normally, by a returned
    value, or by the error reply the framework makes of an
    [HTTPException]; no other exception reaches it. *)
Definition answered (o : Outcome Reply) : Prop :=
  match o with
  | Ok (StreamingResponse body) => Py.failure body = None
  | Ok _ => True
  | HTTPException _ _ => True
  | Uncaught _ => False
  end.

(** Mode equivalence of one run: the streamed records are the records of
    the transcript in the buffered response, which an agent or a team run
    returns as its dictionary and a workflow run as the object itself. *)
Definition mode_equivalent `{Collaborators} (streaming buffered : Outcome Reply) : Prop :=
  ∃ body r,
    streaming = Ok (StreamingResponse body)
    ∧ (buffered = Ok (Returned (Py.Dict (to_dict r)))
       ∨ buffered = Ok (ReturnedRun (Response r)))
    ∧ Py.items body = List.map to_json (transcript r).

(** The records a streamer makes of one call of the entity: the events that
    were delivered, then the error event of the exception that stopped the
    run, if one did. *)
Definition streamed_records `{Collaborators} (error_event : string → Event)
    (call : exn + RunValue) : list string :=
  List.map to_json (delivered_events call)
  ++ match raised call with
     | Some e => [to_json (error_event (Py.str e))]
     | None => []
     end.

(** The two invocations of an entity agree: the awaited one returns a
    response, and what is returned for it is what is returned for a
    response whose transcript has the records of the streamed one. *)
Definition invocations_agree `{Collaborators} (error_event : string → Event)
    (returned : RunResponse → Reply) (streamed awaited : exn + RunValue) : Prop :=
  ∃ r0 r,
    awaited = inr (Response r0)
    ∧ returned r0 = returned r
    ∧ streamed_records error_event streamed = List.map to_json (transcript r).

(** What the buffered run of an agent or a team returns for a response ... *)
Definition as_dictionary `{Collaborators} (r : RunResponse) : Reply :=
  Returned (Py.Dict (to_dict r)).

(** ... and the buffered run of a workflow. *)
Definition as_object (r : RunResponse) : Reply := ReturnedRun (Response r).

(** The arguments [create_agent_run] and [create_team_run] start a run
    with. *)
Definition run_args (message : string) (session_id : string) (user_id : option string)
    (up : Uploads) (stream : bool) : RunArgs.t :=
  RunArgs.mk message (Some session_id) user_id
    (if_any (base64_images up)) (if_any (base64_audios up))
    (if_any (base64_videos up)) (if_any (input_files up))
    (Some stream) (if stream then Some true else None).

(** The world in which a logged call runs. *)
Definition logged (c : Call) (w : World) : World := (log c w).1.

(** Modelled from the spec: the pending tool-call set of a paused run, the
    identifiers of the tool calls that are stored with it as proposed. *)
Definition pending_tool_calls (run : Py.dict) : list string :=
  match Py.get "tools" run with
  | Py.List tools =>
      omap (λ t, match t with
                 | Py.Dict d =>
                     match Py.get "tool_call_id" d with Py.Str s => Some s | _ => None end
                 | _ => None
                 end) tools
  | _ => []
  end.

(** The resolutions name every pending tool call, and no other. *)
Definition resolves_exactly (pending : list string)
    (updated_tools : option (list ToolExecution)) : bool :=
  let ids := omap tool_call_id (default [] updated_tools) in
  forallb (λ p, existsb (String.eqb p) ids) pending
  && forallb (λ i, existsb (String.eqb i) pending) ids.

(** A request that is rejected before the entity was asked anything. *)
Definition rejected_unstarted (w : World) (r : World * Outcome Reply) : Prop :=
  (∃ status_code detail, r.2 = HTTPException status_code detail)
  ∧ new_calls w r.1 = [].

(** Strict resume: resolutions that do not match the pending set are
    rejected. *)
Definition strict_resume `{Collaborators} (reg : Registry) (w : World)
    (agent_id run_id : string) (tools : ToolsField) (session_id user_id : option string)
    (stream : bool) (pending : list string) : Prop :=
  ∀ updated_tools,
    updated_tools_of (tools_data_of tools) = inr updated_tools →
    resolves_exactly pending updated_tools = false →
    rejected_unstarted w
      (continue_agent_run reg agent_id run_id tools session_id user_id stream w).

(** The arguments [continue_agent_run] resumes a run with. *)
Definition continue_args (run_id : string) (updated_tools : option (list ToolExecution))
    (session_id user_id : option string) (stream : bool) : ContinueArgs.t :=
  ContinueArgs.mk (Some run_id) updated_tools session_id user_id
    (Some stream) (if stream then Some true else None).

(** The runs of a display transcript: the ["response"] of every entry under
    ["runs"]. *)
Definition displayed_runs (session_dict : Py.dict) : list Py.value :=
  match Py.get "runs" session_dict with
  | Py.List entries =>
      omap (λ e, match e with Py.Dict d => Py.lookup "response" d | _ => None end)
        entries
  | _ => []
  end.

(** The session identifier a stored run is tagged with. *)
Definition team_session_tag (run : Py.value) : option string :=
  match run with
  | Py.Dict d => match Py.get "team_session_id" d with Py.Str s => Some s | _ => None end
  | _ => None
  end.

(** The claimed filter: sub-runs tagged with another session are left out,
    runs of the parent session are shown. *)
Definition hides_foreign_sub_runs (session_id : string)
    (stored displayed : list Py.value) : Prop :=
  (∀ run t, run ∈ stored → team_session_tag run = Some t → t ≠ session_id →
            run ∉ displayed)
  ∧ (∀ run, run ∈ stored →
            team_session_tag run = None ∨ team_session_tag run = Some session_id →
            run ∈ displayed).

(** The test of the team view: the run carries the identifier of the
    requested session as its tag. *)
Definition tagged_with (session_id : string) (run : Py.value) : bool :=
  match run with
  | Py.Dict d =>
      Py.is_not_None (Py.get "team_session_id" d)
      && Py.eq_str (Py.get "team_session_id" d) session_id
  | _ => false
  end.

(** The first user message of a stored run, when its messages can be gone
    through. *)
Definition message_of_run (run : Py.value) : exn + Py.value :=
  run ← Py.as_dict run;
  messages ← Py.iter (Py.get_default "messages" (Py.List []) run);
  first_user_message messages.

(** A stored run the team view gets through without an exception. *)
Definition team_readable (session_id : string) (run : Py.value) : bool :=
  match run with
  | Py.Dict _ =>
      tagged_with session_id run
      || match message_of_run run with inr _ => true | inl _ => false end
  | _ => false
  end.

(** The entry the team view shows for a run. *)
Definition team_entry (run : Py.value) : Py.value :=
  match run, message_of_run run with
  | Py.Dict d, inr message => run_entry message d
  | _, _ => Py.None_
  end.

(** The session a request names, or the fresh one. *)
Definition chosen_session `{Collaborators} (w : World) (session_id : option string)
  : string :=
  match session_id with
  | Some s => if String.eqb s "" then uuid4 (uuid_calls w) else s
  | None => uuid4 (uuid_calls w)
  end.

(** How many identifiers that choice draws. *)
Definition uuid_drawn (session_id : option string) : nat :=
  match session_id with
  | Some s => if String.eqb s "" then 1 else 0
  | None => 1
  end.

(** The session a logged run goes to: the keyword of [arun], and for the
    [run] of a first-generation workflow the field of its receiver. *)
Definition run_session (w : World) (c : Call) : option (option string) :=
  match c with
  | agent_arun _ args | team_arun _ args => Some (RunArgs.session_id args)
  | workflow_arun _ args => Some (WorkflowArgs.session_id args)
  | workflow_run self _ => Some (workflow_objs w !! self ≫= AnyWorkflow.session_id)
  | _ => None
  end.

(** The claimed rule: whatever run the request starts goes to the session
    it names, or to a fresh one when it names none. *)
Definition session_rule `{Collaborators} (session_id : option string) (w : World)
    (r : World * Outcome Reply) : Prop :=
  ∀ s, s ∈ omap (run_session r.1) (new_calls w r.1) →
       s = Some (chosen_session w session_id).

Inductive Delivery : Type := buffered | streaming.

Definition delivery (reply : Reply) : option Delivery :=
  match reply with
  | StreamingResponse _ => Some streaming
  | ReturnedRun _ => Some buffered
  | _ => None
  end.

(** The claimed selection: how a workflow delivers is fixed by the
    workflow, whatever the request says. *)
Definition delivery_by_detection `{Collaborators} (reg : Registry) (w : World)
    (workflow_id : string) : Prop :=
  ∃ d, ∀ body reply,
    (create_workflow_run reg workflow_id body w).2 = Ok reply →
    delivery reply = Some d.

(** The discipline a first-generation workflow declares. *)
Definition declared_delivery (wf : Workflow.t) : Delivery :=
  if bool_decide (Workflow._run_return_type wf = Some "RunResponse")
  then buffered else streaming.

(** The registered handles are what they were. *)
Definition handles_unchanged (w w' : World) : Prop :=
  agent_objs w' = agent_objs w
  ∧ team_objs w' = team_objs w
  ∧ ∀ l o, workflow_objs w !! l = Some o → workflow_objs w' !! l = Some o.

(** Two states of an agent that differ at most in the monitoring flag. *)
Definition agent_but_monitoring (a a' : Agent.t) : Prop :=
  Agent.agent_id a' = Agent.agent_id a ∧ Agent.name a' = Agent.name a
  ∧ Agent.knowledge a' = Agent.knowledge a ∧ Agent.storage a' = Agent.storage a.

Definition team_but_monitoring (a a' : Team.t) : Prop :=
  Team.team_id a' = Team.team_id a ∧ Team.name a' = Team.name a
  ∧ Team.storage a' = Team.storage a.

(** A call that loads documents into a knowledge base. *)
Definition is_load (c : Call) : Prop :=
  match c with knowledge_load_documents _ _ => True | _ => False end.

(** The call a streamed second-generation workflow run comes down to. *)
Definition streamed_workflow_call `{Collaborators} (w' : World) (workflow : loc) (sid : string)
    (body : WorkflowRunRequest) : exn + RunValue :=
  match keyword_clash (input body)
          ["user_id"; "session_id"; "stream"; "stream_intermediate_steps"] with
  | Some e => inl e
  | None =>
      Workflow_arun w' workflow
        (WorkflowArgs.mk (input body) (user_id body) (Some sid) (Some true) (Some true))
  end.

(** The call an awaited second-generation workflow run comes down to. *)
Definition awaited_workflow_call `{Collaborators} (w' : World) (workflow : loc)
    (sid : string) (body : WorkflowRunRequest) : exn + RunValue :=
  match keyword_clash (input body) ["session_id"; "user_id"] with
  | Some e => inl e
  | None =>
      Workflow_arun w' workflow
        (WorkflowArgs.mk (input body) (user_id body) (Some sid) None None)
  end.

(** The request [body] with the [stream] flag set or cleared. *)
Definition asking (stream : bool) (body : WorkflowRunRequest) : WorkflowRunRequest :=
  mkWorkflowRunRequest (input body) (user_id body) (session_id body) stream.

(** What a workflow run request may end in: a reply, the rejection of an
    unknown workflow, or the error reply made of an exception of the run. *)
Definition workflow_fault_contained (o : Outcome Reply) : Prop :=
  match o with
  | Ok _ => True
  | HTTPException status_code detail =>
      status_code = 404
      ∨ (status_code = 500 ∧ ∃ e, detail = "Error running workflow: " +:+ Py.str e)
  | Uncaught _ => False
  end.

(** The dictionary a session view returned. *)
Definition returned_dict (o : Outcome Reply) : Py.dict :=
  match o with
  | Ok (Returned (Py.Dict d)) => d
  | _ => []
  end.

(** A step of a handler that at most loads documents into knowledge bases:
    no handle, no storage and no identifier is touched, and the calls it
    logs are loads. *)
Definition only_loads (w w' : World) : Prop :=
  agent_objs w' = agent_objs w
  ∧ team_objs w' = team_objs w
  ∧ workflow_objs w' = workflow_objs w
  ∧ storage_objs w' = storage_objs w
  ∧ uuid_calls w' = uuid_calls w
  ∧ ∃ loads, calls w' = calls w ++ loads ∧ Forall is_load loads.

(** The copy [create_workflow_run] makes of a registered first-generation
    workflow, once the fields of the request are written into it. *)
Definition run_copy (registered : Workflow.t) (workflow_id : string)
    (body : WorkflowRunRequest) : Workflow.t :=
  Workflow.mk (Some workflow_id) (Workflow.name registered) (session_id body)
    (user_id body) None (Workflow._run_return_type registered)
    (Workflow.storage registered).

(** A call of [load_documents] on the knowledge base [kb]. *)
Definition loads_into (kb : option loc) (c : Call) : Prop :=
  match c with knowledge_load_documents l _ => kb = Some l | _ => False end.

(** A step of a handler that leaves the knowledge bases to [load_documents]
    of the knowledge base [kb]: these loads are all it calls, and the
    knowledge bases are as they were when it calls none. *)
Definition knowledge_kept (kb : option loc) (w w' : World) : Prop :=
  ∃ loads,
    calls w' = calls w ++ loads
    ∧ Forall (loads_into kb) loads
    ∧ (loads = [] → knowledge_objs w' = knowledge_objs w).

(** ** Session listings, session deletion and the workflow session view

    The remaining session endpoints.  What they call outside the router are
    the title functions of the operator module, [delete_session] of the
    three entity classes and [to_dict] of a stored workflow session. *)

Class Operators : Type := {
  get_session_title : Session.t → exn + string;
  get_session_title_from_team_session : Session.t → exn + string;
  get_session_title_from_workflow_session : Session.t → exn + string;
  Agent_delete_session : World → loc → string → option exn;
  Team_delete_session : World → loc → string → option exn;
  Workflow_delete_session : World → loc → string → option exn;
  WorkflowSession_to_dict : Session.t → Py.dict;
}.

(** Modelled from the spec: [deleteSession(sessionId)] of the Session Store
    contract, after which the session is not found. *)
Definition delete_stored_session (session_id : string) (st : Storage.t) : Storage.t :=
  Storage.mk
    (List.filter (λ s, negb (String.eqb (Session.session_id s) session_id))
       (Storage.sessions st))
    (Storage.fault st).

(** [session.session_data.get("session_name") if session.session_data else None] *)
Definition session_name_of (session : Session.t) : Py.value :=
  match Session.session_data session with
  | Some session_data =>
      if Py.truthy (Py.Dict session_data) then Py.get "session_name" session_data
      else Py.None_
  | None => Py.None_
  end.

(** One entry of a session listing. *)
Definition session_summary (title : string) (session : Session.t) : Py.value :=
  Py.Dict [("title", Py.Str title);
           ("session_id", Py.Str (Session.session_id session));
           ("session_name", session_name_of session);
           ("created_at", Py.Int (Session.created_at session))].

(** The loop of the three listings: a title and an entry per session. *)
Fixpoint session_summaries (get_title : Session.t → exn + string)
    (all_sessions : list Session.t) : exn + list Py.value :=
  match all_sessions with
  | [] => inr []
  | session :: rest =>
      title ← get_title session;
      sessions ← session_summaries get_title rest;
      mret (session_summary title session :: sessions)
  end.

(** The lines of [get_workflow_session] that give the dictionary of a
    second-generation session, which keeps its runs at the top, the shape
    of a first-generation one. *)
Definition runs_under_memory (workflow_session_dict : Py.dict) : Py.dict :=
  if Py.contains "memory" workflow_session_dict then workflow_session_dict
  else
    let runs := Py.get_default "runs" (Py.List []) workflow_session_dict in
    Py.set "memory" (Py.Dict [("runs", runs)]) (Py.pop "runs" workflow_session_dict).

Section SessionEndpoints.
Context `{Operators}.
Variable reg : Registry.

Definition get_all_agent_sessions (agent_id : string) (user_id : option string)
  : M Reply :=
  w ← get_world;
  match get_agent_by_id w agent_id (agents reg) with
  | None => mret (JSONResponse 404 (Py.Str "Agent not found."))
  | Some agent =>
      match agent_objs w !! agent ≫= Agent.storage with
      | None => mret (JSONResponse 404 (Py.Str "Agent does not have storage enabled."))
      | Some st =>
          all_agent_sessions ←
            unguarded (Storage.get_all_sessions user_id (Some agent_id) (storage_at w st));
          agent_sessions ← unguarded (session_summaries get_session_title all_agent_sessions);
          mret (Returned (Py.List agent_sessions))
      end
  end.

Definition delete_agent_session (agent_id session_id : string) (user_id : option string)
  : M Reply :=
  w ← get_world;
  match get_agent_by_id w agent_id (agents reg) with
  | None => mret (JSONResponse 404 (Py.Str "Agent not found."))
  | Some agent =>
      match agent_objs w !! agent ≫= Agent.storage with
      | None => mret (JSONResponse 404 (Py.Str "Agent does not have storage enabled."))
      | Some st =>
          all_agent_sessions ←
            unguarded (Storage.get_all_sessions user_id (Some agent_id) (storage_at w st));
          match find_session session_id all_agent_sessions with
          | Some session =>
              match Agent_delete_session w agent session_id with
              | Some e => raise e
              | None =>
                  modify (λ w, set_storage_objs
                                 (alter (delete_stored_session session_id) st
                                    (storage_objs w)) w);;
                  mret (JSONResponse 200
                          (Py.Dict [("message",
                             Py.Str ("successfully deleted session " +:+ session_id))]))
              end
          | None => mret (JSONResponse 404 (Py.Str "Session not found."))
          end
      end
  end.

Definition get_all_workflow_sessions (workflow_id : string) (user_id : option string)
  : M Reply :=
  (* Retrieve the workflow by ID *)
  w ← get_world;
  match get_workflow_by_id w workflow_id (workflows reg) with
  | None => raise_http 404 "Workflow not found"
  | Some workflow =>
      (* Ensure storage is enabled for the workflow *)
      match workflow_objs w !! workflow ≫= AnyWorkflow.storage with
      | None => raise_http 404 "Workflow does not have storage enabled"
      | Some st =>
          (* Retrieve all sessions for the given workflow and user *)
          match Storage.get_all_sessions user_id (Some workflow_id) (storage_at w st) with
          | inl e => raise_http 500 ("Error retrieving sessions: " +:+ Py.str e)
          | inr all_workflow_sessions =>
              (* Return the sessions *)
              workflow_sessions ←
                unguarded (session_summaries get_session_title_from_workflow_session
                             all_workflow_sessions);
              mret (Returned (Py.List workflow_sessions))
          end
      end
  end.

Definition get_workflow_session (workflow_id session_id : string)
    (user_id : option string) : M Reply :=
  (* Retrieve the workflow by ID *)
  w ← get_world;
  match get_workflow_by_id w workflow_id (workflows reg) with
  | None => raise_http 404 "Workflow not found"
  | Some workflow =>
      (* Ensure storage is enabled for the workflow *)
      match workflow_objs w !! workflow ≫= AnyWorkflow.storage with
      | None => raise_http 404 "Workflow does not have storage enabled"
      | Some st =>
          (* Retrieve the specific session *)
          match Storage.read session_id user_id (storage_at w st) with
          | inl e => raise_http 500 ("Error retrieving session: " +:+ Py.str e)
          | inr None => raise_http 404 "Session not found"
          | inr (Some workflow_session) =>
              let workflow_session_dict := WorkflowSession_to_dict workflow_session in
              mret (JSONResponse 200 (Py.Dict (runs_under_memory workflow_session_dict)))
          end
      end
  end.

Definition delete_workflow_session (workflow_id session_id : string) : M Reply :=
  w ← get_world;
  match get_workflow_by_id w workflow_id (workflows reg) with
  | None => raise_http 404 "Workflow not found"
  | Some workflow =>
      match Workflow_delete_session w workflow session_id with
      | Some e => raise e
      | None =>
          match workflow_objs w !! workflow ≫= AnyWorkflow.storage with
          | Some st =>
              modify (λ w, set_storage_objs
                             (alter (delete_stored_session session_id) st
                                (storage_objs w)) w)
          | None => mret tt
          end;;
          mret (JSONResponse 200
                  (Py.Dict [("message",
                     Py.Str ("successfully deleted workflow "
                             +:+ Py.format_opt
                                   (workflow_objs w !! workflow ≫= AnyWorkflow.name)))]))
      end
  end.

Definition get_all_team_sessions (team_id : string) (user_id : option string)
  : M Reply :=
  w ← get_world;
  match get_team_by_id w team_id (teams reg) with
  | None => raise_http 404 "Team not found"
  | Some team =>
      match team_objs w !! team ≫= Team.storage with
      | None => raise_http 404 "Team does not have storage enabled"
      | Some st =>
          match Storage.get_all_sessions user_id (Some team_id) (storage_at w st) with
          | inl e => raise_http 500 ("Error retrieving sessions: " +:+ Py.str e)
          | inr all_team_sessions =>
              team_sessions ←
                unguarded (session_summaries get_session_title_from_team_session
                             all_team_sessions);
              mret (Returned (Py.List team_sessions))
          end
      end
  end.

Definition delete_team_session (team_id session_id : string) (user_id : option string)
  : M Reply :=
  w ← get_world;
  match get_team_by_id w team_id (teams reg) with
  | None => raise_http 404 "Team not found"
  | Some team =>
      match team_objs w !! team ≫= Team.storage with
      | None => raise_http 404 "Team does not have storage enabled"
      | Some st =>
          all_team_sessions ←
            unguarded (Storage.get_all_sessions user_id (Some team_id) (storage_at w st));
          match find_session session_id all_team_sessions with
          | Some session =>
              match Team_delete_session w team session_id with
              | Some e => raise e
              | None =>
                  modify (λ w, set_storage_objs
                                 (alter (delete_stored_session session_id) st
                                    (storage_objs w)) w);;
                  mret (JSONResponse 200
                          (Py.Dict [("message",
                             Py.Str ("successfully deleted team session "
                                     +:+ session_id))]))
              end
          | None => raise_http 404 "Session not found"
          end
      end
  end.

End SessionEndpoints.

(** ** The model label of [get_agents] *)

(** What [get_agents] reads of the model of an agent: three optional
    strings and the name of the class of the model object. *)
Module Model.
Record t : Type := mk {
  id : option string;
  name : option string;
  provider : option string;
  class_name : string;          (* [model.__class__.__name__] *)
}.
End Model.

(** [AgentModel(name=..., model=..., provider=...)] *)
Record AgentModel : Type := mkAgentModel {
  agent_model_name : option string;
  agent_model_model : option string;
  agent_model_provider : option string;
}.

(** [x or y] for an optional string [x]. *)
Definition or_else (x : option string) (y : string) : string :=
  match x with
  | Some s => if Py.truthy (Py.Str s) then s else y
  | None => y
  end.

(** The lines of [get_agents] that name the model of one agent. *)
Definition agent_model (model : option Model.t) : AgentModel :=
  let name :=
    match model with
    | Some m => Some (or_else (Model.name m) (Model.class_name m))
    | None => None
    end in
  let provider :=
    match model with
    | Some m => or_else (Model.provider m) (Model.class_name m)
    | None => ""
    end in
  let model_id := match model with Some m => Model.id m | None => None end in
  let provider :=
    if Py.truthy (Py.Str provider) && Py.truthy (Py.of_option_str model_id)
    then provider +:+ " " +:+ Py.format_opt model_id
    else if Py.truthy (Py.of_option_str name) && Py.truthy (Py.of_option_str model_id)
    then Py.format_opt name +:+ " " +:+ Py.format_opt model_id
    else if Py.truthy (Py.of_option_str model_id) then Py.format_opt model_id
    else "" in
  mkAgentModel name model_id (Some provider).

(** ** A playground with a knowledge base and a failing storage *)

Module Desk.

Definition title_of (session : Session.t) : exn + string :=
  match session_name_of session with
  | Py.Str s => inr s
  | _ => inr ("Session " +:+ Session.session_id session)
  end.

(** The dictionary of a second-generation workflow session keeps the runs
    at the top and has no memory. *)
Definition workflow_session_dict (session : Session.t) : Py.dict :=
  [ ("session_id", Py.Str (Session.session_id session));
    ("workflow_id", Py.of_option_str (Session.entity_id session));
    ("runs", match Session.memory session with
             | Some m => Py.get "runs" m
             | None => Py.List []
             end);
    ("created_at", Py.Int (Session.created_at session)) ].

Definition lock_failure : exn := Py.Exception "OperationalError" "database is locked".

(** The collaborators of the first playground, with an image helper that
    cannot decode the contents ["broken"]. *)
Definition collaborators : Collaborators := {|
  uuid4 := uuid4 (Collaborators := Demo.collaborators);
  to_json := to_json (Collaborators := Demo.collaborators);
  to_dict := to_dict (Collaborators := Demo.collaborators);
  Agent_arun := Agent_arun (Collaborators := Demo.collaborators);
  Agent_acontinue_run := Agent_acontinue_run (Collaborators := Demo.collaborators);
  Agent_rename_session := Agent_rename_session (Collaborators := Demo.collaborators);
  Team_arun := Team_arun (Collaborators := Demo.collaborators);
  Team_rename_session := Team_rename_session (Collaborators := Demo.collaborators);
  Workflow_run := Workflow_run (Collaborators := Demo.collaborators);
  Workflow_arun := Workflow_arun (Collaborators := Demo.collaborators);
  Workflow_rename_session := Workflow_rename_session (Collaborators := Demo.collaborators);
  process_image := λ file,
    if String.eqb (contents file) "broken"
    then inl (Py.Exception "ValueError" "cannot decode the image")
    else inr (contents file);
  process_audio := process_audio (Collaborators := Demo.collaborators);
  process_video := process_video (Collaborators := Demo.collaborators);
  process_document := process_document (Collaborators := Demo.collaborators);
  Reader_read := Reader_read (Collaborators := Demo.collaborators);
  ToolExecution_from_dict := ToolExecution_from_dict (Collaborators := Demo.collaborators);
  import_reader := λ reader,
    match reader with
    | PDFReader => Some (Py.Exception "ImportError" "`pypdf` not installed")
    | _ => None
    end;
  UploadFile_read := UploadFile_read (Collaborators := Demo.collaborators);
  Knowledge_load_documents := Knowledge_load_documents (Collaborators := Demo.collaborators);
|}.

#[export] Instance operators : Operators := {|
  get_session_title := title_of;
  get_session_title_from_team_session := title_of;
  get_session_title_from_workflow_session := title_of;
  Agent_delete_session := λ _ _ _, None;
  Team_delete_session := λ _ _ _, None;
  Workflow_delete_session := λ _ _ _, None;
  WorkflowSession_to_dict := workflow_session_dict;
|}.

(** A run that carries a memory of its own, and whose messages start with
    one that was replayed from the history. *)
Definition noted_run : Py.value :=
  Py.Dict [("content", Py.Str "answer");
           ("memory", Py.Dict [("summary", Py.Str "long")]);
           ("messages",
            Py.List [Py.Dict [("role", Py.Str "user"); ("content", Py.Str "old");
                              ("from_history", Py.Bool true)];
                     Py.Dict [("role", Py.Str "system"); ("content", Py.Str "rules")];
                     Py.Dict [("role", Py.Str "user"); ("content", Py.Str "new")];
                     Py.Str "garbled"])].

(** A run of a member that is tagged with the session ["M"]. *)
Definition own_run : Py.value :=
  Py.Dict [("content", Py.Str "draft"); ("team_session_id", Py.Str "M")].

Definition sessions : list Session.t :=
  [ Session.mk "S" (Some "ann") (Some "writers")
      (Some [("runs", Py.List [Demo.team_run; Demo.member_run])])
      (Some [("session_name", Py.Str "Plans")]) 0;
    Session.mk "A" (Some "ann") (Some "librarian")
      (Some [("runs", Py.List [noted_run; Py.Dict Demo.paused_run])]) None 1;
    Session.mk "W" (Some "ann") (Some "pipeline")
      (Some [("runs", Py.List [Demo.team_run])]) (Some []) 2;
    Session.mk "M" (Some "ann") (Some "writers")
      (Some [("runs", Py.List [own_run])]) None 3;
    Session.mk "N" (Some "ann") (Some "librarian") None None 4;
    Session.mk "B" (Some "ann") (Some "librarian")
      (Some [("runs", Py.List [Demo.team_run; Py.Str "lost"])]) None 5;
    Session.mk "Q" (Some "ann") (Some "writers") (Some []) None 6 ].

(** The agent ["librarian"] has a knowledge base that holds one document;
    the agent ["clerk"] has none and keeps its sessions in a storage whose
    backend fails, as do the team ["editors"] and the workflow ["nightly"];
    the agent ["temp"], the team ["temps"] and the workflow ["draft"] have no
    storage. *)
Definition world : World := {|
  agent_objs :=
    {[ 0 := Agent.mk (Some "librarian") (Some "Librarian") false (Some 0) (Some 0);
       1 := Agent.mk (Some "clerk") (Some "Clerk") false None (Some 1);
       2 := Agent.mk (Some "temp") (Some "Temp") false None None ]};
  team_objs :=
    {[ 0 := Team.mk (Some "writers") (Some "Writers") true (Some 0);
       1 := Team.mk (Some "editors") (Some "Editors") true (Some 1);
       2 := Team.mk (Some "temps") (Some "Temps") true None ]};
  workflow_objs :=
    {[ 0 := V2 (WorkflowV2.mk (Some "pipeline") (Some "Pipeline") None (Some 0));
       1 := V2 (WorkflowV2.mk (Some "nightly") (Some "Nightly") None (Some 1));
       2 := V2 (WorkflowV2.mk (Some "draft") (Some "Draft") None None) ]};
  knowledge_objs := {[ 0 := ["catalogue"] ]};
  storage_objs := {[ 0 := Storage.mk sessions None;
                     1 := Storage.mk [] (Some lock_failure) ]};
  uuid_calls := 0;
  calls := [];
|}.

Definition registry : Registry :=
  mkRegistry (Some [0; 1; 2]) (Some [0; 1; 2]) (Some [0; 1; 2]).

Definition upload (content_type contents : string) : UploadFile :=
  mkUploadFile (Some content_type) (Some "upload") contents.

(** The same playground after the first run of one more session of the
    librarian was lost: [None] is stored in its place. *)
Definition lost_session : Session.t :=
  Session.mk "L" (Some "ann") (Some "librarian")
    (Some [("runs", Py.List [Py.None_; Demo.team_run])]) None 7.

Definition world_with_loss : World :=
  set_storage_objs
    (<[0 := Storage.mk (sessions ++ [lost_session]) None]> (storage_objs world)) world.

End Desk.

(** ** Further notions *)

(** The status the client sees. *)
Definition status_of (o : Outcome Reply) : option nat :=
  match o with
  | Ok (JSONResponse status_code _) => Some status_code
  | Ok _ => Some 200
  | HTTPException status_code _ => Some status_code
  | Uncaught _ => None
  end.

(** The answer to a request that names nothing the router knows: status
    404, and a world that is what it was. *)
Definition answered_404 (w : World) (r : World * Outcome Reply) : Prop :=
  status_of r.2 = Some 404 ∧ r.1 = w.

(** A content type that one of the four lists of the run handlers has. *)
Definition supported (content_type : option string) : bool :=
  type_in content_type image_types || type_in content_type audio_types
  || type_in content_type video_types || type_in content_type document_types.

(** The result of a helper whose failure is passed over. *)
Definition hush {A} (r : exn + A) : option A :=
  match r with inr a => Some a | inl _ => None end.

(** The media of the files of the given types that could be processed. *)
Definition processed {A} (types : list string) (process : UploadFile → exn + A)
    (files : list UploadFile) : list A :=
  omap (λ file, if type_in (content_type file) types then hush (process file) else None)
    files.

(** The uploaded documents. *)
Definition documents (files : list UploadFile) : list UploadFile :=
  List.filter (λ file, type_in (content_type file) document_types) files.

(** What [create_agent_run] has of an uploaded document before it looks
    for a knowledge base: the reader of its type is imported, and the file
    is read. *)
Definition document_contents `{Collaborators} (file : UploadFile) : exn + string :=
  match document_reader (content_type file) ≫= import_reader with
  | Some e => inl e
  | None => UploadFile_read file
  end.

(** The document can be taken in: the reader is there and the file can be
    read. *)
Definition readable `{Collaborators} (file : UploadFile) : bool :=
  match document_contents file with inr _ => true | inl _ => false end.

(** What the reader chosen for a document gives of what was read. *)
Definition read_document `{Collaborators} (file : UploadFile) : exn + list Document :=
  contents ← document_contents file;
  match document_reader (content_type file) with
  | Some reader => Reader_read reader (filename file) contents
  | None => inr []
  end.

(** What was read from the documents that were uploaded, file by file. *)
Definition loaded `{Collaborators} (files : list UploadFile) : list (list Document) :=
  omap (λ file, hush (read_document file)) (documents files).

(** The uploaded documents as direct inputs of a run: what was read of
    each. *)
Definition direct_inputs `{Collaborators} (files : list UploadFile) : list FileMedia :=
  omap (λ file, match document_contents file with
                | inr contents => Some (mkFileMedia contents)
                | inl _ => None
                end)
    (documents files).

(** The uploaded documents as [process_document] gives them. *)
Definition processed_documents `{Collaborators} (files : list UploadFile) : list FileMedia :=
  omap (λ file, match process_document file with
                | inr (Some document_file) => Some document_file
                | _ => None
                end)
    (documents files).

(** The lists of [b] after those of [a]. *)
Definition add_uploads (a b : Uploads) : Uploads :=
  mkUploads (base64_images a ++ base64_images b) (base64_audios a ++ base64_audios b)
    (base64_videos a ++ base64_videos b) (input_files a ++ input_files b).

(** The uploads a run is started with: the media that could be processed,
    by kind and in the order of the upload, next to the given file
    inputs. *)
Definition sorted_uploads `{Collaborators} (files : list UploadFile)
    (file_inputs : list FileMedia) : Uploads :=
  mkUploads (processed image_types process_image files)
    (processed audio_types process_audio files)
    (processed video_types process_video files)
    file_inputs.

(** A message the session views take for the message of the user. *)
Definition is_user_message (msg : Py.value) : bool :=
  match msg with
  | Py.Dict m =>
      Py.eq_str (Py.get "role" m) "user"
      && Py.is_False (Py.get_default "from_history" (Py.Bool false) m)
  | _ => false
  end.

Definition is_dict (v : Py.value) : bool :=
  match v with Py.Dict _ => true | _ => false end.

(** A stored run the agent view gets through without an exception. *)
Definition agent_readable (run : Py.value) : bool :=
  match message_of_run run with inr _ => true | inl _ => false end.

(** The entry the agent view shows for a run. *)
Definition agent_entry (run : Py.value) : Py.value :=
  match run, message_of_run run with
  | Py.Dict d, inr message => run_entry message (Py.pop "memory" d)
  | _, _ => Py.None_
  end.

(** A stored run without its ["memory"]. *)
Definition without_memory (run : Py.value) : Py.value :=
  match run with Py.Dict d => Py.Dict (Py.pop "memory" d) | _ => run end.

(** The class of the exception a session view raises on a first stored run
    that is not a dictionary: the membership test fails on a value that
    cannot be searched, and [.get] on a string or a list. *)
Definition view_failure_class (first_run : Py.value) : string :=
  match first_run with
  | Py.None_ | Py.Bool _ | Py.Int _ => "TypeError"
  | _ => "AttributeError"
  end.

(** A memory in which the session views find no run response: there is
    none, it has no runs, or its first run is neither a response nor a
    paused run. *)
Definition no_run_response (memory : option Py.dict) : Prop :=
  match memory with
  | None => True
  | Some memory =>
      Py.get "runs" memory = Py.None_
      ∨ ∃ first_run rest,
          Py.get "runs" memory = Py.List (Py.Dict first_run :: rest)
          ∧ is_run_response first_run = false
  end.

(** The keys of a dictionary are unique. *)
Definition unique_keys (d : Py.dict) : Prop := NoDup (List.map fst d).
(** The entries a listing shows for the sessions the storage gave: one per
    session, in their order, each with the title computed for it. *)
Definition listed (get_title : Session.t → exn + string) (all_sessions : list Session.t)
    (entries : list Py.value) : Prop :=
  Forall2 (λ session entry,
             ∃ title, get_title session = inr title
                      ∧ entry = session_summary title session)
    all_sessions entries.

(** * Properties *)

(** ** The streamers *)

Section StreamerFacts.
Context `{Collaborators}.

Lemma relay_failure error_event g : Py.failure (relay error_event g) = None.
Proof. induction g as [a rest IH| |e]; simpl; auto. Qed.

Lemma relay_items error_event g :
  Py.items (relay error_event g)
  = List.map to_json (Py.items g)
    ++ match Py.failure g with
       | Some e => [to_json (error_event (Py.str e))]
       | None => []
       end.
Proof. induction g as [a rest IH| |e]; simpl; [by rewrite IH|done|done]. Qed.

Lemma try_stream_converted error_event call :
  converted error_event call (try_stream error_event call).
Proof.
  unfold converted, try_stream, delivered_events, raised.
  destruct call as [e|[r|g]]; simpl; try done.
  split; [apply relay_failure|apply relay_items].
Qed.

Lemma gmap_gen_items {A B} (f : A → B) (g : gen A) :
  Py.items (Py.gmap_gen f g) = List.map f (Py.items g).
Proof. induction g as [a rest IH| |e]; simpl; [by rewrite IH|done|done]. Qed.

Lemma gmap_gen_failure {A B} (f : A → B) (g : gen A) :
  Py.failure (Py.gmap_gen f g) = Py.failure g.
Proof. induction g as [a rest IH| |e]; simpl; auto. Qed.

End StreamerFacts.

(** ** Running a handler *)

Lemma first_run_is_response_dict (first_run : Py.dict) :
  first_run_is_response (Py.Dict first_run) = inr (is_run_response first_run).
Proof.
  unfold first_run_is_response, is_run_response, Py.has, Py.as_dict.
  cbn. by destruct (Py.contains "content" first_run).
Qed.

Lemma bind_unfold {A B} (m : M A) (f : A → M B) (w : World) :
  (m ≫= f) w = match m w with
               | (w', Ok a) => f a w'
               | (w', HTTPException c d) => (w', HTTPException c d)
               | (w', Uncaught e) => (w', Uncaught e)
               end.
Proof. reflexivity. Qed.

Ltac run_handler :=
  repeat (rewrite bind_unfold
          || (progress cbn [fst snd get_world modify raise raise_http unguarded
                            log logged mret M_ret])).

Section Failures.
Context `{Collaborators}.
Variable reg : Registry.

Lemma create_agent_run_streaming w agent_id message monitor session_id user_id files
    w1 agent sid up :
  agent_run_setup reg agent_id monitor session_id files w = (w1, Ok (agent, sid, up)) →
  let c := agent_arun agent (run_args message sid user_id up true) in
  ∃ body,
    create_agent_run reg agent_id message true monitor session_id user_id files w
    = (logged c w1, Ok (StreamingResponse body))
    ∧ converted RunResponseErrorEvent
        (Agent_arun (logged c w1) agent (run_args message sid user_id up true)) body.
Proof.
  intros Hs c. unfold create_agent_run. rewrite bind_unfold, Hs.
  eexists. split; [reflexivity|]. apply try_stream_converted.
Qed.

Lemma create_team_run_streaming w team_id message monitor session_id user_id files
    w1 team sid up :
  team_run_setup reg team_id monitor session_id files w = (w1, Ok (team, sid, up)) →
  let c := team_arun team (run_args message sid user_id up true) in
  ∃ body,
    create_team_run reg team_id message true monitor session_id user_id files w
    = (logged c w1, Ok (StreamingResponse body))
    ∧ converted TeamRunResponseErrorEvent
        (Team_arun (logged c w1) team (run_args message sid user_id up true)) body.
Proof.
  intros Hs c. unfold create_team_run. rewrite bind_unfold, Hs.
  eexists. split; [reflexivity|]. apply try_stream_converted.
Qed.

Lemma continue_agent_run_streaming w agent_id run_id tools session_id user_id agent ts :
  get_agent_by_id w agent_id (agents reg) = Some agent →
  tools ≠ tools_invalid →
  updated_tools_of (tools_data_of tools) = inr ts →
  let c := agent_acontinue_run agent (continue_args run_id ts session_id user_id true) in
  ∃ body,
    continue_agent_run reg agent_id run_id tools session_id user_id true w
    = (logged c w, Ok (StreamingResponse body))
    ∧ converted RunResponseErrorEvent
        (Agent_acontinue_run (logged c w) agent
           (continue_args run_id ts session_id user_id true)) body.
Proof.
  intros Ha Ht Hu c. unfold continue_agent_run.
  destruct tools as [| |v]; [|done|]; run_handler; rewrite Ha, Hu;
    (eexists; split; [reflexivity|apply try_stream_converted]).
Qed.

Lemma session_id_or_uuid4_run w session_id :
  ∃ w', session_id_or_uuid4 session_id w = (w', Ok (chosen_session w session_id))
        ∧ calls w' = calls w ∧ agent_objs w' = agent_objs w
        ∧ team_objs w' = team_objs w ∧ workflow_objs w' = workflow_objs w
        ∧ storage_objs w' = storage_objs w ∧ knowledge_objs w' = knowledge_objs w
        ∧ uuid_calls w' = uuid_calls w + uuid_drawn session_id.
Proof.
  unfold session_id_or_uuid4, chosen_session, uuid_drawn, str_uuid4.
  destruct session_id as [s|]; [destruct (String.eqb s "")|];
    eexists; (split; [reflexivity|]); cbn; repeat split; lia.
Qed.

Lemma create_workflow_run_streaming w workflow_id body workflow wf :
  get_workflow_by_id w workflow_id (workflows reg) = Some workflow →
  workflow_objs w !! workflow = Some (V2 wf) →
  stream body = true →
  ∃ events,
    let r := create_workflow_run reg workflow_id body w in
    r.2 = Ok (StreamingResponse events)
    ∧ converted WorkflowErrorEvent
        (streamed_workflow_call r.1 workflow (chosen_session w (session_id body)) body)
        events.
Proof.
  intros Hw Ho Hs. unfold create_workflow_run. run_handler. rewrite Hw, Ho, Hs.
  unfold workflow_response_streamer, streamed_workflow_call. run_handler.
  destruct (session_id_or_uuid4_run w (session_id body)) as (w' & -> & _).
  destruct (keyword_clash _ _) as [e|]; run_handler;
    (eexists; split; [reflexivity|apply try_stream_converted]).
Qed.

Lemma create_workflow_run_contains w workflow_id body :
  workflow_fault_contained (create_workflow_run reg workflow_id body w).2.
Proof.
  unfold create_workflow_run, workflow_fault_contained. run_handler.
  destruct (get_workflow_by_id _ _ _) as [workflow|]; [|by left].
  destruct (workflow_objs w !! workflow) as [[wf|wf]|]; [| |by left].
  - unfold deep_copy. run_handler.
    case_bool_decide; run_handler.
    + destruct (Workflow_run _ _ _); [right; eauto|done].
    + destruct (Workflow_run _ _ _ ≫= iter_run); [right; eauto|done].
  - destruct (stream body).
    + unfold workflow_response_streamer. run_handler.
      destruct (session_id_or_uuid4_run w (session_id body)) as (w' & -> & _).
      destruct (keyword_clash _ _); done.
    + run_handler.
      destruct (session_id_or_uuid4_run w (session_id body)) as (w' & -> & _).
      destruct (keyword_clash _ _); [right; eauto|]. run_handler.
      destruct (Workflow_arun _ _ _); [right; eauto|done].
Qed.

Lemma chat_response_streamer_converts w agent message session_id user_id
    images audio videos files :
  let args := RunArgs.mk message session_id user_id images audio videos files
                (Some true) (Some true) in
  let w' := logged (agent_arun agent args) w in
  ∃ body,
    chat_response_streamer agent message session_id user_id images audio videos files w
    = (w', Ok body)
    ∧ converted RunResponseErrorEvent (Agent_arun w' agent args) body.
Proof. eexists. split; [reflexivity|apply try_stream_converted]. Qed.

Lemma agent_acontinue_run_streamer_converts w agent run_id updated_tools
    session_id user_id :
  let args := ContinueArgs.mk run_id updated_tools session_id user_id
                (Some true) (Some true) in
  let w' := logged (agent_acontinue_run agent args) w in
  ∃ body,
    agent_acontinue_run_streamer agent run_id updated_tools session_id user_id w
    = (w', Ok body)
    ∧ converted RunResponseErrorEvent (Agent_acontinue_run w' agent args) body.
Proof. eexists. split; [reflexivity|apply try_stream_converted]. Qed.

Lemma team_chat_response_streamer_converts w team message session_id user_id
    images audio videos files :
  let args := RunArgs.mk message session_id user_id images audio videos files
                (Some true) (Some true) in
  let w' := logged (team_arun team args) w in
  ∃ body,
    team_chat_response_streamer team message session_id user_id images audio videos
      files w
    = (w', Ok body)
    ∧ converted TeamRunResponseErrorEvent (Team_arun w' team args) body.
Proof. eexists. split; [reflexivity|apply try_stream_converted]. Qed.

Lemma workflow_response_streamer_converts w workflow body :
  let r := workflow_response_streamer workflow body w in
  ∃ events,
    r.2 = Ok events
    ∧ converted WorkflowErrorEvent
        (streamed_workflow_call r.1 workflow (chosen_session w (session_id body)) body)
        events.
Proof.
  unfold workflow_response_streamer, streamed_workflow_call. run_handler.
  destruct (session_id_or_uuid4_run w (session_id body)) as (w' & -> & _).
  destruct (keyword_clash _ _) as [e|]; run_handler;
    (eexists; split; [reflexivity|apply try_stream_converted]).
Qed.

End Failures.

(** ** Failures of a run (C1) *)

(** What the streamers and the workflow handler do with an exception.  In
    streaming mode every exception of the entity is caught inside the
    streamer: for an agent run, a continued agent run, a team run and a
    second-generation workflow run alike, the stream carries the events the
    entity delivered, then exactly one error event made of [str(e)] when
    the run raised [e], and it ends normally; whether the exception came
    from the awaited call or from the iteration makes no difference.  A
    workflow run request never lets an exception out of the handler either:
    it ends in a reply, or in the error reply with status 500 whose detail
    carries the message. *)
Theorem streamed_failures_become_error_events `{Collaborators} (w : World) :
  (∀ agent message session_id user_id images audio videos files,
     let args := RunArgs.mk message session_id user_id images audio videos files
                   (Some true) (Some true) in
     let w' := logged (agent_arun agent args) w in
     ∃ body,
       chat_response_streamer agent message session_id user_id images audio videos
         files w = (w', Ok body)
       ∧ converted RunResponseErrorEvent (Agent_arun w' agent args) body)
  ∧ (∀ agent run_id updated_tools session_id user_id,
       let args := ContinueArgs.mk run_id updated_tools session_id user_id
                     (Some true) (Some true) in
       let w' := logged (agent_acontinue_run agent args) w in
       ∃ body,
         agent_acontinue_run_streamer agent run_id updated_tools session_id user_id w
         = (w', Ok body)
         ∧ converted RunResponseErrorEvent (Agent_acontinue_run w' agent args) body)
  ∧ (∀ team message session_id user_id images audio videos files,
       let args := RunArgs.mk message session_id user_id images audio videos files
                     (Some true) (Some true) in
       let w' := logged (team_arun team args) w in
       ∃ body,
         team_chat_response_streamer team message session_id user_id images audio
           videos files w = (w', Ok body)
         ∧ converted TeamRunResponseErrorEvent (Team_arun w' team args) body)
  ∧ (∀ workflow body,
       let r := workflow_response_streamer workflow body w in
       ∃ events,
         r.2 = Ok events
         ∧ converted WorkflowErrorEvent
             (streamed_workflow_call r.1 workflow
                (chosen_session w (session_id body)) body) events)
  ∧ (∀ reg workflow_id body,
       workflow_fault_contained (create_workflow_run reg workflow_id body w).2).
Proof.
  split; [intros; apply chat_response_streamer_converts|].
  split; [intros; apply agent_acontinue_run_streamer_converts|].
  split; [intros; apply team_chat_response_streamer_converts|].
  split; [intros; apply workflow_response_streamer_converts|].
  intros. apply create_workflow_run_contains.
Qed.

(** On the agent whose model fails after the first chunk, the stream is
    that chunk, the error event, and a normal end. *)
Lemma late_failure_is_streamed :
  ∃ body,
    (chat_response_streamer (H := Demo.collaborators) 0 "late boom" (Some "A") None
       None None None None Demo.world).2 = Ok body
    ∧ Py.failure body = None
    ∧ Py.items body = ["content-delta: partial"; "error: model provider failed"].
Proof.
  destruct (streamed_failures_become_error_events (H := Demo.collaborators) Demo.world)
    as [Hagent _].
  destruct (Hagent 0 "late boom" (Some "A") None None None None None)
    as (body & Hrun & Hclean & Hitems).
  exists body. rewrite Hrun. split; [reflexivity|]. split; [exact Hclean|].
  rewrite Hitems. reflexivity.
Defined.

(** C1 is violated by the buffered agent run and the buffered team run.
    The model of the agent of the playground fails on ["boom"].  The
    streamed run answers with the error event, and the buffered run of the
    second-generation workflow with the error reply 500; from
    [create_agent_run] and [create_team_run] in buffered mode the exception
    escapes as it was raised.  The stream of a first-generation workflow
    whose run fails after its first event breaks, too. *)
Theorem buffered_failure_escapes_the_handler :
  let agent_run stream :=
    (create_agent_run (H := Demo.collaborators) Demo.registry "writer-agent" "boom"
       stream false None None None Demo.world).2 in
  let team_run stream :=
    (create_team_run (H := Demo.collaborators) Demo.registry "writers" "boom"
       stream false None None None Demo.world).2 in
  let workflow_run_ name message stream :=
    (create_workflow_run (H := Demo.collaborators) Demo.registry name
       (mkWorkflowRunRequest [("message", Py.Str message)] None None stream)
       Demo.world).2 in
  agent_run true = Ok (StreamingResponse (Yield "error: model provider failed" Return))
  ∧ team_run true = Ok (StreamingResponse (Yield "error: model provider failed" Return))
  ∧ workflow_run_ "pipeline" "boom" false
    = HTTPException 500 "Error running workflow: model provider failed"
  ∧ agent_run false = Uncaught Demo.provider_failure
  ∧ team_run false = Uncaught Demo.provider_failure
  ∧ workflow_run_ "digest" "late boom" false
    = Ok (StreamingResponse
            (Yield "content-delta: partial" (Raise Demo.provider_failure)))
  ∧ answered (agent_run true)
  ∧ answered (workflow_run_ "pipeline" "boom" false)
  ∧ ¬ answered (agent_run false)
  ∧ ¬ answered (team_run false)
  ∧ ¬ answered (workflow_run_ "digest" "late boom" false).
Proof.
  split; [reflexivity|]. split; [reflexivity|]. split; [reflexivity|].
  split; [reflexivity|]. split; [reflexivity|]. split; [reflexivity|].
  split; [reflexivity|]. split; [exact I|].
  split; [intros Hr; exact Hr|]. split; [intros Hr; exact Hr|].
  intros Hr. discriminate Hr.
Qed.

(** ** The buffered run of an agent *)

Section Modes.
Context `{Collaborators}.
Variable reg : Registry.

Lemma create_agent_run_buffered w agent_id message monitor session_id user_id files
    w1 agent sid up :
  agent_run_setup reg agent_id monitor session_id files w = (w1, Ok (agent, sid, up)) →
  let args := run_args message sid user_id up false in
  let w' := logged (agent_arun agent args) w1 in
  create_agent_run reg agent_id message false monitor session_id user_id files w
  = (w', match Agent_arun w' agent args with
         | inl e => Uncaught e
         | inr (Response r) => Ok (Returned (Py.Dict (to_dict r)))
         | inr (Iterator _) =>
             Uncaught (Py.AttributeError
                         "'async_generator' object has no attribute 'to_dict'")
         end).
Proof.
  intros Hs args w'. subst args w'. unfold create_agent_run.
  rewrite bind_unfold, Hs. unfold run_args. run_handler.
  destruct (Agent_arun _ _ _) as [e|[r|g]]; reflexivity.
Qed.

End Modes.

(** ** Resuming a paused run (C3) *)

Lemma new_calls_logged (c : Call) (w : World) : new_calls w (logged c w) = [c].
Proof. unfold new_calls. cbn. apply drop_app_length. Qed.

Section Resume.
Context `{Collaborators}.
Variable reg : Registry.

Lemma continue_agent_run_buffered w agent_id run_id tools session_id user_id agent ts :
  get_agent_by_id w agent_id (agents reg) = Some agent →
  tools ≠ tools_invalid →
  updated_tools_of (tools_data_of tools) = inr ts →
  let args := continue_args run_id ts session_id user_id false in
  let w' := logged (agent_acontinue_run agent args) w in
  continue_agent_run reg agent_id run_id tools session_id user_id false w
  = (w', match Agent_acontinue_run w' agent args with
         | inl e => Uncaught e
         | inr (Response r) => Ok (Returned (Py.Dict (to_dict r)))
         | inr (Iterator _) =>
             Uncaught (Py.AttributeError
                         "'async_generator' object has no attribute 'to_dict'")
         end).
Proof.
  intros Ha Ht Hu args w'. subst args w'. unfold continue_agent_run, continue_args.
  destruct tools as [| |v]; [|done|]; run_handler; rewrite Ha, Hu; run_handler;
    (destruct (Agent_acontinue_run _ _ _) as [e|[r|g]]; reflexivity).
Qed.

End Resume.

(** C3, as amended.  The router compares the resolutions of a resume
    request with nothing.  It rejects the request only when the agent is
    unknown (404), the tools field is not JSON (400) or an entry does not
    convert to a tool execution (400); in every other case it invokes
    [acontinue_run] of the agent once, with the converted list, or with
    [None] when the field is empty, whatever tool calls the run is waiting
    for.  In streaming mode the reply is then always a stream, in which an
    exception of the agent appears as an error event; in buffered mode it is
    what the agent returns or raises. *)
Theorem resume_is_forwarded_unchecked `{Collaborators} (reg : Registry) (w : World)
    (agent_id run_id : string) (tools : ToolsField) (session_id user_id : option string)
    (stream : bool) (agent : loc) (updated_tools : option (list ToolExecution)) :
  get_agent_by_id w agent_id (agents reg) = Some agent →
  tools ≠ tools_invalid →
  updated_tools_of (tools_data_of tools) = inr updated_tools →
  let args := continue_args run_id updated_tools session_id user_id stream in
  let r := continue_agent_run reg agent_id run_id tools session_id user_id stream w in
  r.1 = logged (agent_acontinue_run agent args) w
  ∧ new_calls w r.1 = [agent_acontinue_run agent args]
  ∧ ¬ rejected_unstarted w r
  ∧ (stream = true →
     ∃ body, r.2 = Ok (StreamingResponse body)
             ∧ converted RunResponseErrorEvent (Agent_acontinue_run r.1 agent args) body)
  ∧ (stream = false →
     r.2 = match Agent_acontinue_run r.1 agent args with
           | inl e => Uncaught e
           | inr (Response rr) => Ok (Returned (Py.Dict (to_dict rr)))
           | inr (Iterator _) =>
               Uncaught (Py.AttributeError
                           "'async_generator' object has no attribute 'to_dict'")
           end).
Proof.
  intros Ha Ht Hu args r.
  assert (r.1 = logged (agent_acontinue_run agent args) w) as Hw.
  { subst r args. destruct stream.
    - destruct (continue_agent_run_streaming reg w agent_id run_id tools session_id
                  user_id agent updated_tools Ha Ht Hu) as (body & -> & _).
      reflexivity.
    - rewrite (continue_agent_run_buffered reg w agent_id run_id tools session_id
                 user_id agent updated_tools Ha Ht Hu). reflexivity. }
  split; [exact Hw|]. split; [rewrite Hw; apply new_calls_logged|].
  split; [intros [_ Hn]; rewrite Hw, new_calls_logged in Hn; discriminate Hn|].
  split; intros ->; subst r args.
  - destruct (continue_agent_run_streaming reg w agent_id run_id tools session_id
                user_id agent updated_tools Ha Ht Hu) as (body & -> & Hc).
    exists body. split; [reflexivity|exact Hc].
  - rewrite (continue_agent_run_buffered reg w agent_id run_id tools session_id
               user_id agent updated_tools Ha Ht Hu). reflexivity.
Qed.

(** The paused run of the playground waits for ["t1"] and ["t2"]; a resume
    that resolves ["t1"] alone reaches the agent. *)
Lemma resume_is_forwarded_unchecked_witness :
  new_calls Demo.world
    (continue_agent_run (H := Demo.collaborators) Demo.registry "writer-agent" "run-1"
       Demo.resolve_t1 (Some "P") None true Demo.world).1
  = [agent_acontinue_run 0
       (continue_args "run-1" (Some [mkToolExecution (Some "t1") (Some "ok")])
          (Some "P") None true)].
Proof.
  refine (proj1 (proj2
    (resume_is_forwarded_unchecked (H := Demo.collaborators) Demo.registry Demo.world
       "writer-agent" "run-1" Demo.resolve_t1 (Some "P") None true 0
       (Some [mkToolExecution (Some "t1") (Some "ok")]) _ _ _))).
  - reflexivity.
  - discriminate.
  - reflexivity.
Defined.

(** C3 fails as stated: neither a resume that leaves ["t2"] unresolved nor
    one that names the unknown ["t9"] is rejected; both are answered with
    the stream of the resumed run. *)
Lemma partial_and_unknown_resolutions_pass :
  let pending := pending_tool_calls Demo.paused_run in
  let resumed := StreamingResponse
                   (Yield "tool-result: resumed" (Yield "completed: " Return)) in
  pending = ["t1"; "t2"]
  ∧ (continue_agent_run (H := Demo.collaborators) Demo.registry "writer-agent" "run-1"
       Demo.resolve_t1 (Some "P") None true Demo.world).2 = Ok resumed
  ∧ (continue_agent_run (H := Demo.collaborators) Demo.registry "writer-agent" "run-1"
       Demo.resolve_unknown (Some "P") None true Demo.world).2 = Ok resumed
  ∧ ¬ strict_resume (H := Demo.collaborators) Demo.registry Demo.world
        "writer-agent" "run-1" Demo.resolve_t1 (Some "P") None true pending
  ∧ ¬ strict_resume (H := Demo.collaborators) Demo.registry Demo.world
        "writer-agent" "run-1" Demo.resolve_unknown (Some "P") None true pending.
Proof.
  split; [reflexivity|]. split; [reflexivity|]. split; [reflexivity|].
  split; intros Hstrict.
  - destruct (Hstrict (Some [mkToolExecution (Some "t1") (Some "ok")])
                eq_refl eq_refl) as [(c & d & Hr) _].
    discriminate Hr.
  - destruct (Hstrict (Some [mkToolExecution (Some "t1") (Some "ok");
                              mkToolExecution (Some "t2") (Some "ok");
                              mkToolExecution (Some "t9") (Some "ok")])
                eq_refl eq_refl) as [(c & d & Hr) _].
    discriminate Hr.
Qed.

(** ** The display transcript of a team session (C4) *)

Lemma lookup_set_eq k v d : Py.lookup k (Py.set k v d) = Some v.
Proof.
  induction d as [|[k' v'] d IH]; cbn.
  - by rewrite String.eqb_refl.
  - destruct (String.eqb k k') eqn:E; cbn; rewrite ?String.eqb_refl, ?E; auto.
Qed.

Lemma lookup_set_ne k k' v d : k ≠ k' → Py.lookup k (Py.set k' v d) = Py.lookup k d.
Proof.
  intros Hne. induction d as [|[k'' v''] d IH]; cbn.
  - by apply String.eqb_neq in Hne as ->.
  - destruct (String.eqb k' k'') eqn:E; cbn.
    + apply String.eqb_eq in E as <-. by apply String.eqb_neq in Hne as ->.
    + by rewrite IH.
Qed.

Lemma lookup_pop_ne k k' d : k ≠ k' → Py.lookup k (Py.pop k' d) = Py.lookup k d.
Proof.
  intros Hne. induction d as [|[k'' v''] d IH]; cbn; [done|].
  destruct (String.eqb k' k'') eqn:E; cbn.
  - apply String.eqb_eq in E as <-. by apply String.eqb_neq in Hne as ->.
  - by rewrite IH.
Qed.

Lemma get_set_eq k v d : Py.get k (Py.set k v d) = v.
Proof. unfold Py.get. by rewrite lookup_set_eq. Qed.

Lemma get_pop_ne k k' d : k ≠ k' → Py.get k (Py.pop k' d) = Py.get k d.
Proof. intros. unfold Py.get. by rewrite lookup_pop_ne. Qed.

Lemma append_run_runs entry d l :
  Py.get "runs" d = Py.List l →
  Py.get "runs" (append_run entry d) = Py.List (l ++ [entry]).
Proof. intros Hd. unfold append_run. rewrite Hd. apply get_set_eq. Qed.

Lemma append_run_frame entry d k :
  k ≠ "runs" → Py.lookup k (append_run entry d) = Py.lookup k d.
Proof.
  intros Hk. unfold append_run.
  destruct (Py.get "runs" d); try done. by apply lookup_set_ne.
Qed.

Lemma team_runs_loop_step session_id rd runs d :
  team_runs_loop session_id (Py.Dict rd :: runs) d
  = if tagged_with session_id (Py.Dict rd)
    then team_runs_loop session_id runs d
    else match message_of_run (Py.Dict rd) with
         | inl e => inl e
         | inr message =>
             team_runs_loop session_id runs
               (append_run (run_entry message rd) (Py.pop "memory" d))
         end.
Proof.
  cbn. destruct (_ && _); [reflexivity|].
  destruct (Py.iter _) as [e|messages]; [reflexivity|]. cbn.
  destruct (first_user_message messages); reflexivity.
Qed.

(** The loop of the team view shows the runs that are not tagged with the
    requested session, in their order, and keeps every key of the session
    dictionary except ["runs"] and ["memory"]. *)
Lemma team_runs_loop_shows session_id runs : ∀ d l,
  forallb (team_readable session_id) runs = true →
  Py.get "runs" d = Py.List l →
  ∃ d',
    team_runs_loop session_id runs d = inr d'
    ∧ Py.get "runs" d'
      = Py.List (l ++ List.map team_entry
                        (List.filter (λ run, negb (tagged_with session_id run)) runs))
    ∧ ∀ k, k ≠ "runs" → k ≠ "memory" → Py.lookup k d' = Py.lookup k d.
Proof.
  induction runs as [|run runs IH]; intros d l Hwf Hd.
  - exists d. cbn. by rewrite app_nil_r.
  - cbn in Hwf. apply andb_prop in Hwf as [Hrun Hwf].
    destruct run as [| | | | |rd]; try discriminate Hrun.
    rewrite team_runs_loop_step. cbn [List.filter].
    unfold team_readable in Hrun.
    destruct (tagged_with session_id (Py.Dict rd)) eqn:Htag; cbn [negb orb] in *.
    + apply (IH d l Hwf Hd).
    + cbn [List.map]. unfold team_entry at 1.
      destruct (message_of_run (Py.Dict rd)) as [e|message]; [discriminate Hrun|].
      destruct (IH (append_run (run_entry message rd) (Py.pop "memory" d))
                  (l ++ [run_entry message rd]) Hwf) as (d' & Hloop & Hruns & Hframe).
      { apply append_run_runs. by rewrite get_pop_ne. }
      exists d'. split; [exact Hloop|]. split.
      * rewrite Hruns. by rewrite <- app_assoc.
      * intros k Hk Hm. rewrite (Hframe k Hk Hm), append_run_frame by done.
        by apply lookup_pop_ne.
Qed.

Lemma displayed_team_entries session_id runs :
  forallb (team_readable session_id) runs = true →
  omap (λ e, match e with Py.Dict d => Py.lookup "response" d | _ => None end)
    (List.map team_entry (List.filter (λ run, negb (tagged_with session_id run)) runs))
  = List.filter (λ run, negb (tagged_with session_id run)) runs.
Proof.
  induction runs as [|run runs IH]; intros Hwf; [done|].
  cbn in Hwf. apply andb_prop in Hwf as [Hrun Hwf]. cbn [List.filter].
  destruct (negb (tagged_with session_id run)) eqn:Htag; [|by apply IH].
  cbn [List.map omap list_omap]. rewrite (IH Hwf).
  unfold team_readable in Hrun. destruct run as [| | | | |rd]; try discriminate Hrun.
  apply negb_true_iff in Htag. rewrite Htag in Hrun. cbn [orb] in Hrun.
  unfold team_entry. destruct (message_of_run (Py.Dict rd)); [discriminate Hrun|].
  reflexivity.
Qed.

Lemma runs_view_team session_id memory first_run runs d :
  Py.get "runs" memory = Py.List (Py.Dict first_run :: runs) →
  is_run_response first_run = true →
  runs_view (team_runs_loop session_id) (Some memory) d
  = team_runs_loop session_id (Py.Dict first_run :: runs) (Py.set "runs" (Py.List []) d).
Proof.
  intros Hruns Hfirst. unfold runs_view. rewrite Hruns.
  cbn [Py.is_not_None Py.first mbind Py.exn_bind].
  rewrite first_run_is_response_dict, Hfirst. reflexivity.
Qed.

(** C4, as amended.  When the stored runs of a team session can be gone
    through, the display transcript shows, in their order, exactly the runs
    that do not carry the requested session identifier as their
    [team_session_id]: a run is left out when its tag is present and equal
    to the identifier of the session on display, and a run without a tag or
    with another tag is shown.  The other keys of the session record are
    returned as stored, apart from ["memory"]. *)
Theorem team_view_skips_runs_tagged_with_the_session
    (reg : Registry) (w : World) (team_id session_id : string) (user_id : option string)
    (team st : loc) (team_session : Session.t) (memory first_run : Py.dict)
    (runs : list Py.value) :
  get_team_by_id w team_id (teams reg) = Some team →
  team_objs w !! team ≫= Team.storage = Some st →
  Storage.read session_id user_id (storage_at w st) = inr (Some team_session) →
  Session.memory team_session = Some memory →
  Py.get "runs" memory = Py.List (Py.Dict first_run :: runs) →
  is_run_response first_run = true →
  forallb (team_readable session_id) (Py.Dict first_run :: runs) = true →
  let shown := List.filter (λ run, negb (tagged_with session_id run))
                 (Py.Dict first_run :: runs) in
  ∃ d,
    get_team_session reg team_id session_id user_id w = (w, Ok (Returned (Py.Dict d)))
    ∧ displayed_runs d = shown
    ∧ Py.get "runs" d = Py.List (List.map team_entry shown)
    ∧ ∀ k, k ≠ "runs" → k ≠ "memory" →
           Py.lookup k d = Py.lookup k (Session.to_dict "team_id" team_session).
Proof.
  intros Ht Hst Hread Hmem Hruns Hfirst Hwf shown.
  destruct (team_runs_loop_shows session_id (Py.Dict first_run :: runs)
              (Py.set "runs" (Py.List []) (Session.to_dict "team_id" team_session))
              [] Hwf (get_set_eq _ _ _)) as (d & Hloop & Hshown & Hframe).
  exists d. split; [|split; [|split]].
  - unfold get_team_session. run_handler. rewrite Ht, Hst, Hread, Hmem.
    rewrite (runs_view_team _ _ _ _ _ Hruns Hfirst), Hloop. reflexivity.
  - unfold displayed_runs. rewrite Hshown. cbn [app].
    apply (displayed_team_entries session_id _ Hwf).
  - exact Hshown.
  - intros k Hk Hm. rewrite (Hframe k Hk Hm). by apply lookup_set_ne.
Qed.

(** The team session ["S"] of the playground: the run of the team and the
    run tagged ["T"] are shown, the run tagged ["S"] is not. *)
Lemma team_view_skips_runs_tagged_with_the_session_witness :
  ∃ d,
    get_team_session Demo.registry "writers" "S" None Demo.world
    = (Demo.world, Ok (Returned (Py.Dict d)))
    ∧ displayed_runs d = [Demo.team_run; Demo.foreign_run].
Proof.
  destruct (team_view_skips_runs_tagged_with_the_session Demo.registry Demo.world "writers" "S" None
              0 0 (Session.mk "S" (Some "ann") (Some "writers")
                     (Some [("runs", Py.List [Demo.team_run; Demo.member_run;
                                              Demo.foreign_run])]) None 0)
              [("runs", Py.List [Demo.team_run; Demo.member_run; Demo.foreign_run])]
              [("content", Py.Str "plan");
               ("messages", Py.List [Py.Dict [("role", Py.Str "user");
                                              ("content", Py.Str "hello")]])]
              [Demo.member_run; Demo.foreign_run]
              eq_refl eq_refl eq_refl eq_refl eq_refl eq_refl eq_refl)
    as (d & Hrun & Hshown & _).
  exists d. split; [exact Hrun|exact Hshown].
Defined.

(** C4 fails as stated: the run tagged with the other session ["T"] is on
    display in the team session ["S"], and the run tagged ["S"] is not. *)
Lemma foreign_sub_run_is_displayed :
  let stored := [Demo.team_run; Demo.member_run; Demo.foreign_run] in
  let displayed :=
    displayed_runs
      (returned_dict
         (get_team_session Demo.registry "writers" "S" None Demo.world).2) in
  team_session_tag Demo.foreign_run = Some "T"
  ∧ team_session_tag Demo.member_run = Some "S"
  ∧ displayed = [Demo.team_run; Demo.foreign_run]
  ∧ ¬ hides_foreign_sub_runs "S" stored displayed.
Proof.
  split; [reflexivity|]. split; [reflexivity|]. split; [reflexivity|].
  intros [Hforeign _].
  refine (Hforeign Demo.foreign_run "T" _ eq_refl _ _).
  - apply list_elem_of_In. cbn. auto.
  - discriminate.
  - apply list_elem_of_In. vm_compute. auto.
Qed.

(** ** Which session a run goes to (C5) *)

Lemma only_loads_refl w : only_loads w w.
Proof. repeat split. exists []. by rewrite app_nil_r. Qed.

Lemma only_loads_trans w1 w2 w3 : only_loads w1 w2 → only_loads w2 w3 → only_loads w1 w3.
Proof.
  intros (Ha & Ht & Hf & Hs & Hu & l1 & Hc1 & Hl1) (Ha' & Ht' & Hf' & Hs' & Hu' & l2 & Hc2 & Hl2).
  repeat split; try congruence.
  exists (l1 ++ l2). split; [by rewrite Hc2, Hc1, app_assoc|by apply Forall_app].
Qed.

Section Setup.
Context `{Collaborators}.
Variable reg : Registry.

Lemma continuing_or_new_run w session_id :
  ∃ w', continuing_or_new session_id w = (w', Ok (chosen_session w session_id))
        ∧ calls w' = calls w ∧ agent_objs w' = agent_objs w
        ∧ team_objs w' = team_objs w ∧ workflow_objs w' = workflow_objs w
        ∧ storage_objs w' = storage_objs w ∧ knowledge_objs w' = knowledge_objs w
        ∧ uuid_calls w' = uuid_calls w + uuid_drawn session_id.
Proof.
  unfold continuing_or_new, chosen_session, uuid_drawn, str_uuid4.
  destruct session_id as [s|]; [destruct (String.eqb s "")|];
    eexists; (split; [reflexivity|]); cbn; repeat split; lia.
Qed.

Lemma agent_file_loads agent file up w : only_loads w (agent_file agent file up w).1.
Proof.
  unfold agent_file.
  destruct (type_in (content_type file) image_types).
  { destruct (process_image file); apply only_loads_refl. }
  destruct (type_in (content_type file) audio_types).
  { destruct (process_audio file); apply only_loads_refl. }
  destruct (type_in (content_type file) video_types).
  { destruct (process_video file); apply only_loads_refl. }
  destruct (document_reader (content_type file)) as [reader|]; [|apply only_loads_refl].
  run_handler.
  destruct (import_reader reader) as [e|]; [apply only_loads_refl|].
  run_handler.
  destruct (UploadFile_read file) as [e|contents]; [apply only_loads_refl|].
  run_handler.
  destruct (agent_objs w !! agent ≫= Agent.knowledge) as [kb|]; [|apply only_loads_refl].
  run_handler.
  destruct (Reader_read reader (filename file) contents) as [e|docs];
    [apply only_loads_refl|].
  run_handler.
  destruct (Knowledge_load_documents _ kb docs) as [e|knowledge]; run_handler;
    (repeat split; eexists; split; [reflexivity|]; by repeat constructor).
Qed.

Lemma agent_files_loads agent files : ∀ up w,
  only_loads w (agent_files agent files up w).1.
Proof.
  induction files as [|file files IH]; intros up w; [apply only_loads_refl|].
  cbn [agent_files]. rewrite bind_unfold.
  pose proof (agent_file_loads agent file up w) as Hfile.
  destruct (agent_file agent file up w) as [w1 [up1|c d|e]]; cbn [fst] in *;
    [|exact Hfile|exact Hfile].
  eapply only_loads_trans; [exact Hfile|apply IH].
Qed.

Lemma team_file_loads file up w : (team_file file up w).1 = w.
Proof.
  unfold team_file.
  destruct (type_in (content_type file) image_types).
  { by destruct (process_image file). }
  destruct (type_in (content_type file) audio_types).
  { by destruct (process_audio file). }
  destruct (type_in (content_type file) video_types).
  { by destruct (process_video file). }
  destruct (type_in (content_type file) document_types); [|reflexivity].
  run_handler. by destruct (process_document file) as [e|[document_file|]].
Qed.

Lemma team_files_loads files : ∀ up w, (team_files files up w).1 = w.
Proof.
  induction files as [|file files IH]; intros up w; [reflexivity|].
  cbn [team_files]. rewrite bind_unfold.
  pose proof (team_file_loads file up w) as Hfile.
  destruct (team_file file up w) as [w1 [up1|c d|e]]; cbn [fst] in *; subst w1;
    [apply IH|reflexivity|reflexivity].
Qed.

End Setup.

Section Dispatch.
Context `{Collaborators}.
Variable reg : Registry.

Lemma agent_run_setup_spec w agent_id monitor session_id files :
  let r := agent_run_setup reg agent_id monitor session_id files w in
  match get_agent_by_id w agent_id (agents reg) with
  | None => r = (w, HTTPException 404 "Agent not found")
  | Some agent =>
      agent_objs r.1 = alter (Agent.set_monitoring monitor) agent (agent_objs w)
      ∧ team_objs r.1 = team_objs w
      ∧ workflow_objs r.1 = workflow_objs w
      ∧ storage_objs r.1 = storage_objs w
      ∧ uuid_calls r.1 = uuid_calls w + uuid_drawn session_id
      ∧ (∃ loads, calls r.1 = calls w ++ loads ∧ Forall is_load loads)
      ∧ (∀ p, r.2 = Ok p → ∃ up, p = (agent, chosen_session w session_id, up))
  end.
Proof.
  unfold agent_run_setup. run_handler.
  destruct (get_agent_by_id w agent_id (agents reg)) as [agent|]; [|reflexivity].
  run_handler.
  destruct (continuing_or_new_run w session_id)
    as (w' & -> & Hc & Ha & Ht & Hf & Hs & Hk & Hu).
  destruct monitor; run_handler;
  match goal with
  | |- context [agent_files agent ?fs ?up0 ?w0] =>
      pose proof (agent_files_loads agent fs up0 w0) as Hfiles;
      destruct (agent_files agent fs up0 w0) as [w2 [up|c d|e]]
  end;
    destruct Hfiles as (Ha' & Ht' & Hf' & Hs' & Hu' & loads & Hc' & Hl);
    cbn in *;
    (split; [congruence|]; split; [congruence|]; split; [congruence|];
     split; [congruence|]; split; [congruence|];
     split; [exists loads; split; [congruence|done]|];
     intros p Hp; try discriminate Hp; injection Hp as <-; eauto).
Qed.

Lemma team_run_setup_spec w team_id monitor session_id files :
  let r := team_run_setup reg team_id monitor session_id files w in
  match get_team_by_id w team_id (teams reg) with
  | None => r = (w, HTTPException 404 "Team not found")
  | Some team =>
      team_objs r.1 = alter (Team.set_monitoring monitor) team (team_objs w)
      ∧ agent_objs r.1 = agent_objs w
      ∧ workflow_objs r.1 = workflow_objs w
      ∧ storage_objs r.1 = storage_objs w
      ∧ uuid_calls r.1 = uuid_calls w + uuid_drawn session_id
      ∧ calls r.1 = calls w
      ∧ (∀ p, r.2 = Ok p → ∃ up, p = (team, chosen_session w session_id, up))
  end.
Proof.
  unfold team_run_setup. run_handler.
  destruct (get_team_by_id w team_id (teams reg)) as [team|]; [|reflexivity].
  run_handler.
  destruct (continuing_or_new_run w session_id)
    as (w' & -> & Hc & Ha & Ht & Hf & Hs & Hk & Hu).
  destruct monitor; run_handler;
  match goal with
  | |- context [team_files ?fs ?up0 ?w0] =>
      pose proof (team_files_loads fs up0 w0) as Hfiles;
      destruct (team_files fs up0 w0) as [w2 [up|c d|e]]
  end;
    cbn [fst] in Hfiles; subst w2;
    cbn in *;
    (split; [congruence|]; split; [congruence|]; split; [congruence|];
     split; [congruence|]; split; [congruence|]; split; [congruence|];
     intros p Hp; try discriminate Hp; injection Hp as <-; eauto).
Qed.

(** After its setup, [create_agent_run] does one thing: it starts the run. *)
Lemma create_agent_run_dispatch w agent_id message stream monitor session_id user_id
    files :
  let r := create_agent_run reg agent_id message stream monitor session_id user_id
             files w in
  match agent_run_setup reg agent_id monitor session_id files w with
  | (w1, Ok (agent, sid, up)) =>
      r.1 = logged (agent_arun agent (run_args message sid user_id up stream)) w1
      ∧ (stream = true → ∃ body, r.2 = Ok (StreamingResponse body))
  | (w1, HTTPException c d) => r = (w1, HTTPException c d)
  | (w1, Uncaught e) => r = (w1, Uncaught e)
  end.
Proof.
  destruct (agent_run_setup reg agent_id monitor session_id files w)
    as [w1 [[[agent sid] up]|c d|e]] eqn:Hs; cbn zeta.
  - destruct stream.
    + destruct (create_agent_run_streaming reg w agent_id message monitor session_id
                  user_id files w1 agent sid up Hs) as (body & -> & _).
      split; [reflexivity|eauto].
    + rewrite (create_agent_run_buffered reg w agent_id message monitor session_id
                 user_id files w1 agent sid up Hs). split; [reflexivity|done].
  - unfold create_agent_run. by rewrite bind_unfold, Hs.
  - unfold create_agent_run. by rewrite bind_unfold, Hs.
Qed.

Lemma create_team_run_buffered w team_id message monitor session_id user_id files
    w1 team sid up :
  team_run_setup reg team_id monitor session_id files w = (w1, Ok (team, sid, up)) →
  let args := run_args message sid user_id up false in
  let w' := logged (team_arun team args) w1 in
  create_team_run reg team_id message false monitor session_id user_id files w
  = (w', match Team_arun w' team args with
         | inl e => Uncaught e
         | inr (Response r) => Ok (Returned (Py.Dict (to_dict r)))
         | inr (Iterator _) =>
             Uncaught (Py.AttributeError
                         "'async_generator' object has no attribute 'to_dict'")
         end).
Proof.
  intros Hs args w'. subst args w'. unfold create_team_run.
  rewrite bind_unfold, Hs. unfold run_args. run_handler.
  destruct (Team_arun _ _ _) as [e|[r|g]]; reflexivity.
Qed.

Lemma create_team_run_dispatch w team_id message stream monitor session_id user_id
    files :
  let r := create_team_run reg team_id message stream monitor session_id user_id
             files w in
  match team_run_setup reg team_id monitor session_id files w with
  | (w1, Ok (team, sid, up)) =>
      r.1 = logged (team_arun team (run_args message sid user_id up stream)) w1
      ∧ (stream = true → ∃ body, r.2 = Ok (StreamingResponse body))
  | (w1, HTTPException c d) => r = (w1, HTTPException c d)
  | (w1, Uncaught e) => r = (w1, Uncaught e)
  end.
Proof.
  destruct (team_run_setup reg team_id monitor session_id files w)
    as [w1 [[[team sid] up]|c d|e]] eqn:Hs; cbn zeta.
  - destruct stream.
    + destruct (create_team_run_streaming reg w team_id message monitor session_id
                  user_id files w1 team sid up Hs) as (body & -> & _).
      split; [reflexivity|eauto].
    + rewrite (create_team_run_buffered w team_id message monitor session_id
                 user_id files w1 team sid up Hs). split; [reflexivity|done].
  - unfold create_team_run. by rewrite bind_unfold, Hs.
  - unfold create_team_run. by rewrite bind_unfold, Hs.
Qed.

End Dispatch.

Section WorkflowRuns.
Context `{Collaborators}.
Variable reg : Registry.

(** A run request for a first-generation workflow: the copy is stored at a
    new reference, the run is started on it, and the declared return type
    picks the delivery. *)
Lemma create_workflow_run_v1 w workflow_id body workflow registered :
  get_workflow_by_id w workflow_id (workflows reg) = Some workflow →
  workflow_objs w !! workflow = Some (V1 registered) →
  let new_workflow_instance := fresh (dom (workflow_objs w)) in
  let r := create_workflow_run reg workflow_id body w in
  r.1 = logged (workflow_run new_workflow_instance (input body))
          (set_workflow_objs
             (<[new_workflow_instance := V1 (run_copy registered workflow_id body)]>
                (workflow_objs w)) w)
  ∧ r.2 = if bool_decide (Workflow._run_return_type registered = Some "RunResponse")
          then match Workflow_run r.1 new_workflow_instance (input body) with
               | inr v => Ok (ReturnedRun v)
               | inl e => HTTPException 500 ("Error running workflow: " +:+ Py.str e)
               end
          else match Workflow_run r.1 new_workflow_instance (input body) ≫= iter_run with
               | inr g => Ok (StreamingResponse (Py.gmap_gen to_json g))
               | inl e => HTTPException 500 ("Error running workflow: " +:+ Py.str e)
               end.
Proof.
  intros Hw Ho new_workflow_instance r. subst r.
  unfold create_workflow_run. run_handler. rewrite Hw, Ho.
  unfold deep_copy. run_handler. fold new_workflow_instance.
  destruct w as [ao teo wo ko so u cs].
  cbn [workflow_objs set_workflow_objs agent_objs team_objs knowledge_objs
       storage_objs uuid_calls calls] in *.
  rewrite !alter_insert_eq, lookup_insert_eq. cbn [assign_v1].
  change (Workflow._run_return_type _) with (Workflow._run_return_type registered).
  change (Workflow.set_session_name _ _) with (run_copy registered workflow_id body).
  case_bool_decide; run_handler;
    cbn [workflow_objs set_workflow_objs agent_objs team_objs knowledge_objs
         storage_objs uuid_calls calls].
  - match goal with |- context [Workflow_run ?w0 _ _] =>
      destruct (Workflow_run w0 new_workflow_instance (input body)) eqn:Hrun end;
      cbn [raise_http fst snd mret M_ret]; rewrite Hrun; (split; reflexivity).
  - match goal with |- context [Workflow_run ?w0 _ _] =>
      destruct (Workflow_run w0 new_workflow_instance (input body) ≫= iter_run)
        eqn:Hrun end;
      cbn [raise_http fst snd mret M_ret]; rewrite Hrun; (split; reflexivity).
Qed.

Lemma keyword_clash_fewer input :
  keyword_clash input ["user_id"; "session_id"; "stream"; "stream_intermediate_steps"]
  = None →
  keyword_clash input ["session_id"; "user_id"] = None.
Proof.
  unfold keyword_clash. cbn [List.find].
  destruct (Py.contains "user_id" input); [discriminate|].
  destruct (Py.contains "session_id" input); [discriminate|]. done.
Qed.

(** A run request for a second-generation workflow: the registered object
    itself is run, in the session the request names or in a fresh one. *)
Lemma create_workflow_run_v2 w workflow_id body workflow wf :
  get_workflow_by_id w workflow_id (workflows reg) = Some workflow →
  workflow_objs w !! workflow = Some (V2 wf) →
  let r := create_workflow_run reg workflow_id body w in
  let args := WorkflowArgs.mk (input body) (user_id body)
                (Some (chosen_session w (session_id body)))
                (if stream body then Some true else None)
                (if stream body then Some true else None) in
  uuid_calls r.1 = uuid_calls w + uuid_drawn (session_id body)
  ∧ workflow_objs r.1 = workflow_objs w
  ∧ (new_calls w r.1 = [] ∨ new_calls w r.1 = [workflow_arun workflow args])
  ∧ (keyword_clash (input body)
       ["user_id"; "session_id"; "stream"; "stream_intermediate_steps"] = None →
     new_calls w r.1 = [workflow_arun workflow args]).
Proof.
  intros Hw Ho r args. subst r args.
  unfold create_workflow_run. run_handler. rewrite Hw, Ho.
  destruct (stream body).
  - unfold workflow_response_streamer. run_handler.
    destruct (session_id_or_uuid4_run w (session_id body))
      as (w' & -> & Hc & Ha & Ht & Hf & Hs & Hk & Hu).
    destruct (keyword_clash _ _) as [e|] eqn:Hclash; run_handler; unfold new_calls;
      cbn [fst snd calls uuid_calls workflow_objs].
    + rewrite Hc, drop_all. split; [done|]. split; [done|]. split; [by left|done].
    + rewrite Hc, (drop_app_length (calls w)). split; [done|]. split; [done|]. split; [by right|done].
  - run_handler.
    destruct (session_id_or_uuid4_run w (session_id body))
      as (w' & -> & Hc & Ha & Ht & Hf & Hs & Hk & Hu).
    destruct (keyword_clash (input body) ["session_id"; "user_id"]) as [e|] eqn:Hclash;
      run_handler.
    + unfold new_calls. cbn [fst snd]. rewrite Hc, drop_all.
      split; [done|]. split; [done|]. split; [by left|].
      intros Hnone. apply keyword_clash_fewer in Hnone. congruence.
    + match goal with |- context [Workflow_arun ?w0 ?l ?a] =>
        destruct (Workflow_arun w0 l a) end;
        run_handler; unfold new_calls;
        cbn [fst snd calls uuid_calls workflow_objs raise_http mret M_ret];
        rewrite Hc, (drop_app_length (calls w));
        (split; [done|]; split; [done|]; split; [by right|done]).
Qed.

End WorkflowRuns.

(** ** The two modes of one run (C2) *)

Section TwoModes.
Context `{Collaborators}.
Variable reg : Registry.

(** A second-generation workflow that is awaited: the reply is the object
    the run gave, or the error reply made of its exception. *)
Lemma create_workflow_run_buffered w workflow_id body workflow wf :
  get_workflow_by_id w workflow_id (workflows reg) = Some workflow →
  workflow_objs w !! workflow = Some (V2 wf) →
  stream body = false →
  let r := create_workflow_run reg workflow_id body w in
  r.2 = match awaited_workflow_call r.1 workflow (chosen_session w (session_id body))
                body with
        | inr v => Ok (ReturnedRun v)
        | inl e => HTTPException 500 ("Error running workflow: " +:+ Py.str e)
        end.
Proof.
  intros Hw Ho Hs r. subst r.
  unfold create_workflow_run, awaited_workflow_call. run_handler.
  rewrite Hw, Ho, Hs. run_handler.
  destruct (session_id_or_uuid4_run w (session_id body)) as (w' & -> & _).
  destruct (keyword_clash _ _) as [e|]; run_handler; [reflexivity|].
  match goal with |- context [Workflow_arun ?w0 ?l ?a] =>
    destruct (Workflow_arun w0 l a) eqn:Hrun end;
    cbn [raise_http fst snd mret M_ret]; by rewrite Hrun.
Qed.

(** The reply of a buffered agent or team run against a stream. *)
Lemma dictionary_modes error_event streamed awaited body fault :
  converted error_event streamed body →
  mode_equivalent (Ok (StreamingResponse body))
    (match awaited with
     | inl e => Uncaught e
     | inr (Response r) => Ok (Returned (Py.Dict (to_dict r)))
     | inr (Iterator _) => Uncaught fault
     end)
  ↔ invocations_agree error_event as_dictionary streamed awaited.
Proof.
  intros [_ Hitems]. unfold mode_equivalent, invocations_agree, streamed_records,
    as_dictionary. split.
  - intros (body' & r & [= <-] & Hb & Hr).
    destruct awaited as [e|[r0|g]]; destruct Hb as [Hb|Hb]; try discriminate Hb.
    injection Hb as Hd. exists r0, r. split; [done|]. split; [by rewrite Hd|].
    by rewrite <- Hitems.
  - intros (r0 & r & -> & [= Hd] & Hr).
    exists body, r. split; [done|]. split; [left; by rewrite Hd|].
    by rewrite Hitems.
Qed.

(** The reply of an awaited workflow run against a stream. *)
Lemma object_modes error_event streamed awaited body :
  converted error_event streamed body →
  mode_equivalent (Ok (StreamingResponse body))
    (match awaited with
     | inr v => Ok (ReturnedRun v)
     | inl e => HTTPException 500 ("Error running workflow: " +:+ Py.str e)
     end)
  ↔ invocations_agree error_event as_object streamed awaited.
Proof.
  intros [_ Hitems]. unfold mode_equivalent, invocations_agree, streamed_records,
    as_object. split.
  - intros (body' & r & [= <-] & Hb & Hr).
    destruct awaited as [e|v]; destruct Hb as [Hb|Hb]; try discriminate Hb.
    injection Hb as ->. exists r, r. split; [done|]. split; [done|].
    by rewrite <- Hitems.
  - intros (r0 & r & -> & [= ->] & Hr).
    exists body, r. split; [done|]. split; [by right|].
    by rewrite Hitems.
Qed.

(** The run of a first-generation workflow does not read the [stream] flag
    of the request. *)
Lemma create_workflow_run_flag w workflow_id body workflow registered :
  get_workflow_by_id w workflow_id (workflows reg) = Some workflow →
  workflow_objs w !! workflow = Some (V1 registered) →
  create_workflow_run reg workflow_id (asking true body) w
  = create_workflow_run reg workflow_id (asking false body) w.
Proof.
  intros Hw Ho. unfold create_workflow_run. run_handler. rewrite Hw, Ho. reflexivity.
Qed.

End TwoModes.

(** C2, as amended.  The two modes of a run are two invocations of the
    entity in the same state, one with [stream=True] and
    [stream_intermediate_steps=True] and one without them, and the router
    drains nothing in buffered mode: the stream is what the first
    invocation delivers, closed by an error event if it raised, and the
    buffered reply is what the second invocation returned.  So, for an agent
    run, a team run, a continued agent run and the run of a
    second-generation workflow alike, the two modes of one request are
    equivalent exactly when those two invocations agree, and whether they do
    is up to the entity.  A first-generation workflow does not read the
    [stream] flag: both modes give one and the same reply, so that they are
    never a stream on one side and a response on the other. *)
Theorem modes_agree_exactly_when_the_invocations_agree `{Collaborators}
    (reg : Registry) (w : World) :
  (∀ agent_id message monitor session_id user_id files w1 agent sid up,
     agent_run_setup reg agent_id monitor session_id files w = (w1, Ok (agent, sid, up)) →
     let streamed := run_args message sid user_id up true in
     let awaited := run_args message sid user_id up false in
     let s := create_agent_run reg agent_id message true monitor session_id user_id
                files w in
     let b := create_agent_run reg agent_id message false monitor session_id user_id
                files w in
     s.1 = logged (agent_arun agent streamed) w1
     ∧ b.1 = logged (agent_arun agent awaited) w1
     ∧ (mode_equivalent s.2 b.2
        ↔ invocations_agree RunResponseErrorEvent as_dictionary
            (Agent_arun s.1 agent streamed) (Agent_arun b.1 agent awaited)))
  ∧ (∀ team_id message monitor session_id user_id files w1 team sid up,
       team_run_setup reg team_id monitor session_id files w = (w1, Ok (team, sid, up)) →
       let streamed := run_args message sid user_id up true in
       let awaited := run_args message sid user_id up false in
       let s := create_team_run reg team_id message true monitor session_id user_id
                  files w in
       let b := create_team_run reg team_id message false monitor session_id user_id
                  files w in
       s.1 = logged (team_arun team streamed) w1
       ∧ b.1 = logged (team_arun team awaited) w1
       ∧ (mode_equivalent s.2 b.2
          ↔ invocations_agree TeamRunResponseErrorEvent as_dictionary
              (Team_arun s.1 team streamed) (Team_arun b.1 team awaited)))
  ∧ (∀ agent_id run_id tools session_id user_id agent ts,
       get_agent_by_id w agent_id (agents reg) = Some agent →
       tools ≠ tools_invalid →
       updated_tools_of (tools_data_of tools) = inr ts →
       let streamed := continue_args run_id ts session_id user_id true in
       let awaited := continue_args run_id ts session_id user_id false in
       let s := continue_agent_run reg agent_id run_id tools session_id user_id true w in
       let b := continue_agent_run reg agent_id run_id tools session_id user_id false w in
       s.1 = logged (agent_acontinue_run agent streamed) w
       ∧ b.1 = logged (agent_acontinue_run agent awaited) w
       ∧ (mode_equivalent s.2 b.2
          ↔ invocations_agree RunResponseErrorEvent as_dictionary
              (Agent_acontinue_run s.1 agent streamed)
              (Agent_acontinue_run b.1 agent awaited)))
  ∧ (∀ workflow_id body workflow wf,
       get_workflow_by_id w workflow_id (workflows reg) = Some workflow →
       workflow_objs w !! workflow = Some (V2 wf) →
       let sid := chosen_session w (session_id body) in
       let s := create_workflow_run reg workflow_id (asking true body) w in
       let b := create_workflow_run reg workflow_id (asking false body) w in
       mode_equivalent s.2 b.2
       ↔ invocations_agree WorkflowErrorEvent as_object
           (streamed_workflow_call s.1 workflow sid body)
           (awaited_workflow_call b.1 workflow sid body))
  ∧ (∀ workflow_id body workflow registered,
       get_workflow_by_id w workflow_id (workflows reg) = Some workflow →
       workflow_objs w !! workflow = Some (V1 registered) →
       let s := create_workflow_run reg workflow_id (asking true body) w in
       let b := create_workflow_run reg workflow_id (asking false body) w in
       s = b ∧ ¬ mode_equivalent s.2 b.2).
Proof.
  split; [|split; [|split; [|split]]].
  - intros agent_id message monitor session_id user_id files w1 agent sid up Hs
      streamed awaited s b.
    destruct (create_agent_run_streaming reg w agent_id message monitor session_id
                user_id files w1 agent sid up Hs) as (body & Hrun & Hconv).
    pose proof (create_agent_run_buffered reg w agent_id message monitor session_id
                  user_id files w1 agent sid up Hs) as Hbuf.
    cbn zeta in Hrun, Hconv, Hbuf. subst s b streamed awaited.
    rewrite Hrun, Hbuf. cbn [fst snd].
    split; [done|]. split; [done|]. by apply dictionary_modes.
  - intros team_id message monitor session_id user_id files w1 team sid up Hs
      streamed awaited s b.
    destruct (create_team_run_streaming reg w team_id message monitor session_id
                user_id files w1 team sid up Hs) as (body & Hrun & Hconv).
    pose proof (create_team_run_buffered reg w team_id message monitor session_id
                  user_id files w1 team sid up Hs) as Hbuf.
    cbn zeta in Hrun, Hconv, Hbuf. subst s b streamed awaited.
    rewrite Hrun, Hbuf. cbn [fst snd].
    split; [done|]. split; [done|]. by apply dictionary_modes.
  - intros agent_id run_id tools session_id user_id agent ts Ha Ht Hu
      streamed awaited s b.
    destruct (continue_agent_run_streaming reg w agent_id run_id tools session_id
                user_id agent ts Ha Ht Hu) as (body & Hrun & Hconv).
    pose proof (continue_agent_run_buffered reg w agent_id run_id tools session_id
                  user_id agent ts Ha Ht Hu) as Hbuf.
    cbn zeta in Hrun, Hconv, Hbuf. subst s b streamed awaited.
    rewrite Hrun, Hbuf. cbn [fst snd].
    split; [done|]. split; [done|]. by apply dictionary_modes.
  - intros workflow_id body workflow wf Hw Ho sid s b.
    destruct (create_workflow_run_streaming reg w workflow_id (asking true body)
                workflow wf Hw Ho eq_refl) as (events & Hrun & Hconv).
    pose proof (create_workflow_run_buffered reg w workflow_id (asking false body)
                  workflow wf Hw Ho eq_refl) as Hbuf.
    cbn zeta in Hbuf. subst s b sid. rewrite Hrun, Hbuf.
    by apply object_modes.
  - intros workflow_id body workflow registered Hw Ho s b. subst s b.
    rewrite (create_workflow_run_flag reg w workflow_id body workflow registered Hw Ho).
    split; [done|].
    intros (events & r & Hs & [Hb|Hb] & _); rewrite Hs in Hb; discriminate Hb.
Qed.

(** The agent of the playground on the message ["hi"], and its
    second-generation workflow: their two invocations agree, and so do the
    two modes. *)
Lemma modes_agree_exactly_when_the_invocations_agree_witness :
  mode_equivalent (H := Demo.collaborators)
    (create_agent_run (H := Demo.collaborators) Demo.registry "writer-agent" "hi"
       true false (Some "A") None None Demo.world).2
    (create_agent_run (H := Demo.collaborators) Demo.registry "writer-agent" "hi"
       false false (Some "A") None None Demo.world).2
  ∧ mode_equivalent (H := Demo.collaborators)
      (create_workflow_run (H := Demo.collaborators) Demo.registry "pipeline"
         (mkWorkflowRunRequest [("message", Py.Str "hi")] None None true)
         Demo.world).2
      (create_workflow_run (H := Demo.collaborators) Demo.registry "pipeline"
         (mkWorkflowRunRequest [("message", Py.Str "hi")] None None false)
         Demo.world).2.
Proof.
  destruct (modes_agree_exactly_when_the_invocations_agree (H := Demo.collaborators)
              Demo.registry Demo.world) as (Hagent & _ & _ & Hworkflow & _).
  split.
  - assert (agent_run_setup (H := Demo.collaborators) Demo.registry "writer-agent"
              false (Some "A") None Demo.world
            = ((agent_run_setup (H := Demo.collaborators) Demo.registry "writer-agent"
                  false (Some "A") None Demo.world).1,
               Ok (0, "A", mkUploads [] [] [] []))) as Hsetup
      by (vm_compute; reflexivity).
    destruct (Hagent "writer-agent" "hi" false (Some "A") None None _ 0 "A"
                (mkUploads [] [] [] []) Hsetup) as (_ & _ & Hiff).
    apply Hiff. eexists _, _. split; [vm_compute; reflexivity|].
    split; [reflexivity|]. reflexivity.
  - apply (Hworkflow "pipeline"
             (mkWorkflowRunRequest [("message", Py.Str "hi")] None None false)
             1 (WorkflowV2.mk (Some "pipeline") (Some "Pipeline") None (Some 0))
             eq_refl eq_refl).
    eexists _, _. split; [vm_compute; reflexivity|].
    split; [reflexivity|]. reflexivity.
Defined.

(** C2 fails as stated.  On ["research"] the streamed run reports the
    steps of the tool call, which the run with [stream=False] does not
    aggregate, so the stream has four records and the transcript of the
    response two; and when the model of the agent fails, the stream carries
    an error event while the buffered run gives no response at all. *)
Lemma modes_differ_on_steps_and_failures :
  let run message stream :=
    (create_agent_run (H := Demo.collaborators) Demo.registry "writer-agent" message
       stream false None None None Demo.world).2 in
  run "research" true
  = Ok (StreamingResponse
          (Yield "tool-call-proposed: search"
             (Yield "tool-result: 3 hits"
                (Yield "content-delta: summary" (Yield "completed: " Return)))))
  ∧ run "research" false
    = Ok (Returned
            (Py.Dict (to_dict (Collaborators := Demo.collaborators)
                        (mkRunResponse (Some "run-1")
                           [mkEvent content_delta "summary"; mkEvent completed ""]))))
  ∧ ¬ mode_equivalent (H := Demo.collaborators) (run "research" true)
        (run "research" false)
  ∧ run "boom" true
    = Ok (StreamingResponse (Yield "error: model provider failed" Return))
  ∧ run "boom" false = Uncaught Demo.provider_failure
  ∧ ¬ mode_equivalent (H := Demo.collaborators) (run "boom" true) (run "boom" false).
Proof.
  split; [reflexivity|]. split; [reflexivity|]. split.
  { intros (body & [rid events] & Hs & [Hb|Hb] & Hitems); [|discriminate Hb].
    vm_compute in Hs. injection Hs as <-.
    vm_compute in Hb. injection Hb as _ Hevents.
    destruct events as [|e1 [|e2 [|e3 events]]]; try discriminate Hevents.
    discriminate Hitems. }
  split; [reflexivity|]. split; [reflexivity|].
  intros (body & r & _ & [Hb|Hb] & _); discriminate Hb.
Qed.

Lemma loads_start_no_run (w : World) (loads : list Call) :
  Forall is_load loads → omap (run_session w) loads = [].
Proof.
  induction 1 as [|c loads Hc _ IH]; [done|].
  destruct c; done.
Qed.

Lemma new_calls_app (w w' : World) (l : list Call) :
  calls w' = calls w ++ l → new_calls w w' = l.
Proof. intros Hc. unfold new_calls. rewrite Hc. apply drop_app_length. Qed.

Section Sessions.
Context `{Collaborators}.
Variable reg : Registry.

Lemma create_agent_run_sessions w agent_id message stream monitor requested user_id
    files :
  let r := create_agent_run reg agent_id message stream monitor requested user_id
             files w in
  (omap (run_session r.1) (new_calls w r.1) = [] ∧ ∀ reply, r.2 ≠ Ok reply)
  ∨ omap (run_session r.1) (new_calls w r.1) = [Some (chosen_session w requested)].
Proof.
  intros r. subst r.
  pose proof (agent_run_setup_spec reg w agent_id monitor requested files) as Hsetup.
  pose proof (create_agent_run_dispatch reg w agent_id message stream monitor
                requested user_id files) as Hrun.
  cbn zeta in *.
  destruct (get_agent_by_id w agent_id (agents reg)) as [agent|].
  - destruct Hsetup as (_ & _ & _ & _ & _ & (loads & Hcalls & Hloads) & Hok).
    destruct (agent_run_setup reg agent_id monitor requested files w)
      as [w1 [[[agent' sid] up]|c d|e]]; cbn [fst snd] in *.
    + destruct (Hok _ eq_refl) as (up' & [= -> -> <-]).
      destruct Hrun as [-> _]. right.
      rewrite (new_calls_app w _ (loads ++ [agent_arun agent
                 (run_args message (chosen_session w requested) user_id up stream)])).
      * rewrite omap_app, (loads_start_no_run _ _ Hloads). reflexivity.
      * cbn. by rewrite Hcalls, app_assoc.
    + rewrite Hrun. left. cbn [fst snd].
      rewrite (new_calls_app w _ loads Hcalls). split; [by apply loads_start_no_run|done].
    + rewrite Hrun. left. cbn [fst snd].
      rewrite (new_calls_app w _ loads Hcalls). split; [by apply loads_start_no_run|done].
  - rewrite Hsetup in Hrun. rewrite Hrun. left. cbn [fst snd].
    unfold new_calls. rewrite drop_all. done.
Qed.

Lemma create_team_run_sessions w team_id message stream monitor requested user_id
    files :
  let r := create_team_run reg team_id message stream monitor requested user_id
             files w in
  (omap (run_session r.1) (new_calls w r.1) = [] ∧ ∀ reply, r.2 ≠ Ok reply)
  ∨ omap (run_session r.1) (new_calls w r.1) = [Some (chosen_session w requested)].
Proof.
  intros r. subst r.
  pose proof (team_run_setup_spec reg w team_id monitor requested files) as Hsetup.
  pose proof (create_team_run_dispatch reg w team_id message stream monitor
                requested user_id files) as Hrun.
  cbn zeta in *.
  destruct (get_team_by_id w team_id (teams reg)) as [team|].
  - destruct Hsetup as (_ & _ & _ & _ & _ & Hcalls & Hok).
    destruct (team_run_setup reg team_id monitor requested files w)
      as [w1 [[[team' sid] up]|c d|e]]; cbn [fst snd] in *.
    + destruct (Hok _ eq_refl) as (up' & [= -> -> <-]).
      destruct Hrun as [-> _]. right.
      rewrite (new_calls_app w _ [team_arun team
                 (run_args message (chosen_session w requested) user_id up stream)]).
      * reflexivity.
      * cbn. by rewrite Hcalls.
    + rewrite Hrun. left. cbn [fst snd]. unfold new_calls.
      rewrite Hcalls, drop_all. done.
    + rewrite Hrun. left. cbn [fst snd]. unfold new_calls.
      rewrite Hcalls, drop_all. done.
  - rewrite Hsetup in Hrun. rewrite Hrun. left. cbn [fst snd].
    unfold new_calls. rewrite drop_all. done.
Qed.

Lemma create_agent_run_uuid w agent_id message stream monitor requested user_id files :
  is_Some (get_agent_by_id w agent_id (agents reg)) →
  uuid_calls (create_agent_run reg agent_id message stream monitor requested user_id
                files w).1
  = uuid_calls w + uuid_drawn requested.
Proof.
  intros [agent Hagent].
  pose proof (agent_run_setup_spec reg w agent_id monitor requested files) as Hsetup.
  pose proof (create_agent_run_dispatch reg w agent_id message stream monitor
                requested user_id files) as Hrun.
  cbn zeta in *. rewrite Hagent in Hsetup.
  destruct Hsetup as (_ & _ & _ & _ & Hu & _ & _).
  destruct (agent_run_setup reg agent_id monitor requested files w)
    as [w1 [[[agent' sid] up]|c d|e]]; cbn [fst snd] in *.
  - destruct Hrun as [-> _]. exact Hu.
  - by rewrite Hrun.
  - by rewrite Hrun.
Qed.

Lemma create_team_run_uuid w team_id message stream monitor requested user_id files :
  is_Some (get_team_by_id w team_id (teams reg)) →
  uuid_calls (create_team_run reg team_id message stream monitor requested user_id
                files w).1
  = uuid_calls w + uuid_drawn requested.
Proof.
  intros [team Hteam].
  pose proof (team_run_setup_spec reg w team_id monitor requested files) as Hsetup.
  pose proof (create_team_run_dispatch reg w team_id message stream monitor
                requested user_id files) as Hrun.
  cbn zeta in *. rewrite Hteam in Hsetup.
  destruct Hsetup as (_ & _ & _ & _ & Hu & _ & _).
  destruct (team_run_setup reg team_id monitor requested files w)
    as [w1 [[[team' sid] up]|c d|e]]; cbn [fst snd] in *.
  - destruct Hrun as [-> _]. exact Hu.
  - by rewrite Hrun.
  - by rewrite Hrun.
Qed.

End Sessions.

(** C5, as amended.  For an agent run, a team run and a run of a
    second-generation workflow, the run is started in the session the
    request names when that identifier is given and not empty, and
    otherwise in the session [str(uuid4())]; one identifier is drawn in the
    second case and none in the first, and the router looks the session up
    nowhere: the statement holds in every world, whatever the storages hold.
    For a first-generation workflow the session identifier of the request
    is written into the copy that is run exactly as it came, absent or
    empty included, and no identifier is drawn. *)
Theorem session_is_continued_or_created `{Collaborators} (reg : Registry) (w : World) :
  (∀ agent_id message stream monitor requested user_id files,
     let r := create_agent_run reg agent_id message stream monitor requested user_id
                files w in
     session_rule requested w r
     ∧ (∀ reply, r.2 = Ok reply →
          omap (run_session r.1) (new_calls w r.1) = [Some (chosen_session w requested)])
     ∧ (is_Some (get_agent_by_id w agent_id (agents reg)) →
        uuid_calls r.1 = uuid_calls w + uuid_drawn requested))
  ∧ (∀ team_id message stream monitor requested user_id files,
       let r := create_team_run reg team_id message stream monitor requested user_id
                  files w in
       session_rule requested w r
       ∧ (∀ reply, r.2 = Ok reply →
            omap (run_session r.1) (new_calls w r.1)
            = [Some (chosen_session w requested)])
       ∧ (is_Some (get_team_by_id w team_id (teams reg)) →
          uuid_calls r.1 = uuid_calls w + uuid_drawn requested))
  ∧ (∀ workflow_id body workflow wf,
       get_workflow_by_id w workflow_id (workflows reg) = Some workflow →
       workflow_objs w !! workflow = Some (V2 wf) →
       let r := create_workflow_run reg workflow_id body w in
       session_rule (session_id body) w r
       ∧ uuid_calls r.1 = uuid_calls w + uuid_drawn (session_id body)
       ∧ (keyword_clash (input body)
            ["user_id"; "session_id"; "stream"; "stream_intermediate_steps"] = None →
          omap (run_session r.1) (new_calls w r.1)
          = [Some (chosen_session w (session_id body))]))
  ∧ (∀ workflow_id body workflow registered,
       get_workflow_by_id w workflow_id (workflows reg) = Some workflow →
       workflow_objs w !! workflow = Some (V1 registered) →
       let r := create_workflow_run reg workflow_id body w in
       omap (run_session r.1) (new_calls w r.1) = [session_id body]
       ∧ uuid_calls r.1 = uuid_calls w).
Proof.
  split; [|split; [|split]].
  - intros agent_id message stream monitor requested user_id files r.
    pose proof (create_agent_run_sessions reg w agent_id message stream monitor
                  requested user_id files) as Hs.
    cbn zeta in Hs. fold r in Hs. split; [|split].
    + intros s Hin. destruct Hs as [[Hs _]|Hs]; rewrite Hs in Hin.
      * by apply elem_of_nil in Hin.
      * by apply list_elem_of_singleton in Hin.
    + intros reply Hreply. destruct Hs as [[_ Hs]|Hs]; [by destruct (Hs reply)|done].
    + apply create_agent_run_uuid.
  - intros team_id message stream monitor requested user_id files r.
    pose proof (create_team_run_sessions reg w team_id message stream monitor
                  requested user_id files) as Hs.
    cbn zeta in Hs. fold r in Hs. split; [|split].
    + intros s Hin. destruct Hs as [[Hs _]|Hs]; rewrite Hs in Hin.
      * by apply elem_of_nil in Hin.
      * by apply list_elem_of_singleton in Hin.
    + intros reply Hreply. destruct Hs as [[_ Hs]|Hs]; [by destruct (Hs reply)|done].
    + apply create_team_run_uuid.
  - intros workflow_id body workflow wf Hw Ho r.
    destruct (create_workflow_run_v2 reg w workflow_id body workflow wf Hw Ho)
      as (Hu & _ & Hcalls & Hclean).
    fold r in Hu, Hcalls, Hclean. split; [|split].
    + intros s Hin. destruct Hcalls as [Hc|Hc]; rewrite Hc in Hin.
      * by apply elem_of_nil in Hin.
      * by apply list_elem_of_singleton in Hin.
    + exact Hu.
    + intros Hnone. by rewrite (Hclean Hnone).
  - intros workflow_id body workflow registered Hw Ho r.
    destruct (create_workflow_run_v1 reg w workflow_id body workflow registered Hw Ho)
      as [Hworld _].
    fold r in Hworld. rewrite Hworld.
    rewrite (new_calls_app w _ [workflow_run (fresh (dom (workflow_objs w)))
                                  (input body)]) by reflexivity.
    cbn. by rewrite lookup_insert_eq.
Qed.

(** In the playground: an agent run without a session gets the fresh
    identifier, a team run in ["S9"] stays there, a run of the workflow
    ["pipeline"] with an empty session gets the fresh identifier, and the
    copy of the workflow ["blog"] is run in the session of the request. *)
Lemma session_is_continued_or_created_witness :
  let a := create_agent_run (H := Demo.collaborators) Demo.registry "writer-agent"
             "hi" true false None None None Demo.world in
  let t := create_team_run (H := Demo.collaborators) Demo.registry "writers"
             "hi" false true (Some "S9") None None Demo.world in
  let p := create_workflow_run (H := Demo.collaborators) Demo.registry "pipeline"
             (mkWorkflowRunRequest [("message", Py.Str "hi")] None (Some "") false)
             Demo.world in
  let b := create_workflow_run (H := Demo.collaborators) Demo.registry "blog"
             (mkWorkflowRunRequest [("message", Py.Str "hi")] None (Some "S9") false)
             Demo.world in
  omap (run_session a.1) (new_calls Demo.world a.1) = [Some "uuid4-0"]
  ∧ uuid_calls a.1 = 1
  ∧ omap (run_session t.1) (new_calls Demo.world t.1) = [Some "S9"]
  ∧ uuid_calls t.1 = 0
  ∧ omap (run_session p.1) (new_calls Demo.world p.1) = [Some "uuid4-0"]
  ∧ omap (run_session b.1) (new_calls Demo.world b.1) = [Some "S9"].
Proof.
  destruct (session_is_continued_or_created (H := Demo.collaborators) Demo.registry
              Demo.world) as (Hagent & Hteam & Hv2 & Hv1).
  destruct (Hagent "writer-agent" "hi" true false None None None)
    as (_ & Hrun & Huuid).
  destruct (Hteam "writers" "hi" false true (Some "S9") None None)
    as (_ & Hrun' & Huuid').
  destruct (Hv2 "pipeline"
              (mkWorkflowRunRequest [("message", Py.Str "hi")] None (Some "") false)
              1 (WorkflowV2.mk (Some "pipeline") (Some "Pipeline") None (Some 0))
              eq_refl eq_refl) as (_ & _ & Hp).
  destruct (Hv1 "blog"
              (mkWorkflowRunRequest [("message", Py.Str "hi")] None (Some "S9") false)
              0 (Workflow.mk (Some "blog") (Some "Blog") (Some "old") (Some "bob")
                   (Some "kept") (Some "RunResponse") (Some 0))
              eq_refl eq_refl) as (Hb & _).
  split; [exact (Hrun _ eq_refl)|].
  split; [apply Huuid; by eexists|].
  split; [exact (Hrun' _ eq_refl)|].
  split; [apply Huuid'; by eexists|].
  split; [exact (Hp eq_refl)|exact Hb].
Defined.

(** C5 fails as stated, for the workflow endpoint: a run request without a
    session identifier for a first-generation workflow draws no identifier
    and runs the copy with no session, and an empty identifier is passed on
    as it is. *)
Lemma first_generation_workflow_gets_no_fresh_session :
  let absent := mkWorkflowRunRequest [("message", Py.Str "hi")] None None false in
  let empty := mkWorkflowRunRequest [("message", Py.Str "hi")] None (Some "") false in
  let r := create_workflow_run (H := Demo.collaborators) Demo.registry "blog" absent
             Demo.world in
  let r' := create_workflow_run (H := Demo.collaborators) Demo.registry "blog" empty
              Demo.world in
  omap (run_session r.1) (new_calls Demo.world r.1) = [None]
  ∧ uuid_calls r.1 = uuid_calls Demo.world
  ∧ omap (run_session r'.1) (new_calls Demo.world r'.1) = [Some ""]
  ∧ ¬ session_rule (H := Demo.collaborators) None Demo.world r
  ∧ ¬ session_rule (H := Demo.collaborators) (Some "") Demo.world r'.
Proof.
  split; [by vm_compute|]. split; [by vm_compute|]. split; [by vm_compute|].
  split; intros Hrule.
  - specialize (Hrule None). discriminate Hrule.
    apply list_elem_of_In. vm_compute. auto.
  - specialize (Hrule (Some "")). discriminate Hrule.
    apply list_elem_of_In. vm_compute. auto.
Qed.

(** ** How a workflow run is delivered (C6) *)

(** C6, as amended.  A run request for a registered workflow is delivered
    as follows, and a reply is never delivered otherwise.  For a
    first-generation workflow the delivery follows the return type the
    instance declares, whatever the request says: when [_run_return_type]
    is ["RunResponse"] the reply is the value the run returned, otherwise
    it is the stream of the events of the iterator the run returned.  For a
    second-generation workflow nothing is detected: the [stream] flag of
    the request selects the delivery, a stream of the events of the run
    with the flag and the value the awaited run returned without it.  A run
    that raises when it is started or awaited ends in the error reply 500
    made of its exception, except in the stream of a second-generation
    workflow, which always starts and carries the exception as its last
    event. *)
Theorem workflow_run_is_delivered_as_selected `{Collaborators} (reg : Registry)
    (w : World) (workflow_id : string) (body : WorkflowRunRequest) (workflow : loc)
    (o : AnyWorkflow) :
  get_workflow_by_id w workflow_id (workflows reg) = Some workflow →
  workflow_objs w !! workflow = Some o →
  let r := create_workflow_run reg workflow_id body w in
  let sid := chosen_session w (session_id body) in
  let failed (e : exn) : Outcome Reply :=
    HTTPException 500 ("Error running workflow: " +:+ Py.str e) in
  let selected :=
    match o with
    | V1 registered => declared_delivery registered
    | V2 _ => if stream body then streaming else buffered
    end in
  (∀ reply, r.2 = Ok reply → delivery reply = Some selected)
  ∧ match o with
    | V1 registered =>
        let run := Workflow_run r.1 (fresh (dom (workflow_objs w))) (input body) in
        match declared_delivery registered with
        | buffered =>
            r.2 = match run with
                  | inr v => Ok (ReturnedRun v)
                  | inl e => failed e
                  end
        | streaming =>
            r.2 = match run ≫= iter_run with
                  | inr g => Ok (StreamingResponse (Py.gmap_gen to_json g))
                  | inl e => failed e
                  end
        end
    | V2 _ =>
        if stream body
        then ∃ events,
               r.2 = Ok (StreamingResponse events)
               ∧ converted WorkflowErrorEvent
                   (streamed_workflow_call r.1 workflow sid body) events
        else r.2 = match awaited_workflow_call r.1 workflow sid body with
                   | inr v => Ok (ReturnedRun v)
                   | inl e => failed e
                   end
    end.
Proof.
  intros Hw Ho r sid failed selected. subst r sid failed selected.
  destruct o as [registered|wf].
  - destruct (create_workflow_run_v1 reg w workflow_id body workflow registered Hw Ho)
      as [_ Hout].
    cbn zeta in Hout. cbn zeta. unfold declared_delivery in *.
    destruct (bool_decide (Workflow._run_return_type registered = Some "RunResponse")).
    + split; [|exact Hout]. intros reply Hr. rewrite Hout in Hr.
      destruct (Workflow_run _ _ _) as [e|v]; [discriminate Hr|].
      by injection Hr as <-.
    + split; [|exact Hout]. intros reply Hr. rewrite Hout in Hr.
      destruct (Workflow_run _ _ _ ≫= iter_run) as [e|g]; [discriminate Hr|].
      by injection Hr as <-.
  - destruct (stream body) eqn:Hs.
    + destruct (create_workflow_run_streaming reg w workflow_id body workflow wf
                  Hw Ho Hs) as (events & Hr & Hconv).
      split; [|by exists events].
      intros reply Hreply. rewrite Hr in Hreply. by injection Hreply as <-.
    + pose proof (create_workflow_run_buffered reg w workflow_id body workflow wf
                    Hw Ho Hs) as Hout.
      cbn zeta in Hout. split; [|exact Hout].
      intros reply Hr. rewrite Hout in Hr.
      destruct (awaited_workflow_call _ _ _ _) as [e|v]; [discriminate Hr|].
      by injection Hr as <-.
Qed.

(** The workflow ["digest"] of the playground declares an iterator and is
    streamed although the request asks for no stream. *)
Lemma workflow_run_is_delivered_as_selected_witness :
  let r := create_workflow_run (H := Demo.collaborators) Demo.registry "digest"
             (mkWorkflowRunRequest [("message", Py.Str "hi")] None None false)
             Demo.world in
  (∀ reply, r.2 = Ok reply → delivery reply = Some streaming)
  ∧ r.2 = Ok (StreamingResponse (Yield "content-delta: hi" (Yield "completed: " Return))).
Proof.
  destruct (workflow_run_is_delivered_as_selected (H := Demo.collaborators)
              Demo.registry Demo.world "digest"
              (mkWorkflowRunRequest [("message", Py.Str "hi")] None None false)
              2 (V1 (Workflow.mk (Some "digest") (Some "Digest") None None None
                       (Some "Iterator") (Some 0)))
              eq_refl eq_refl) as [Hsel Hout].
  split; [exact Hsel|]. vm_compute in Hout. vm_compute. exact Hout.
Defined.

(** C6 fails as stated: the second-generation workflow ["pipeline"] is
    streamed or not as the request says, so no discipline of the instance
    fixes its delivery. *)
Lemma request_flag_selects_delivery :
  let asked b := mkWorkflowRunRequest [("message", Py.Str "hi")] None None b in
  let run b := create_workflow_run (H := Demo.collaborators) Demo.registry "pipeline"
                 (asked b) Demo.world in
  (run true).2
  = Ok (StreamingResponse (Yield "content-delta: hi" (Yield "completed: " Return)))
  ∧ (run false).2
    = Ok (ReturnedRun (Response (mkRunResponse (Some "run-1")
                                   [mkEvent content_delta "hi"; mkEvent completed ""])))
  ∧ ¬ delivery_by_detection (H := Demo.collaborators) Demo.registry Demo.world
        "pipeline".
Proof.
  split; [reflexivity|]. split; [reflexivity|].
  intros [d Hd].
  pose proof (Hd (mkWorkflowRunRequest [("message", Py.Str "hi")] None None true)
                _ eq_refl) as Hs.
  pose proof (Hd (mkWorkflowRunRequest [("message", Py.Str "hi")] None None false)
                _ eq_refl) as Hb.
  cbn in Hs, Hb. congruence.
Qed.

(** ** What a request writes into the registered handles (C7) *)

Section Handles.
Context `{Collaborators}.
Variable reg : Registry.

Lemma create_agent_run_handles w agent_id message stream monitor requested user_id
    files :
  let r := create_agent_run reg agent_id message stream monitor requested user_id
             files w in
  match get_agent_by_id w agent_id (agents reg) with
  | Some agent =>
      agent_objs r.1 = alter (Agent.set_monitoring monitor) agent (agent_objs w)
      ∧ team_objs r.1 = team_objs w
      ∧ workflow_objs r.1 = workflow_objs w
  | None => r.1 = w
  end.
Proof.
  intros r. subst r.
  pose proof (agent_run_setup_spec reg w agent_id monitor requested files) as Hsetup.
  pose proof (create_agent_run_dispatch reg w agent_id message stream monitor
                requested user_id files) as Hrun.
  cbn zeta in *.
  destruct (get_agent_by_id w agent_id (agents reg)) as [agent|].
  - destruct Hsetup as (Ha & Ht & Hf & _).
    destruct (agent_run_setup reg agent_id monitor requested files w)
      as [w1 [[[agent' sid] up]|c d|e]]; cbn [fst snd] in *.
    + destruct Hrun as [-> _]. done.
    + by rewrite Hrun.
    + by rewrite Hrun.
  - rewrite Hsetup in Hrun. by rewrite Hrun.
Qed.

Lemma create_team_run_handles w team_id message stream monitor requested user_id
    files :
  let r := create_team_run reg team_id message stream monitor requested user_id
             files w in
  match get_team_by_id w team_id (teams reg) with
  | Some team =>
      team_objs r.1 = alter (Team.set_monitoring monitor) team (team_objs w)
      ∧ agent_objs r.1 = agent_objs w
      ∧ workflow_objs r.1 = workflow_objs w
  | None => r.1 = w
  end.
Proof.
  intros r. subst r.
  pose proof (team_run_setup_spec reg w team_id monitor requested files) as Hsetup.
  pose proof (create_team_run_dispatch reg w team_id message stream monitor
                requested user_id files) as Hrun.
  cbn zeta in *.
  destruct (get_team_by_id w team_id (teams reg)) as [team|].
  - destruct Hsetup as (Ha & Ht & Hf & _).
    destruct (team_run_setup reg team_id monitor requested files w)
      as [w1 [[[team' sid] up]|c d|e]]; cbn [fst snd] in *.
    + destruct Hrun as [-> _]. done.
    + by rewrite Hrun.
    + by rewrite Hrun.
  - rewrite Hsetup in Hrun. by rewrite Hrun.
Qed.

Lemma rename_workflow_session_handles w workflow_id sid body workflow :
  get_workflow_by_id w workflow_id (workflows reg) = Some workflow →
  let r := rename_workflow_session reg workflow_id sid body w in
  workflow_objs r.1
  = alter (AnyWorkflow.set_session_id (Some sid)) workflow (workflow_objs w)
  ∧ agent_objs r.1 = agent_objs w
  ∧ team_objs r.1 = team_objs w
  ∧ new_calls w r.1 = [workflow_rename_session workflow (rename_name body)].
Proof.
  intros Hw r. subst r. unfold rename_workflow_session. run_handler. rewrite Hw.
  run_handler.
  destruct (Workflow_rename_session _ _ _) as [e|]; run_handler.
  - unfold new_calls. cbn. by rewrite (drop_app_length (calls w)).
  - match goal with |- context [match ?x with Some _ => _ | None => _ end] =>
      destruct x end; run_handler; unfold new_calls; cbn;
      by rewrite (drop_app_length (calls w)).
Qed.

End Handles.

Lemma knowledge_kept_refl kb w w' :
  calls w' = calls w → knowledge_objs w' = knowledge_objs w → knowledge_kept kb w w'.
Proof. intros Hc Hk. exists []. by rewrite Hc, app_nil_r. Qed.

Lemma knowledge_kept_trans kb w1 w2 w3 :
  knowledge_kept kb w1 w2 → knowledge_kept kb w2 w3 → knowledge_kept kb w1 w3.
Proof.
  intros (l1 & Hc1 & Hl1 & Hn1) (l2 & Hc2 & Hl2 & Hn2).
  exists (l1 ++ l2). split; [by rewrite Hc2, Hc1, app_assoc|].
  split; [by apply Forall_app|].
  intros [-> ->]%app_eq_nil. by rewrite Hn2, Hn1.
Qed.

Lemma knowledge_after_monitoring monitor agent (objs : gmap loc Agent.t) :
  alter (Agent.set_monitoring monitor) agent objs !! agent ≫= Agent.knowledge
  = objs !! agent ≫= Agent.knowledge.
Proof. rewrite lookup_alter_eq. by destruct (objs !! agent) as [[]|]. Qed.

Section Knowledge.
Context `{Collaborators}.
Variable reg : Registry.

Lemma agent_file_knowledge agent file up w :
  knowledge_kept (agent_objs w !! agent ≫= Agent.knowledge) w
    (agent_file agent file up w).1.
Proof.
  unfold agent_file.
  destruct (type_in (content_type file) image_types).
  { by destruct (process_image file); apply knowledge_kept_refl. }
  destruct (type_in (content_type file) audio_types).
  { by destruct (process_audio file); apply knowledge_kept_refl. }
  destruct (type_in (content_type file) video_types).
  { by destruct (process_video file); apply knowledge_kept_refl. }
  destruct (document_reader (content_type file)) as [reader|];
    [|by apply knowledge_kept_refl].
  run_handler.
  destruct (import_reader reader) as [e|]; [by apply knowledge_kept_refl|].
  run_handler.
  destruct (UploadFile_read file) as [e|contents]; [by apply knowledge_kept_refl|].
  run_handler.
  destruct (agent_objs w !! agent ≫= Agent.knowledge) as [kb|];
    [|by apply knowledge_kept_refl].
  run_handler.
  destruct (Reader_read reader (filename file) contents) as [e|docs];
    [by apply knowledge_kept_refl|].
  run_handler.
  destruct (Knowledge_load_documents _ kb docs) as [e|knowledge]; run_handler;
    (eexists; split; [reflexivity|]; split; [by repeat constructor|done]).
Qed.

Lemma agent_files_knowledge agent files : ∀ up w,
  knowledge_kept (agent_objs w !! agent ≫= Agent.knowledge) w
    (agent_files agent files up w).1.
Proof.
  induction files as [|file files IH]; intros up w; [by apply knowledge_kept_refl|].
  cbn [agent_files]. rewrite bind_unfold.
  pose proof (agent_file_knowledge agent file up w) as Hfile.
  pose proof (agent_file_loads agent file up w) as Hloads.
  destruct (agent_file agent file up w) as [w1 [up1|c d|e]]; cbn [fst] in *;
    [|exact Hfile|exact Hfile].
  eapply knowledge_kept_trans; [exact Hfile|].
  destruct Hloads as (<- & _). apply IH.
Qed.

(** What the setup of an agent run leaves of the knowledge bases. *)
Lemma agent_run_setup_knowledge w agent_id monitor requested files agent :
  get_agent_by_id w agent_id (agents reg) = Some agent →
  knowledge_kept (agent_objs w !! agent ≫= Agent.knowledge) w
    (agent_run_setup reg agent_id monitor requested files w).1.
Proof.
  intros Hagent. unfold agent_run_setup. run_handler. rewrite Hagent. run_handler.
  destruct (continuing_or_new_run w requested)
    as (w' & -> & Hc & Ha & Ht & Hf & Hs & Hk & Hu).
  destruct monitor; run_handler;
  match goal with
  | |- context [agent_files agent ?fs ?up0 ?w0] =>
      pose proof (agent_files_knowledge agent fs up0 w0) as (loads & Hcalls & Hl & Hn);
      destruct (agent_files agent fs up0 w0) as [w2 [up|c d|e]]
  end;
    cbn [fst snd agent_objs set_agent_objs knowledge_objs calls mret M_ret] in *;
    rewrite knowledge_after_monitoring, Ha in Hl;
    (exists loads; split; [by rewrite Hcalls, Hc|]; split; [exact Hl|];
     intros Hnil; by rewrite (Hn Hnil), Hk).
Qed.

Lemma team_run_setup_knowledge w team_id monitor requested files :
  knowledge_objs (team_run_setup reg team_id monitor requested files w).1
  = knowledge_objs w.
Proof.
  unfold team_run_setup. run_handler.
  destruct (get_team_by_id w team_id (teams reg)) as [team|]; [|done].
  run_handler.
  destruct (continuing_or_new_run w requested)
    as (w' & -> & Hc & Ha & Ht & Hf & Hs & Hk & Hu).
  destruct monitor; run_handler;
  match goal with
  | |- context [team_files ?fs ?up0 ?w0] =>
      pose proof (team_files_loads fs up0 w0) as Hfiles;
      destruct (team_files fs up0 w0) as [w2 [up|c d|e]]
  end; cbn [fst snd] in *; by subst w2.
Qed.

Lemma create_team_run_knowledge w team_id message stream monitor requested user_id
    files :
  knowledge_objs
    (create_team_run reg team_id message stream monitor requested user_id files w).1
  = knowledge_objs w.
Proof.
  pose proof (create_team_run_dispatch reg w team_id message stream monitor
                requested user_id files) as Hrun.
  pose proof (team_run_setup_knowledge w team_id monitor requested files) as Hsetup.
  cbn zeta in Hrun.
  destruct (team_run_setup reg team_id monitor requested files w)
    as [w1 [[[team sid] up]|c d|e]]; cbn [fst snd] in *.
  - destruct Hrun as [-> _]. exact Hsetup.
  - by rewrite Hrun.
  - by rewrite Hrun.
Qed.

(** After the setup, a run request logs the run and writes nothing. *)
Lemma create_agent_run_ends w agent_id message stream monitor requested user_id files
    agent :
  get_agent_by_id w agent_id (agents reg) = Some agent →
  let w1 := (agent_run_setup reg agent_id monitor requested files w).1 in
  let r := create_agent_run reg agent_id message stream monitor requested user_id
             files w in
  r.1 = w1 ∨ ∃ args, r.1 = logged (agent_arun agent args) w1.
Proof.
  intros Hagent w1 r. subst w1 r.
  pose proof (agent_run_setup_spec reg w agent_id monitor requested files) as Hsetup.
  pose proof (create_agent_run_dispatch reg w agent_id message stream monitor
                requested user_id files) as Hrun.
  cbn zeta in *. rewrite Hagent in Hsetup.
  destruct Hsetup as (_ & _ & _ & _ & _ & _ & Hp).
  destruct (agent_run_setup reg agent_id monitor requested files w)
    as [w1 [[[agent' sid] up]|c d|e]]; cbn [fst snd] in *.
  - destruct (Hp _ eq_refl) as [up' [= -> _ _]].
    destruct Hrun as [-> _]. right. eauto.
  - left. by rewrite Hrun.
  - left. by rewrite Hrun.
Qed.

Lemma create_team_run_ends w team_id message stream monitor requested user_id files
    team :
  get_team_by_id w team_id (teams reg) = Some team →
  let w1 := (team_run_setup reg team_id monitor requested files w).1 in
  let r := create_team_run reg team_id message stream monitor requested user_id
             files w in
  r.1 = w1 ∨ ∃ args, r.1 = logged (team_arun team args) w1.
Proof.
  intros Hteam w1 r. subst w1 r.
  pose proof (team_run_setup_spec reg w team_id monitor requested files) as Hsetup.
  pose proof (create_team_run_dispatch reg w team_id message stream monitor
                requested user_id files) as Hrun.
  cbn zeta in *. rewrite Hteam in Hsetup.
  destruct Hsetup as (_ & _ & _ & _ & _ & _ & Hp).
  destruct (team_run_setup reg team_id monitor requested files w)
    as [w1 [[[team' sid] up]|c d|e]]; cbn [fst snd] in *.
  - destruct (Hp _ eq_refl) as [up' [= -> _ _]].
    destruct Hrun as [-> _]. right. eauto.
  - left. by rewrite Hrun.
  - left. by rewrite Hrun.
Qed.

End Knowledge.

Lemma agent_monitoring_written monitor (a : Agent.t) :
  agent_but_monitoring a (Agent.set_monitoring monitor a)
  ∧ Agent.monitoring (Agent.set_monitoring monitor a) = monitor.
Proof. by destruct a. Qed.

Lemma team_monitoring_written monitor (a : Team.t) :
  team_but_monitoring a (Team.set_monitoring monitor a)
  ∧ Team.monitoring (Team.set_monitoring monitor a) = monitor.
Proof. by destruct a. Qed.

(** C7, as amended.  This is about the statements of the router, up to the
    call of the entity; what the run, or [rename_session], does to the
    entity it is called on is the entity's own and is not covered.  Before
    it starts the run, a run request for an agent or a team writes one
    field of the registered handle: [monitoring] becomes the [monitor] flag
    of the request.  In the state in which the run is started, or the
    request rejected, every other field of that handle, every other agent
    and team and every workflow is as it was.  A team run leaves the
    knowledge bases as they were; before an agent run the only calls are
    those of [load_documents] of the knowledge base of the agent, for the
    uploaded documents, and the knowledge bases are as they were when there
    is no such call.  After that the handler logs the run and writes
    nothing, and a request for an unknown entity changes nothing.
    [rename_workflow_session] writes the session identifier of the request
    into the registered workflow before it calls [rename_session], and
    leaves the agents and teams alone. *)
Theorem router_writes_monitoring_before_the_run `{Collaborators} (reg : Registry)
    (w : World) :
  (∀ agent_id message stream monitor requested user_id files,
     let w1 := (agent_run_setup reg agent_id monitor requested files w).1 in
     let r := create_agent_run reg agent_id message stream monitor requested user_id
                files w in
     match get_agent_by_id w agent_id (agents reg) with
     | Some agent =>
         (r.1 = w1 ∨ ∃ args, r.1 = logged (agent_arun agent args) w1)
         ∧ team_objs w1 = team_objs w
         ∧ workflow_objs w1 = workflow_objs w
         ∧ knowledge_kept (agent_objs w !! agent ≫= Agent.knowledge) w w1
         ∧ ∀ l a, agent_objs w !! l = Some a →
             ∃ a', agent_objs w1 !! l = Some a'
                   ∧ agent_but_monitoring a a'
                   ∧ (l = agent → Agent.monitoring a' = monitor)
                   ∧ (l ≠ agent → a' = a)
     | None => r.1 = w
     end)
  ∧ (∀ team_id message stream monitor requested user_id files,
       let w1 := (team_run_setup reg team_id monitor requested files w).1 in
       let r := create_team_run reg team_id message stream monitor requested user_id
                  files w in
       match get_team_by_id w team_id (teams reg) with
       | Some team =>
           (r.1 = w1 ∨ ∃ args, r.1 = logged (team_arun team args) w1)
           ∧ agent_objs w1 = agent_objs w
           ∧ workflow_objs w1 = workflow_objs w
           ∧ knowledge_objs w1 = knowledge_objs w
           ∧ ∀ l a, team_objs w !! l = Some a →
               ∃ a', team_objs w1 !! l = Some a'
                     ∧ team_but_monitoring a a'
                     ∧ (l = team → Team.monitoring a' = monitor)
                     ∧ (l ≠ team → a' = a)
       | None => r.1 = w
       end)
  ∧ (∀ workflow_id sid body workflow,
       get_workflow_by_id w workflow_id (workflows reg) = Some workflow →
       let r := rename_workflow_session reg workflow_id sid body w in
       workflow_objs r.1
       = alter (AnyWorkflow.set_session_id (Some sid)) workflow (workflow_objs w)
       ∧ agent_objs r.1 = agent_objs w
       ∧ team_objs r.1 = team_objs w
       ∧ new_calls w r.1 = [workflow_rename_session workflow (rename_name body)]).
Proof.
  split; [|split].
  - intros agent_id message stream monitor requested user_id files w1 r.
    pose proof (agent_run_setup_spec reg w agent_id monitor requested files) as Hsetup.
    pose proof (create_agent_run_handles reg w agent_id message stream monitor
                  requested user_id files) as Hrun.
    cbn zeta in Hsetup, Hrun. fold w1 in Hsetup. fold r in Hrun.
    destruct (get_agent_by_id w agent_id (agents reg)) as [agent|] eqn:Hagent;
      [|exact Hrun].
    destruct Hsetup as (Ha & Ht & Hf & _).
    split; [by apply create_agent_run_ends|].
    split; [exact Ht|]. split; [exact Hf|].
    split; [by apply agent_run_setup_knowledge|].
    intros l a Hl. rewrite Ha, lookup_alter. case_decide as Heq.
    + subst l. rewrite Hl. eexists. split; [reflexivity|].
      destruct (agent_monitoring_written monitor a) as [Hsame Hm].
      split; [exact Hsame|]. split; [done|]. intros Hne. by destruct Hne.
    + exists a. split; [exact Hl|]. split; [done|]. split; [|done].
      intros ->. by destruct Heq.
  - intros team_id message stream monitor requested user_id files w1 r.
    pose proof (team_run_setup_spec reg w team_id monitor requested files) as Hsetup.
    pose proof (create_team_run_handles reg w team_id message stream monitor
                  requested user_id files) as Hrun.
    cbn zeta in Hsetup, Hrun. fold w1 in Hsetup. fold r in Hrun.
    destruct (get_team_by_id w team_id (teams reg)) as [team|] eqn:Hteam;
      [|exact Hrun].
    destruct Hsetup as (Ht & Ha & Hf & _).
    split; [by apply create_team_run_ends|].
    split; [exact Ha|]. split; [exact Hf|].
    split; [apply team_run_setup_knowledge|].
    intros l a Hl. rewrite Ht, lookup_alter. case_decide as Heq.
    + subst l. rewrite Hl. eexists. split; [reflexivity|].
      destruct (team_monitoring_written monitor a) as [Hsame Hm].
      split; [exact Hsame|]. split; [done|]. intros Hne. by destruct Hne.
    + exists a. split; [exact Hl|]. split; [done|]. split; [|done].
      intros ->. by destruct Heq.
  - intros workflow_id sid body workflow Hw r.
    exact (rename_workflow_session_handles reg w workflow_id sid body workflow Hw).
Qed.

(** The agent and the team of the playground are registered with
    monitoring on; a run request without the flag turns it off and leaves
    the rest, and renaming a session of the workflow ["blog"] writes the
    session into the registered workflow. *)
Lemma router_writes_monitoring_before_the_run_witness :
  let r := (agent_run_setup (H := Demo.collaborators) Demo.registry "writer-agent"
              false None None Demo.world).1 in
  let t := (team_run_setup (H := Demo.collaborators) Demo.registry "writers"
              false None None Demo.world).1 in
  let n := rename_workflow_session (H := Demo.collaborators) Demo.registry "blog"
             "S9" (mkRenameRequest "Drafts" None) Demo.world in
  (∃ a', agent_objs r !! 0 = Some a'
         ∧ Agent.monitoring a' = false
         ∧ Agent.agent_id a' = Some "writer-agent"
         ∧ Agent.storage a' = Some 0)
  ∧ (∃ a', team_objs t !! 0 = Some a'
           ∧ Team.monitoring a' = false
           ∧ Team.team_id a' = Some "writers")
  ∧ workflow_objs n.1
    = alter (AnyWorkflow.set_session_id (Some "S9")) 0 (workflow_objs Demo.world).
Proof.
  destruct (router_writes_monitoring_before_the_run (H := Demo.collaborators)
              Demo.registry Demo.world) as (Hagent & Hteam & Hrename).
  specialize (Hagent "writer-agent" "hi" true false None None None).
  specialize (Hteam "writers" "hi" true false None None None).
  cbn zeta in Hagent, Hteam.
  change (get_agent_by_id Demo.world "writer-agent" (agents Demo.registry))
    with (Some 0) in Hagent.
  change (get_team_by_id Demo.world "writers" (teams Demo.registry))
    with (Some 0) in Hteam.
  cbv beta iota in Hagent, Hteam.
  destruct Hagent as (_ & _ & _ & _ & Hl).
  destruct Hteam as (_ & _ & _ & _ & Hl').
  destruct (Hl 0 (Agent.mk (Some "writer-agent") (Some "Writer") true None (Some 0))
              eq_refl) as (a' & Ha' & (Hid & _ & _ & Hst) & Hm & _).
  destruct (Hl' 0 (Team.mk (Some "writers") (Some "Writers") true (Some 0))
              eq_refl) as (t' & Ht' & (Hid' & _ & _) & Hm' & _).
  split; [|split].
  - exists a'. split; [exact Ha'|]. split; [exact (Hm eq_refl)|].
    split; [exact Hid|exact Hst].
  - exists t'. split; [exact Ht'|]. split; [exact (Hm' eq_refl)|exact Hid'].
  - exact (proj1 (Hrename "blog" "S9" (mkRenameRequest "Drafts" None) 0 eq_refl)).
Defined.

(** C7 fails as stated: the run request without the monitor flag changes
    the registered agent, and renaming a workflow session changes the
    registered workflow. *)
Lemma requests_change_registered_handles :
  let r := create_agent_run (H := Demo.collaborators) Demo.registry "writer-agent"
             "hi" true false None None None Demo.world in
  let r' := rename_workflow_session (H := Demo.collaborators) Demo.registry "blog"
              "S9" (mkRenameRequest "Drafts" None) Demo.world in
  (Agent.monitoring <$> agent_objs Demo.world !! 0) = Some true
  ∧ (Agent.monitoring <$> agent_objs r.1 !! 0) = Some false
  ∧ (workflow_objs Demo.world !! 0 ≫= AnyWorkflow.session_id) = Some "old"
  ∧ (workflow_objs r'.1 !! 0 ≫= AnyWorkflow.session_id) = Some "S9"
  ∧ ¬ handles_unchanged Demo.world r.1
  ∧ ¬ handles_unchanged Demo.world r'.1.
Proof.
  split; [by vm_compute|]. split; [by vm_compute|].
  split; [by vm_compute|]. split; [by vm_compute|].
  split.
  - intros (Ha & _ & _).
    apply (f_equal (λ m, Agent.monitoring <$> m !! 0)) in Ha.
    vm_compute in Ha. discriminate Ha.
  - intros (_ & _ & Hf).
    specialize (Hf 0 _ eq_refl). vm_compute in Hf. discriminate Hf.
Qed.

(** ** Renaming a session (C8) *)

Section Rename.
Context `{Collaborators}.
Variable reg : Registry.

(** The agent endpoint looks the session up among the sessions of the user
    and renames only what it finds. *)
Lemma rename_agent_session_checks w agent_id sid body agent st all_agent_sessions :
  get_agent_by_id w agent_id (agents reg) = Some agent →
  agent_objs w !! agent ≫= Agent.storage = Some st →
  Storage.get_all_sessions (rename_user_id body) None (storage_at w st)
  = inr all_agent_sessions →
  let r := rename_agent_session reg agent_id sid body w in
  match find_session sid all_agent_sessions with
  | None => r = (w, Ok (JSONResponse 404 (Py.Str "Session not found.")))
  | Some session =>
      new_calls w r.1 = [agent_rename_session agent (rename_name body) sid]
      ∧ (Agent_rename_session
           (logged (agent_rename_session agent (rename_name body) sid) w)
           agent (rename_name body) sid = None →
         r.2 = Ok (JSONResponse 200
                     (Py.Dict [("message",
                        Py.Str ("successfully renamed session "
                                +:+ Session.session_id session))])))
  end.
Proof.
  intros Ha Hst Hall r. subst r. unfold rename_agent_session. run_handler.
  rewrite Ha, Hst, Hall. run_handler.
  destruct (find_session sid all_agent_sessions) as [session|]; [|reflexivity].
  run_handler.
  destruct (Agent_rename_session _ _ _ _) as [e|] eqn:Hrename; run_handler.
  - split; [|intros Hnone; congruence].
    unfold new_calls. cbn. by rewrite (drop_app_length (calls w)).
  - split; [|reflexivity].
    unfold new_calls. cbn. by rewrite (drop_app_length (calls w)).
Qed.

(** The team endpoint does the same among the sessions of the user and the
    team. *)
Lemma rename_team_session_checks w team_id sid body team st all_team_sessions :
  get_team_by_id w team_id (teams reg) = Some team →
  team_objs w !! team ≫= Team.storage = Some st →
  Storage.get_all_sessions (rename_user_id body) (Some team_id) (storage_at w st)
  = inr all_team_sessions →
  let r := rename_team_session reg team_id sid body w in
  match find_session sid all_team_sessions with
  | None => r = (w, HTTPException 404 "Session not found")
  | Some session =>
      new_calls w r.1 = [team_rename_session team (rename_name body) sid]
      ∧ (Team_rename_session
           (logged (team_rename_session team (rename_name body) sid) w)
           team (rename_name body) sid = None →
         r.2 = Ok (JSONResponse 200
                     (Py.Dict [("message",
                        Py.Str ("successfully renamed team session "
                                +:+ rename_name body))])))
  end.
Proof.
  intros Ha Hst Hall r. subst r. unfold rename_team_session. run_handler.
  rewrite Ha, Hst, Hall. run_handler.
  destruct (find_session sid all_team_sessions) as [session|]; [|reflexivity].
  run_handler.
  destruct (Team_rename_session _ _ _ _) as [e|] eqn:Hrename; run_handler.
  - split; [|intros Hnone; congruence].
    unfold new_calls. cbn. by rewrite (drop_app_length (calls w)).
  - split; [|reflexivity].
    unfold new_calls. cbn. by rewrite (drop_app_length (calls w)).
Qed.

(** The workflow endpoint looks nothing up: for a registered workflow it
    always invokes [rename_session], and unless that raises it answers that
    the workflow was renamed, whatever the storage holds. *)
Lemma rename_workflow_session_unchecked w workflow_id sid body workflow :
  get_workflow_by_id w workflow_id (workflows reg) = Some workflow →
  let r := rename_workflow_session reg workflow_id sid body w in
  new_calls w r.1 = [workflow_rename_session workflow (rename_name body)]
  ∧ ((∃ e, r.2 = Uncaught e)
     ∨ r.2 = Ok (JSONResponse 200
                   (Py.Dict [("message",
                      Py.Str ("successfully renamed workflow "
                              +:+ Py.format_opt
                                    (workflow_objs w !! workflow ≫= AnyWorkflow.name)))]))).
Proof.
  intros Hw r.
  destruct (rename_workflow_session_handles reg w workflow_id sid body workflow Hw)
    as (_ & _ & _ & Hcalls).
  split; [exact Hcalls|]. subst r.
  unfold rename_workflow_session. run_handler. rewrite Hw. run_handler.
  destruct (Workflow_rename_session _ _ _) as [e|]; run_handler; [left; eauto|].
  right.
  assert (∀ {A} (f : AnyWorkflow → option A),
            (∀ o, f (AnyWorkflow.set_session_id (Some sid) o) = f o) →
            alter (AnyWorkflow.set_session_id (Some sid)) workflow (workflow_objs w)
              !! workflow ≫= f
            = workflow_objs w !! workflow ≫= f) as Hfield.
  { intros A f Hf. rewrite lookup_alter_eq.
    destruct (workflow_objs w !! workflow) as [o|]; cbn; [apply Hf|done]. }
  cbn [workflow_objs set_workflow_objs].
  rewrite (Hfield _ AnyWorkflow.storage) by (by intros [?|?]).
  rewrite (Hfield _ AnyWorkflow.name) by (by intros [?|?]).
  destruct (workflow_objs w !! workflow ≫= AnyWorkflow.storage); reflexivity.
Qed.

End Rename.

(** C8 holds for agents and teams and is violated by the workflow endpoint.
    No session ["missing"] is stored in the playground.  Renaming it for the
    agent answers 404 and for the team raises 404, both without a call of
    the entity and without a change of the world; renaming it for the
    workflow ["blog"] invokes [rename_session] of the workflow and answers
    that the workflow was renamed. *)
Theorem renaming_a_missing_workflow_session_succeeds :
  let body := mkRenameRequest "Drafts" None in
  let a := rename_agent_session (H := Demo.collaborators) Demo.registry
             "writer-agent" "missing" body Demo.world in
  let t := rename_team_session (H := Demo.collaborators) Demo.registry
             "writers" "missing" body Demo.world in
  let r := rename_workflow_session (H := Demo.collaborators) Demo.registry
             "blog" "missing" body Demo.world in
  Storage.read "missing" None (storage_at Demo.world 0) = inr None
  ∧ a = (Demo.world, Ok (JSONResponse 404 (Py.Str "Session not found.")))
  ∧ t = (Demo.world, HTTPException 404 "Session not found")
  ∧ r.2 = Ok (JSONResponse 200
                (Py.Dict [("message", Py.Str "successfully renamed workflow Blog")]))
  ∧ new_calls Demo.world r.1 = [workflow_rename_session 0 "Drafts"]
  ∧ (workflow_objs r.1 !! 0 ≫= AnyWorkflow.session_id) = Some "missing".
Proof. repeat split; by vm_compute. Qed.

(** ** The session view of a session without runs (C9) *)

(** C9.  When the stored session has a memory whose ["runs"] is the empty
    list, [get_agent_session] and [get_team_session] both index [runs[0]]
    and the [IndexError] leaves the handler. *)
Theorem session_view_of_empty_runs_raises (reg : Registry) (w : World) :
  (∀ agent_id sid user_id agent st agent_session memory,
     get_agent_by_id w agent_id (agents reg) = Some agent →
     agent_objs w !! agent ≫= Agent.storage = Some st →
     Storage.read sid user_id (storage_at w st) = inr (Some agent_session) →
     Session.memory agent_session = Some memory →
     Py.lookup "runs" memory = Some (Py.List []) →
     get_agent_session reg agent_id sid user_id w = (w, Uncaught Py.IndexError))
  ∧ (∀ team_id sid user_id team st team_session memory,
       get_team_by_id w team_id (teams reg) = Some team →
       team_objs w !! team ≫= Team.storage = Some st →
       Storage.read sid user_id (storage_at w st) = inr (Some team_session) →
       Session.memory team_session = Some memory →
       Py.lookup "runs" memory = Some (Py.List []) →
       get_team_session reg team_id sid user_id w = (w, Uncaught Py.IndexError)).
Proof.
  split.
  - intros agent_id sid user_id agent st agent_session memory Ha Hst Hread Hmem Hruns.
    unfold get_agent_session. run_handler. rewrite Ha, Hst, Hread. run_handler.
    rewrite Hmem. unfold runs_view, Py.get. rewrite Hruns. reflexivity.
  - intros team_id sid user_id team st team_session memory Ht Hst Hread Hmem Hruns.
    unfold get_team_session. run_handler. rewrite Ht, Hst, Hread. run_handler.
    rewrite Hmem. unfold runs_view, Py.get. rewrite Hruns. reflexivity.
Qed.

(** The session ["E"] of the playground has no runs. *)
Lemma session_view_of_empty_runs_raises_witness :
  get_agent_session Demo.registry "writer-agent" "E" None Demo.world
  = (Demo.world, Uncaught Py.IndexError)
  ∧ get_team_session Demo.registry "writers" "E" (Some "ann") Demo.world
    = (Demo.world, Uncaught Py.IndexError).
Proof.
  destruct (session_view_of_empty_runs_raises Demo.registry Demo.world)
    as [Hagent Hteam].
  split.
  - apply (Hagent "writer-agent" "E" None 0 0
             (Session.mk "E" (Some "ann") (Some "writer-agent")
                (Some [("runs", Py.List [])]) None 1)
             [("runs", Py.List [])]); reflexivity.
  - apply (Hteam "writers" "E" (Some "ann") 0 0
             (Session.mk "E" (Some "ann") (Some "writer-agent")
                (Some [("runs", Py.List [])]) None 1)
             [("runs", Py.List [])]); reflexivity.
Defined.

(** ** The run of a first-generation workflow (C10) *)

(** C10.  A run request for a first-generation workflow allocates a new
    object, the copy, whose fields are those of the registered workflow
    except for the identifier of the workflow, the session and the user,
    which come from the request, and the session name, which is cleared;
    [run] is invoked on that copy and on nothing else, and every workflow
    object that existed, the registered one among them, as well as every
    agent and team, is afterwards what it was. *)
Theorem first_generation_run_uses_a_copy `{Collaborators} (reg : Registry) (w : World)
    (workflow_id : string) (body : WorkflowRunRequest) (workflow : loc)
    (registered : Workflow.t) :
  get_workflow_by_id w workflow_id (workflows reg) = Some workflow →
  workflow_objs w !! workflow = Some (V1 registered) →
  let r := create_workflow_run reg workflow_id body w in
  let new_workflow_instance := fresh (dom (workflow_objs w)) in
  workflow_objs w !! new_workflow_instance = None
  ∧ new_calls w r.1 = [workflow_run new_workflow_instance (input body)]
  ∧ (∃ copy,
       workflow_objs r.1 !! new_workflow_instance = Some (V1 copy)
       ∧ Workflow.workflow_id copy = Some workflow_id
       ∧ Workflow.session_id copy = session_id body
       ∧ Workflow.user_id copy = user_id body
       ∧ Workflow.session_name copy = None
       ∧ Workflow.name copy = Workflow.name registered
       ∧ Workflow._run_return_type copy = Workflow._run_return_type registered
       ∧ Workflow.storage copy = Workflow.storage registered)
  ∧ (∀ l o, workflow_objs w !! l = Some o → workflow_objs r.1 !! l = Some o)
  ∧ workflow_objs r.1 !! workflow = Some (V1 registered)
  ∧ agent_objs r.1 = agent_objs w
  ∧ team_objs r.1 = team_objs w.
Proof.
  intros Hw Ho r new_workflow_instance.
  destruct (create_workflow_run_v1 reg w workflow_id body workflow registered Hw Ho)
    as [Hworld _].
  fold r new_workflow_instance in Hworld.
  assert (workflow_objs w !! new_workflow_instance = None) as Hnew.
  { apply not_elem_of_dom, is_fresh. }
  assert (∀ l o, workflow_objs w !! l = Some o → workflow_objs r.1 !! l = Some o)
    as Hframe.
  { intros l o Hl. rewrite Hworld. cbn. rewrite lookup_insert_ne; [done|].
    intros <-. congruence. }
  split; [exact Hnew|]. split.
  { rewrite Hworld. by apply new_calls_app. }
  split.
  { exists (run_copy registered workflow_id body). rewrite Hworld. cbn.
    by rewrite lookup_insert_eq. }
  split; [exact Hframe|]. split; [by apply Hframe|].
  rewrite Hworld. done.
Qed.

(** The workflow ["blog"] of the playground is registered in the session
    ["old"] of user ["bob"] with the session name ["kept"]; after a run
    request of user ["u"] it still is, and the run went to the copy at the
    new reference 3. *)
Lemma first_generation_run_uses_a_copy_witness :
  let r := create_workflow_run (H := Demo.collaborators) Demo.registry "blog"
             (mkWorkflowRunRequest [("message", Py.Str "hi")] (Some "u") None true)
             Demo.world in
  workflow_objs r.1 !! 0
  = Some (V1 (Workflow.mk (Some "blog") (Some "Blog") (Some "old") (Some "bob")
                (Some "kept") (Some "RunResponse") (Some 0)))
  ∧ new_calls Demo.world r.1
    = [workflow_run (fresh (dom (workflow_objs Demo.world))) [("message", Py.Str "hi")]].
Proof.
  destruct (first_generation_run_uses_a_copy (H := Demo.collaborators) Demo.registry
              Demo.world "blog"
              (mkWorkflowRunRequest [("message", Py.Str "hi")] (Some "u") None true)
              0 (Workflow.mk (Some "blog") (Some "Blog") (Some "old") (Some "bob")
                   (Some "kept") (Some "RunResponse") (Some 0))
              eq_refl eq_refl) as (_ & Hcalls & _ & _ & Hregistered & _).
  split; [exact Hregistered|exact Hcalls].
Defined.

(** * Further properties of the router *)

(** ** Keywords repeated in the input of a workflow run *)

Lemma keyword_clash_found input keywords e :
  keyword_clash input keywords = Some e →
  ∃ k, k ∈ keywords ∧ Py.contains k input = true
       ∧ e = Py.TypeError ("got multiple values for keyword argument '" +:+ k +:+ "'").
Proof.
  unfold keyword_clash.
  destruct (List.find _ _) as [k|] eqn:Hfind; [|done].
  intros [= <-]. apply find_some in Hfind as [Hin Hk].
  exists k. split; [by apply list_elem_of_In|done].
Qed.

Lemma keyword_clash_present input keywords k :
  k ∈ keywords → Py.contains k input = true → is_Some (keyword_clash input keywords).
Proof.
  intros Hin Hk. unfold keyword_clash.
  destruct (List.find _ _) as [k'|] eqn:Hfind; [done|].
  apply list_elem_of_In in Hin.
  pose proof (find_none _ _ Hfind k Hin) as Hno. cbn in Hno. congruence.
Qed.

(** X1.  A run request for a second-generation workflow whose [input]
    repeats a keyword of the call never reaches the workflow: the call that
    unpacks the input next to its keywords raises [TypeError].  A streamed
    run passes [user_id], [session_id], [stream] and
    [stream_intermediate_steps], and when the input has one of these keys
    the reply is a stream of exactly one error event, which carries the
    message of the error.  A buffered run passes [session_id] and [user_id]
    only: when the input has one of them the request is answered with status
    500 and the message of the error, and when it has neither the workflow
    is invoked with the input as it came, a key [stream] included. *)
Theorem repeated_keyword_stops_the_workflow_run `{Collaborators} (reg : Registry)
    (w : World) (workflow_id : string) (body : WorkflowRunRequest) (workflow : loc)
    (wf : WorkflowV2.t) :
  get_workflow_by_id w workflow_id (workflows reg) = Some workflow →
  workflow_objs w !! workflow = Some (V2 wf) →
  let r := create_workflow_run reg workflow_id body w in
  (stream body = true →
   ∀ k, k ∈ ["user_id"; "session_id"; "stream"; "stream_intermediate_steps"] →
     Py.contains k (input body) = true →
     new_calls w r.1 = []
     ∧ ∃ e, Py.exn_class e = "TypeError"
            ∧ r.2 = Ok (StreamingResponse
                          (Yield (to_json (WorkflowErrorEvent (Py.str e))) Return)))
  ∧ (stream body = false →
     ∀ k, k ∈ ["session_id"; "user_id"] → Py.contains k (input body) = true →
       new_calls w r.1 = []
       ∧ ∃ e, Py.exn_class e = "TypeError"
              ∧ r.2 = HTTPException 500 ("Error running workflow: " +:+ Py.str e))
  ∧ (stream body = false →
     Py.contains "session_id" (input body) = false →
     Py.contains "user_id" (input body) = false →
     new_calls w r.1
     = [workflow_arun workflow
          (WorkflowArgs.mk (input body) (user_id body)
             (Some (chosen_session w (session_id body))) None None)]).
Proof.
  intros Hw Ho r. subst r.
  unfold create_workflow_run. run_handler. rewrite Hw, Ho.
  split; [|split].
  - intros -> k Hk Hin.
    unfold workflow_response_streamer. run_handler.
    destruct (session_id_or_uuid4_run w (session_id body)) as (w' & -> & Hc & _).
    destruct (keyword_clash_present (input body) _ k Hk Hin) as [e He].
    rewrite He. run_handler.
    apply keyword_clash_found in He as (k' & Hk' & Hin' & ->).
    split; [|eexists (Py.TypeError _); split; reflexivity].
    unfold new_calls. cbn [fst]. by rewrite Hc, drop_all.
  - intros -> k Hk Hin. run_handler.
    destruct (session_id_or_uuid4_run w (session_id body)) as (w' & -> & Hc & _).
    destruct (keyword_clash_present (input body) _ k Hk Hin) as [e He].
    rewrite He. run_handler.
    apply keyword_clash_found in He as (k' & Hk' & Hin' & ->).
    split; [|eexists (Py.TypeError _); split; reflexivity].
    unfold new_calls. cbn [fst]. by rewrite Hc, drop_all.
  - intros -> Hs Hu. run_handler.
    destruct (session_id_or_uuid4_run w (session_id body)) as (w' & -> & Hc & _).
    assert (keyword_clash (input body) ["session_id"; "user_id"] = None) as ->.
    { unfold keyword_clash. cbn [List.find]. by rewrite Hs, Hu. }
    run_handler.
    match goal with |- context [Workflow_arun ?w0 ?l ?a] =>
      destruct (Workflow_arun w0 l a) end;
      unfold new_calls; cbn [fst snd calls raise_http mret M_ret];
      by rewrite Hc, (drop_app_length (calls w)).
Qed.

(** The workflow ["pipeline"] of the playground, asked with an input that
    names [stream] and with one that names [user_id]. *)
Lemma repeated_keyword_stops_the_workflow_run_witness :
  let asked input stream :=
    create_workflow_run (H := Demo.collaborators) Demo.registry "pipeline"
      (mkWorkflowRunRequest input (Some "ann") None stream) Demo.world in
  new_calls Demo.world
    (asked [("message", Py.Str "hi"); ("stream", Py.Bool false)] true).1 = []
  ∧ new_calls Demo.world
      (asked [("message", Py.Str "hi"); ("user_id", Py.Str "bob")] false).1 = []
  ∧ new_calls Demo.world
      (asked [("message", Py.Str "hi"); ("stream", Py.Bool false)] false).1
    = [workflow_arun 1
         (WorkflowArgs.mk [("message", Py.Str "hi"); ("stream", Py.Bool false)]
            (Some "ann") (Some "uuid4-0") None None)].
Proof.
  intros asked. split; [|split].
  - destruct (repeated_keyword_stops_the_workflow_run (H := Demo.collaborators)
                Demo.registry Demo.world "pipeline"
                (mkWorkflowRunRequest [("message", Py.Str "hi"); ("stream", Py.Bool false)]
                   (Some "ann") None true)
                1 (WorkflowV2.mk (Some "pipeline") (Some "Pipeline") None (Some 0))
                eq_refl eq_refl) as (Hstreamed & _ & _).
    apply (Hstreamed eq_refl "stream"); [repeat constructor|reflexivity].
  - destruct (repeated_keyword_stops_the_workflow_run (H := Demo.collaborators)
                Demo.registry Demo.world "pipeline"
                (mkWorkflowRunRequest [("message", Py.Str "hi"); ("user_id", Py.Str "bob")]
                   (Some "ann") None false)
                1 (WorkflowV2.mk (Some "pipeline") (Some "Pipeline") None (Some 0))
                eq_refl eq_refl) as (_ & Hbuffered & _).
    apply (Hbuffered eq_refl "user_id"); [repeat constructor|reflexivity].
  - destruct (repeated_keyword_stops_the_workflow_run (H := Demo.collaborators)
                Demo.registry Demo.world "pipeline"
                (mkWorkflowRunRequest [("message", Py.Str "hi"); ("stream", Py.Bool false)]
                   (Some "ann") None false)
                1 (WorkflowV2.mk (Some "pipeline") (Some "Pipeline") None (Some 0))
                eq_refl eq_refl) as (_ & _ & Hpassed).
    exact (Hpassed eq_refl eq_refl eq_refl).
Defined.

(** ** Resume requests that are rejected *)

(** X2.  The three rejections of a resume request come in a fixed order and
    before anything is done.  A [tools] field that is not JSON is answered
    with 400 even when the agent is unknown; an unknown agent is answered
    with 404 even when the entries of the field would not convert; an entry
    that does not convert is answered with 400 and the message of the
    exception.  Whenever the request ends in an error reply of the router,
    the world is what it was: the agent was not invoked. *)
Theorem rejected_resume_changes_nothing `{Collaborators} (reg : Registry) (w : World)
    (agent_id run_id : string) (tools : ToolsField) (session_id user_id : option string)
    (stream : bool) :
  let r := continue_agent_run reg agent_id run_id tools session_id user_id stream w in
  (tools = tools_invalid → r = (w, HTTPException 400 "Invalid JSON in tools field"))
  ∧ (tools ≠ tools_invalid → get_agent_by_id w agent_id (agents reg) = None →
     r = (w, HTTPException 404 "Agent not found"))
  ∧ (∀ agent e,
       tools ≠ tools_invalid → get_agent_by_id w agent_id (agents reg) = Some agent →
       updated_tools_of (tools_data_of tools) = inl e →
       r = (w, HTTPException 400
                 ("Invalid structure or content for tools: " +:+ Py.str e)))
  ∧ (∀ status_code detail, r.2 = HTTPException status_code detail → r.1 = w).
Proof.
  intros r. subst r. split; [by intros ->|].
  split.
  { intros Hv Hnone. destruct tools; [|done|];
      unfold continue_agent_run; run_handler; by rewrite Hnone. }
  split.
  { intros agent e Hv Ha He. destruct tools; [|done|];
      unfold continue_agent_run; run_handler; rewrite Ha; run_handler;
      rewrite He; by run_handler. }
  intros status_code detail.
  destruct tools as [| |v]; [|done|].
  all: unfold continue_agent_run; run_handler.
  all: destruct (get_agent_by_id _ _ _) as [agent|]; [|done].
  all: run_handler.
  all: destruct (updated_tools_of _) as [e|ts]; [by run_handler|].
  all: run_handler.
  all: destruct stream; run_handler; [done|].
  all: match goal with |- context [Agent_acontinue_run ?w0 ?l ?a] =>
         destruct (Agent_acontinue_run w0 l a) as [e|[rr|g]] end; by run_handler.
Qed.

Lemma rejected_resume_changes_nothing_witness :
  continue_agent_run (H := Demo.collaborators) Demo.registry "nobody" "run-1"
    tools_invalid (Some "P") None true Demo.world
  = (Demo.world, HTTPException 400 "Invalid JSON in tools field")
  ∧ continue_agent_run (H := Demo.collaborators) Demo.registry "nobody" "run-1"
      (tools_json (Py.List [Py.Str "t1"])) (Some "P") None true Demo.world
    = (Demo.world, HTTPException 404 "Agent not found")
  ∧ continue_agent_run (H := Demo.collaborators) Demo.registry "writer-agent" "run-1"
      (tools_json (Py.List [Py.Str "t1"])) (Some "P") None true Demo.world
    = (Demo.world,
       HTTPException 400
         "Invalid structure or content for tools: object has no attribute 'get'").
Proof.
  split; [|split].
  - destruct (rejected_resume_changes_nothing (H := Demo.collaborators) Demo.registry
                Demo.world "nobody" "run-1" tools_invalid (Some "P") None true)
      as (Hjson & _).
    exact (Hjson eq_refl).
  - destruct (rejected_resume_changes_nothing (H := Demo.collaborators) Demo.registry
                Demo.world "nobody" "run-1" (tools_json (Py.List [Py.Str "t1"]))
                (Some "P") None true) as (_ & Hagent & _).
    apply Hagent; [discriminate|reflexivity].
  - destruct (rejected_resume_changes_nothing (H := Demo.collaborators) Demo.registry
                Demo.world "writer-agent" "run-1" (tools_json (Py.List [Py.Str "t1"]))
                (Some "P") None true) as (_ & _ & Hentry & _).
    apply (Hentry 0 (Py.AttributeError "object has no attribute 'get'"));
      [discriminate|reflexivity|reflexivity].
Defined.

(** ** The resolutions handed to the agent *)

Lemma tool_executions_inr `{Collaborators} tools_data : ∀ ts,
  tool_executions tools_data = inr ts
  ↔ Forall2 (λ tool t, ToolExecution_from_dict tool = inr t) tools_data ts.
Proof.
  induction tools_data as [|tool rest IH]; intros ts; simpl.
  - split; [intros [= <-]; constructor|by intros ->%Forall2_nil_inv_l].
  - destruct (ToolExecution_from_dict tool) as [e|t] eqn:Ht.
    + split; [done|]. intros (t' & ts' & Ht' & _ & _)%Forall2_cons_inv_l. congruence.
    + destruct (tool_executions rest) as [e|ts'] eqn:Hrest.
      * split; [done|]. intros (t' & ts'' & _ & Hall & _)%Forall2_cons_inv_l.
        apply IH in Hall. congruence.
      * split.
        -- intros [= <-]. constructor; [done|]. by apply IH.
        -- intros (t' & ts'' & Ht' & Hall & ->)%Forall2_cons_inv_l.
           apply IH in Hall. congruence.
Qed.

(** X3.  What [continue_agent_run] makes of a [tools] field that parsed to
    a list.  The empty list stands for no resolutions at all: the agent is
    handed [None], as for an absent field, and not an empty list.  A list
    that is not empty is converted entry by entry: the agent is handed one
    tool execution per entry, in the order of the entries, when every entry
    converts, and nothing otherwise. *)
Theorem resolutions_are_converted_in_order `{Collaborators} (tools_data : list Py.value)
    (updated_tools : option (list ToolExecution)) :
  updated_tools_of (Py.List tools_data) = inr updated_tools
  ↔ (tools_data = [] ∧ updated_tools = None)
    ∨ (tools_data ≠ []
       ∧ ∃ ts, updated_tools = Some ts
               ∧ Forall2 (λ tool t, ToolExecution_from_dict tool = inr t) tools_data ts).
Proof.
  unfold updated_tools_of. destruct tools_data as [|tool rest].
  - cbn. split; [intros [= <-]; by left|].
    intros [[_ ->]|[? _]]; done.
  - cbn [Py.truthy Py.iter mbind Py.exn_bind].
    destruct (tool_executions (tool :: rest)) as [e|ts] eqn:Hts.
    + split; [done|]. intros [[? _]|(_ & ts & _ & Hall)]; [done|].
      apply tool_executions_inr in Hall. congruence.
    + split.
      * intros [= <-]. right. split; [done|]. exists ts. split; [done|].
        by apply tool_executions_inr.
      * intros [[? _]|(_ & ts' & -> & Hall)]; [done|].
        apply tool_executions_inr in Hall. congruence.
Qed.

Lemma resolutions_are_converted_in_order_witness :
  updated_tools_of (H := Demo.collaborators) (Py.List []) = inr None
  ∧ updated_tools_of (H := Demo.collaborators)
      (Py.List [Py.Dict [("tool_call_id", Py.Str "t2"); ("result", Py.Str "no")];
                Py.Dict [("tool_call_id", Py.Str "t1"); ("result", Py.Str "ok")]])
    = inr (Some [mkToolExecution (Some "t2") (Some "no");
                 mkToolExecution (Some "t1") (Some "ok")]).
Proof.
  split.
  - apply (resolutions_are_converted_in_order (H := Demo.collaborators)). by left.
  - apply (resolutions_are_converted_in_order (H := Demo.collaborators)). right.
    split; [done|]. eexists. split; [reflexivity|].
    repeat constructor.
Defined.

(** ** The label of a model *)

Lemma or_else_truthy x y : y ≠ "" → Py.truthy (Py.Str (or_else x y)) = true.
Proof.
  intros Hy. unfold or_else.
  destruct x as [s|].
  - destruct (Py.truthy (Py.Str s)) eqn:Hs; [done|].
    cbn. by apply negb_true_iff, String.eqb_neq.
  - cbn. by apply negb_true_iff, String.eqb_neq.
Qed.

(** X4.  The provider label [get_agents] shows for the model of an agent.
    The class of a model has a name, so the provider, which falls back to
    that name, is never empty; hence the label is the provider (or the class
    name when the model names no provider), a space and the model
    identifier when the identifier is not empty, and the empty string when
    it is.  The two fallbacks of the chain, on the name of the model and on
    the bare identifier, are never taken.  An agent without a model gets no
    name, no identifier and the empty label. *)
Theorem provider_label_of_a_model :
  (∀ m : Model.t,
     Model.class_name m ≠ "" →
     agent_model (Some m)
     = mkAgentModel
         (Some (or_else (Model.name m) (Model.class_name m)))
         (Model.id m)
         (Some (match Model.id m with
                | Some i =>
                    if String.eqb i "" then ""
                    else or_else (Model.provider m) (Model.class_name m) +:+ " " +:+ i
                | None => ""
                end)))
  ∧ agent_model None = mkAgentModel None None (Some "").
Proof.
  split; [|done].
  intros m Hclass. unfold agent_model.
  rewrite (or_else_truthy (Model.provider m) _ Hclass).
  destruct (Model.id m) as [i|]; cbn [Py.of_option_str Py.truthy andb Py.format_opt].
  - destruct (String.eqb i ""); cbn [negb andb]; [|done].
    by rewrite andb_false_r.
  - by rewrite andb_false_r.
Qed.

Lemma provider_label_of_a_model_witness :
  agent_model (Some (Model.mk (Some "gpt-4o") (Some "GPT") None "OpenAIChat"))
  = mkAgentModel (Some "GPT") (Some "gpt-4o") (Some "OpenAIChat gpt-4o")
  ∧ agent_model (Some (Model.mk (Some "") (Some "GPT") (Some "OpenAI") "OpenAIChat"))
    = mkAgentModel (Some "GPT") (Some "") (Some "").
Proof.
  destruct provider_label_of_a_model as [Hlabel _].
  split.
  - by apply (Hlabel (Model.mk (Some "gpt-4o") (Some "GPT") None "OpenAIChat")).
  - by apply (Hlabel (Model.mk (Some "") (Some "GPT") (Some "OpenAI") "OpenAIChat")).
Defined.

(** ** Requests that name no registered entity *)

(** X5.  The sixteen run and session endpoints answer the identifier of an
    agent, a team or a workflow that is not registered with status 404,
    whether they raise [HTTPException] or return a [JSONResponse], and leave
    the world as it was: no identifier is drawn, no flag is written and
    nothing is invoked.  These are, for an agent, the run, the continued
    run, the session view, the rename, the listing and the deletion of a
    session; for a team the same without the continued run; and for a
    workflow the run, the rename, the listing, the view and the deletion of
    a session.  Among their requests the one that is answered otherwise is
    a resume request whose [tools] field is not JSON, which is rejected
    before the agent is looked up.  The endpoints that describe one entity
    ([get_workflow], [get_team]) and those that list memories
    ([get_agent_memories], [get_team_memories]) are not part of this
    statement. *)
Theorem unknown_entity_is_answered_404 `{Collaborators} `{Operators} (reg : Registry)
    (w : World) :
  (∀ agent_id, get_agent_by_id w agent_id (agents reg) = None →
     (∀ message stream monitor session_id user_id files,
        answered_404 w
          (create_agent_run reg agent_id message stream monitor session_id user_id
             files w))
     ∧ (∀ run_id tools session_id user_id stream,
          tools ≠ tools_invalid →
          answered_404 w
            (continue_agent_run reg agent_id run_id tools session_id user_id stream w))
     ∧ (∀ session_id user_id,
          answered_404 w (get_agent_session reg agent_id session_id user_id w))
     ∧ (∀ session_id body,
          answered_404 w (rename_agent_session reg agent_id session_id body w))
     ∧ (∀ user_id, answered_404 w (get_all_agent_sessions reg agent_id user_id w))
     ∧ (∀ session_id user_id,
          answered_404 w (delete_agent_session reg agent_id session_id user_id w)))
  ∧ (∀ team_id, get_team_by_id w team_id (teams reg) = None →
       (∀ message stream monitor session_id user_id files,
          answered_404 w
            (create_team_run reg team_id message stream monitor session_id user_id
               files w))
       ∧ (∀ session_id user_id,
            answered_404 w (get_team_session reg team_id session_id user_id w))
       ∧ (∀ session_id body,
            answered_404 w (rename_team_session reg team_id session_id body w))
       ∧ (∀ user_id, answered_404 w (get_all_team_sessions reg team_id user_id w))
       ∧ (∀ session_id user_id,
            answered_404 w (delete_team_session reg team_id session_id user_id w)))
  ∧ (∀ workflow_id, get_workflow_by_id w workflow_id (workflows reg) = None →
       (∀ body, answered_404 w (create_workflow_run reg workflow_id body w))
       ∧ (∀ session_id body,
            answered_404 w (rename_workflow_session reg workflow_id session_id body w))
       ∧ (∀ user_id, answered_404 w (get_all_workflow_sessions reg workflow_id user_id w))
       ∧ (∀ session_id user_id,
            answered_404 w (get_workflow_session reg workflow_id session_id user_id w))
       ∧ (∀ session_id,
            answered_404 w (delete_workflow_session reg workflow_id session_id w))).
Proof.
  unfold answered_404. split; [|split].
  - intros agent_id Hnone. repeat split.
    1-2: unfold create_agent_run, agent_run_setup; run_handler; by rewrite Hnone.
    1-2: destruct tools; [|done|]; unfold continue_agent_run; run_handler;
           by rewrite Hnone.
    1-2: unfold get_agent_session; run_handler; by rewrite Hnone.
    1-2: unfold rename_agent_session; run_handler; by rewrite Hnone.
    1-2: unfold get_all_agent_sessions; run_handler; by rewrite Hnone.
    1-2: unfold delete_agent_session; run_handler; by rewrite Hnone.
  - intros team_id Hnone. repeat split.
    1-2: unfold create_team_run, team_run_setup; run_handler; by rewrite Hnone.
    1-2: unfold get_team_session; run_handler; by rewrite Hnone.
    1-2: unfold rename_team_session; run_handler; by rewrite Hnone.
    1-2: unfold get_all_team_sessions; run_handler; by rewrite Hnone.
    1-2: unfold delete_team_session; run_handler; by rewrite Hnone.
  - intros workflow_id Hnone. repeat split.
    1-2: unfold create_workflow_run; run_handler; by rewrite Hnone.
    1-2: unfold rename_workflow_session; run_handler; by rewrite Hnone.
    1-2: unfold get_all_workflow_sessions; run_handler; by rewrite Hnone.
    1-2: unfold get_workflow_session; run_handler; by rewrite Hnone.
    1-2: unfold delete_workflow_session; run_handler; by rewrite Hnone.
Qed.

(** Nobody registered an agent ["nobody"], a team ["nobody"] or a workflow
    ["nothing"]. *)
Lemma unknown_entity_is_answered_404_witness :
  answered_404 Desk.world
    (create_agent_run (H := Demo.collaborators) Desk.registry "nobody" "hi" true true
       None None None Desk.world)
  ∧ answered_404 Desk.world
      (delete_team_session (H := Desk.operators) Desk.registry "nobody" "S" None
         Desk.world)
  ∧ answered_404 Desk.world
      (get_workflow_session (H := Desk.operators) Desk.registry "nothing" "W" None
         Desk.world).
Proof.
  destruct (unknown_entity_is_answered_404 (H := Demo.collaborators)
              (H0 := Desk.operators) Desk.registry Desk.world)
    as (Hagent & Hteam & Hworkflow).
  split; [|split].
  - by apply (Hagent "nobody").
  - by apply (Hteam "nobody").
  - by apply (Hworkflow "nothing").
Defined.

(** ** Endpoints that only read *)

(** X6.  The six endpoints that show sessions, the three session views and
    the three listings, change nothing, whatever they are asked and however
    they end: the world after the request is the world before it. *)
Theorem session_reads_change_nothing `{Operators} (reg : Registry) (w : World) :
  (∀ agent_id session_id user_id,
     (get_agent_session reg agent_id session_id user_id w).1 = w)
  ∧ (∀ team_id session_id user_id,
       (get_team_session reg team_id session_id user_id w).1 = w)
  ∧ (∀ workflow_id session_id user_id,
       (get_workflow_session reg workflow_id session_id user_id w).1 = w)
  ∧ (∀ agent_id user_id, (get_all_agent_sessions reg agent_id user_id w).1 = w)
  ∧ (∀ team_id user_id, (get_all_team_sessions reg team_id user_id w).1 = w)
  ∧ (∀ workflow_id user_id, (get_all_workflow_sessions reg workflow_id user_id w).1 = w).
Proof.
  repeat split.
  - intros agent_id session_id user_id. unfold get_agent_session. run_handler.
    destruct (get_agent_by_id _ _ _) as [agent|]; [|done].
    destruct (agent_objs w !! agent ≫= Agent.storage) as [st|]; [|done].
    run_handler. destruct (Storage.read _ _ _) as [e|[s|]]; [done| |done].
    run_handler. by destruct (runs_view _ _ _).
  - intros team_id session_id user_id. unfold get_team_session. run_handler.
    destruct (get_team_by_id _ _ _) as [team|]; [|done].
    destruct (team_objs w !! team ≫= Team.storage) as [st|]; [|done].
    destruct (Storage.read _ _ _) as [e|[s|]]; [done| |done].
    run_handler. by destruct (runs_view _ _ _).
  - intros workflow_id session_id user_id. unfold get_workflow_session. run_handler.
    destruct (get_workflow_by_id _ _ _) as [workflow|]; [|done].
    destruct (workflow_objs w !! workflow ≫= AnyWorkflow.storage) as [st|]; [|done].
    by destruct (Storage.read _ _ _) as [e|[s|]].
  - intros agent_id user_id. unfold get_all_agent_sessions. run_handler.
    destruct (get_agent_by_id _ _ _) as [agent|]; [|done].
    destruct (agent_objs w !! agent ≫= Agent.storage) as [st|]; [|done].
    run_handler. destruct (Storage.get_all_sessions _ _ _) as [e|all]; [done|].
    run_handler. by destruct (session_summaries _ _).
  - intros team_id user_id. unfold get_all_team_sessions. run_handler.
    destruct (get_team_by_id _ _ _) as [team|]; [|done].
    destruct (team_objs w !! team ≫= Team.storage) as [st|]; [|done].
    destruct (Storage.get_all_sessions _ _ _) as [e|all]; [done|].
    run_handler. by destruct (session_summaries _ _).
  - intros workflow_id user_id. unfold get_all_workflow_sessions. run_handler.
    destruct (get_workflow_by_id _ _ _) as [workflow|]; [|done].
    destruct (workflow_objs w !! workflow ≫= AnyWorkflow.storage) as [st|]; [|done].
    destruct (Storage.get_all_sessions _ _ _) as [e|all]; [done|].
    run_handler. by destruct (session_summaries _ _).
Qed.

(** ** Entities without a storage, and storages that fail *)

(** X7.  An agent or a team that has no storage has no sessions to show,
    rename or delete: each of its four session endpoints answers with status
    404 and does nothing.  For a workflow without storage this holds of the
    listing and of the session view. *)
Theorem session_endpoints_need_a_storage `{Collaborators} `{Operators} (reg : Registry)
    (w : World) :
  (∀ agent_id agent,
     get_agent_by_id w agent_id (agents reg) = Some agent →
     agent_objs w !! agent ≫= Agent.storage = None →
     (∀ user_id, answered_404 w (get_all_agent_sessions reg agent_id user_id w))
     ∧ (∀ session_id user_id,
          answered_404 w (get_agent_session reg agent_id session_id user_id w))
     ∧ (∀ session_id body,
          answered_404 w (rename_agent_session reg agent_id session_id body w))
     ∧ (∀ session_id user_id,
          answered_404 w (delete_agent_session reg agent_id session_id user_id w)))
  ∧ (∀ team_id team,
       get_team_by_id w team_id (teams reg) = Some team →
       team_objs w !! team ≫= Team.storage = None →
       (∀ user_id, answered_404 w (get_all_team_sessions reg team_id user_id w))
       ∧ (∀ session_id user_id,
            answered_404 w (get_team_session reg team_id session_id user_id w))
       ∧ (∀ session_id body,
            answered_404 w (rename_team_session reg team_id session_id body w))
       ∧ (∀ session_id user_id,
            answered_404 w (delete_team_session reg team_id session_id user_id w)))
  ∧ (∀ workflow_id workflow,
       get_workflow_by_id w workflow_id (workflows reg) = Some workflow →
       workflow_objs w !! workflow ≫= AnyWorkflow.storage = None →
       (∀ user_id, answered_404 w (get_all_workflow_sessions reg workflow_id user_id w))
       ∧ (∀ session_id user_id,
            answered_404 w (get_workflow_session reg workflow_id session_id user_id w))).
Proof.
  unfold answered_404. split; [|split].
  - intros agent_id agent Ha Hst. repeat split.
    1-2: unfold get_all_agent_sessions; run_handler; by rewrite Ha, Hst.
    1-2: unfold get_agent_session; run_handler; by rewrite Ha, Hst.
    1-2: unfold rename_agent_session; run_handler; by rewrite Ha, Hst.
    1-2: unfold delete_agent_session; run_handler; by rewrite Ha, Hst.
  - intros team_id team Ha Hst. repeat split.
    1-2: unfold get_all_team_sessions; run_handler; by rewrite Ha, Hst.
    1-2: unfold get_team_session; run_handler; by rewrite Ha, Hst.
    1-2: unfold rename_team_session; run_handler; by rewrite Ha, Hst.
    1-2: unfold delete_team_session; run_handler; by rewrite Ha, Hst.
  - intros workflow_id workflow Ha Hst. repeat split.
    1-2: unfold get_all_workflow_sessions; run_handler; by rewrite Ha, Hst.
    1-2: unfold get_workflow_session; run_handler; by rewrite Ha, Hst.
Qed.

Lemma session_endpoints_need_a_storage_witness :
  answered_404 Desk.world
    (get_all_agent_sessions (H := Desk.operators) Desk.registry "temp" None Desk.world)
  ∧ answered_404 Desk.world
      (rename_team_session (H := Demo.collaborators) Desk.registry "temps" "S"
         (mkRenameRequest "Drafts" None) Desk.world)
  ∧ answered_404 Desk.world
      (get_workflow_session (H := Desk.operators) Desk.registry "draft" "W" None
         Desk.world).
Proof.
  destruct (session_endpoints_need_a_storage (H := Demo.collaborators)
              (H0 := Desk.operators) Desk.registry Desk.world)
    as (Hagent & Hteam & Hworkflow).
  split; [|split].
  - by apply (Hagent "temp" 2).
  - by apply (Hteam "temps" 2).
  - by apply (Hworkflow "draft" 2).
Defined.

(** X8.  What the session endpoints do when the storage raises.  The
    listing and the session view of a team and of a workflow catch the
    exception and answer with status 500 and its message.  The agent
    endpoints catch nothing, and neither do the rename and delete endpoints
    of a team: there the exception of the storage leaves the handler.  In
    every case the world is what it was. *)
Theorem storage_failure_is_caught_by_some_endpoints `{Collaborators} `{Operators}
    (reg : Registry) (w : World) (st : loc) (e : exn) :
  Storage.fault (storage_at w st) = Some e →
  (∀ agent_id agent,
     get_agent_by_id w agent_id (agents reg) = Some agent →
     agent_objs w !! agent ≫= Agent.storage = Some st →
     (∀ user_id, get_all_agent_sessions reg agent_id user_id w = (w, Uncaught e))
     ∧ (∀ session_id user_id,
          get_agent_session reg agent_id session_id user_id w = (w, Uncaught e))
     ∧ (∀ session_id body,
          rename_agent_session reg agent_id session_id body w = (w, Uncaught e))
     ∧ (∀ session_id user_id,
          delete_agent_session reg agent_id session_id user_id w = (w, Uncaught e)))
  ∧ (∀ team_id team,
       get_team_by_id w team_id (teams reg) = Some team →
       team_objs w !! team ≫= Team.storage = Some st →
       (∀ user_id,
          get_all_team_sessions reg team_id user_id w
          = (w, HTTPException 500 ("Error retrieving sessions: " +:+ Py.str e)))
       ∧ (∀ session_id user_id,
            get_team_session reg team_id session_id user_id w
            = (w, HTTPException 500 ("Error retrieving session: " +:+ Py.str e)))
       ∧ (∀ session_id body,
            rename_team_session reg team_id session_id body w = (w, Uncaught e))
       ∧ (∀ session_id user_id,
            delete_team_session reg team_id session_id user_id w = (w, Uncaught e)))
  ∧ (∀ workflow_id workflow,
       get_workflow_by_id w workflow_id (workflows reg) = Some workflow →
       workflow_objs w !! workflow ≫= AnyWorkflow.storage = Some st →
       (∀ user_id,
          get_all_workflow_sessions reg workflow_id user_id w
          = (w, HTTPException 500 ("Error retrieving sessions: " +:+ Py.str e)))
       ∧ (∀ session_id user_id,
            get_workflow_session reg workflow_id session_id user_id w
            = (w, HTTPException 500 ("Error retrieving session: " +:+ Py.str e)))).
Proof.
  intros Hfault.
  assert (∀ user_id entity_id,
            Storage.get_all_sessions user_id entity_id (storage_at w st) = inl e) as Hall.
  { intros. unfold Storage.get_all_sessions. by rewrite Hfault. }
  assert (∀ session_id user_id,
            Storage.read session_id user_id (storage_at w st) = inl e) as Hread.
  { intros. unfold Storage.read. by rewrite Hfault. }
  split; [|split].
  - intros agent_id agent Ha Hst. repeat split; intros.
    + unfold get_all_agent_sessions. run_handler. by rewrite Ha, Hst, Hall.
    + unfold get_agent_session. run_handler. by rewrite Ha, Hst, Hread.
    + unfold rename_agent_session. run_handler. by rewrite Ha, Hst, Hall.
    + unfold delete_agent_session. run_handler. by rewrite Ha, Hst, Hall.
  - intros team_id team Ha Hst. repeat split; intros.
    + unfold get_all_team_sessions. run_handler. by rewrite Ha, Hst, Hall.
    + unfold get_team_session. run_handler. by rewrite Ha, Hst, Hread.
    + unfold rename_team_session. run_handler. by rewrite Ha, Hst, Hall.
    + unfold delete_team_session. run_handler. by rewrite Ha, Hst, Hall.
  - intros workflow_id workflow Ha Hst. repeat split; intros.
    + unfold get_all_workflow_sessions. run_handler. by rewrite Ha, Hst, Hall.
    + unfold get_workflow_session. run_handler. by rewrite Ha, Hst, Hread.
Qed.

(** The agent ["clerk"], the team ["editors"] and the workflow ["nightly"]
    keep their sessions in the storage whose database is locked. *)
Lemma storage_failure_is_caught_by_some_endpoints_witness :
  get_all_agent_sessions (H := Desk.operators) Desk.registry "clerk" None Desk.world
  = (Desk.world, Uncaught Desk.lock_failure)
  ∧ get_all_team_sessions (H := Desk.operators) Desk.registry "editors" None Desk.world
    = (Desk.world, HTTPException 500 "Error retrieving sessions: database is locked")
  ∧ get_workflow_session (H := Desk.operators) Desk.registry "nightly" "W" None
      Desk.world
    = (Desk.world, HTTPException 500 "Error retrieving session: database is locked").
Proof.
  destruct (storage_failure_is_caught_by_some_endpoints (H := Demo.collaborators)
              (H0 := Desk.operators) Desk.registry Desk.world 1 Desk.lock_failure
              eq_refl) as (Hagent & Hteam & Hworkflow).
  split; [|split].
  - by apply (Hagent "clerk" 1).
  - by apply (Hteam "editors" 1).
  - by apply (Hworkflow "nightly" 1).
Defined.

(** ** Deleting a session *)

(** X9.  The delete endpoints of an agent and of a team look the session up
    among the sessions the storage lists for the user and the entity.  When
    it is not among them they answer with status 404 and invoke nothing;
    when it is they invoke [delete_session] of the entity, and answer that
    the session was deleted unless that call raises.  The delete endpoint of
    a workflow looks nothing up and reads no storage: for a registered
    workflow it invokes [delete_session] whatever the session identifier
    is, and answers that the workflow was deleted unless the call raises. *)
Theorem delete_looks_the_session_up_except_for_workflows `{Operators} (reg : Registry)
    (w : World) :
  (∀ agent_id session_id user_id agent st all_agent_sessions,
     get_agent_by_id w agent_id (agents reg) = Some agent →
     agent_objs w !! agent ≫= Agent.storage = Some st →
     Storage.get_all_sessions user_id (Some agent_id) (storage_at w st)
     = inr all_agent_sessions →
     let r := delete_agent_session reg agent_id session_id user_id w in
     match find_session session_id all_agent_sessions with
     | None => r = (w, Ok (JSONResponse 404 (Py.Str "Session not found.")))
     | Some _ =>
         match Agent_delete_session w agent session_id with
         | Some e => r = (w, Uncaught e)
         | None =>
             r.2 = Ok (JSONResponse 200
                         (Py.Dict [("message",
                            Py.Str ("successfully deleted session " +:+ session_id))]))
         end
     end)
  ∧ (∀ team_id session_id user_id team st all_team_sessions,
       get_team_by_id w team_id (teams reg) = Some team →
       team_objs w !! team ≫= Team.storage = Some st →
       Storage.get_all_sessions user_id (Some team_id) (storage_at w st)
       = inr all_team_sessions →
       let r := delete_team_session reg team_id session_id user_id w in
       match find_session session_id all_team_sessions with
       | None => r = (w, HTTPException 404 "Session not found")
       | Some _ =>
           match Team_delete_session w team session_id with
           | Some e => r = (w, Uncaught e)
           | None =>
               r.2 = Ok (JSONResponse 200
                           (Py.Dict [("message",
                              Py.Str ("successfully deleted team session "
                                      +:+ session_id))]))
           end
       end)
  ∧ (∀ workflow_id session_id workflow,
       get_workflow_by_id w workflow_id (workflows reg) = Some workflow →
       let r := delete_workflow_session reg workflow_id session_id w in
       match Workflow_delete_session w workflow session_id with
       | Some e => r = (w, Uncaught e)
       | None =>
           r.2 = Ok (JSONResponse 200
                       (Py.Dict [("message",
                          Py.Str ("successfully deleted workflow "
                                  +:+ Py.format_opt
                                        (workflow_objs w !! workflow
                                           ≫= AnyWorkflow.name)))]))
       end).
Proof.
  split; [|split].
  - intros agent_id session_id user_id agent st all Ha Hst Hall r. subst r.
    unfold delete_agent_session. run_handler. rewrite Ha, Hst, Hall. run_handler.
    destruct (find_session session_id all); [|done].
    by destruct (Agent_delete_session w agent session_id).
  - intros team_id session_id user_id team st all Ha Hst Hall r. subst r.
    unfold delete_team_session. run_handler. rewrite Ha, Hst, Hall. run_handler.
    destruct (find_session session_id all); [|done].
    by destruct (Team_delete_session w team session_id).
  - intros workflow_id session_id workflow Ha r. subst r.
    unfold delete_workflow_session. run_handler. rewrite Ha.
    destruct (Workflow_delete_session w workflow session_id); [done|].
    run_handler.
    by destruct (workflow_objs w !! workflow ≫= AnyWorkflow.storage).
Qed.

(** The storage of the desk holds the session ["A"] of the agent
    ["librarian"] and no session ["missing"]. *)
Lemma delete_looks_the_session_up_except_for_workflows_witness :
  delete_agent_session (H := Desk.operators) Desk.registry "librarian" "missing"
    (Some "ann") Desk.world
  = (Desk.world, Ok (JSONResponse 404 (Py.Str "Session not found.")))
  ∧ (delete_agent_session (H := Desk.operators) Desk.registry "librarian" "A"
       (Some "ann") Desk.world).2
    = Ok (JSONResponse 200
            (Py.Dict [("message", Py.Str "successfully deleted session A")]))
  ∧ delete_team_session (H := Desk.operators) Desk.registry "writers" "A"
      (Some "ann") Desk.world
    = (Desk.world, HTTPException 404 "Session not found")
  ∧ (delete_workflow_session (H := Desk.operators) Desk.registry "pipeline" "missing"
       Desk.world).2
    = Ok (JSONResponse 200
            (Py.Dict [("message", Py.Str "successfully deleted workflow Pipeline")])).
Proof.
  destruct (delete_looks_the_session_up_except_for_workflows (H := Desk.operators)
              Desk.registry Desk.world) as (Hagent & Hteam & Hworkflow).
  split; [|split; [|split]].
  - exact (Hagent "librarian" "missing" (Some "ann") 0 0 _ eq_refl eq_refl eq_refl).
  - exact (Hagent "librarian" "A" (Some "ann") 0 0 _ eq_refl eq_refl eq_refl).
  - exact (Hteam "writers" "A" (Some "ann") 0 0 _ eq_refl eq_refl eq_refl).
  - exact (Hworkflow "pipeline" "missing" 0 eq_refl).
Defined.

(** ** The session listings *)

Lemma session_summaries_listed get_title all_sessions : ∀ entries,
  session_summaries get_title all_sessions = inr entries
  ↔ listed get_title all_sessions entries.
Proof.
  unfold listed.
  induction all_sessions as [|session rest IH]; intros entries; simpl.
  - split; [intros [= <-]; constructor|by intros ->%Forall2_nil_inv_l].
  - destruct (get_title session) as [e|title] eqn:Ht; simpl.
    + split; [done|].
      intros (entry & entries' & (title & Ht' & _) & _ & _)%Forall2_cons_inv_l.
      congruence.
    + destruct (session_summaries get_title rest) as [e|entries'] eqn:Hrest; simpl.
      * split; [done|].
        intros (entry & entries'' & _ & Hall & _)%Forall2_cons_inv_l.
        apply IH in Hall. congruence.
      * split.
        -- intros [= <-]. constructor; [by exists title|]. by apply IH.
        -- intros (entry & entries'' & (title' & Ht' & ->) & Hall & ->)%Forall2_cons_inv_l.
           apply IH in Hall. unfold mret, Py.exn_ret. congruence.
Qed.

(** X10.  A listing shows the sessions that the storage lists for the user
    and the entity of the request: one entry per session, in the order of
    the storage, with the identifier and the creation time of the session,
    the title computed for it, and as its name the [session_name] of its
    metadata, or [None] when the session has no metadata.  The listing is
    returned exactly when the title of every session can be computed. *)
Theorem listing_has_one_entry_per_session `{Operators} (reg : Registry) (w : World) :
  (∀ agent_id user_id agent st all_agent_sessions,
     get_agent_by_id w agent_id (agents reg) = Some agent →
     agent_objs w !! agent ≫= Agent.storage = Some st →
     Storage.get_all_sessions user_id (Some agent_id) (storage_at w st)
     = inr all_agent_sessions →
     ∀ reply,
       (get_all_agent_sessions reg agent_id user_id w).2 = Ok reply
       ↔ ∃ entries, reply = Returned (Py.List entries)
                    ∧ listed get_session_title all_agent_sessions entries)
  ∧ (∀ team_id user_id team st all_team_sessions,
       get_team_by_id w team_id (teams reg) = Some team →
       team_objs w !! team ≫= Team.storage = Some st →
       Storage.get_all_sessions user_id (Some team_id) (storage_at w st)
       = inr all_team_sessions →
       ∀ reply,
         (get_all_team_sessions reg team_id user_id w).2 = Ok reply
         ↔ ∃ entries, reply = Returned (Py.List entries)
                      ∧ listed get_session_title_from_team_session all_team_sessions
                          entries)
  ∧ (∀ workflow_id user_id workflow st all_workflow_sessions,
       get_workflow_by_id w workflow_id (workflows reg) = Some workflow →
       workflow_objs w !! workflow ≫= AnyWorkflow.storage = Some st →
       Storage.get_all_sessions user_id (Some workflow_id) (storage_at w st)
       = inr all_workflow_sessions →
       ∀ reply,
         (get_all_workflow_sessions reg workflow_id user_id w).2 = Ok reply
         ↔ ∃ entries, reply = Returned (Py.List entries)
                      ∧ listed get_session_title_from_workflow_session
                          all_workflow_sessions entries)
  ∧ (∀ session,
       (Session.session_data session = None → session_name_of session = Py.None_)
       ∧ (Session.session_data session = Some [] → session_name_of session = Py.None_)
       ∧ (∀ session_data name,
            Session.session_data session = Some session_data →
            Py.lookup "session_name" session_data = Some name →
            session_name_of session = name)).
Proof.
  assert (∀ get_title all reply,
            (match session_summaries get_title all with
             | inl e => Uncaught e
             | inr entries => Ok (Returned (Py.List entries))
             end = Ok reply)
            ↔ ∃ entries, reply = Returned (Py.List entries) ∧ listed get_title all entries)
    as Hloop.
  { intros get_title all reply.
    destruct (session_summaries get_title all) as [e|entries] eqn:Hs.
    - split; [done|]. intros (entries & _ & Hl%session_summaries_listed). congruence.
    - split.
      + intros [= <-]. exists entries. split; [done|]. by apply session_summaries_listed.
      + intros (entries' & -> & Hl%session_summaries_listed). congruence. }
  split; [|split; [|split]].
  - intros agent_id user_id agent st all Ha Hst Hall reply.
    rewrite <- Hloop. unfold get_all_agent_sessions. run_handler.
    rewrite Ha, Hst, Hall. run_handler.
    by destruct (session_summaries _ _).
  - intros team_id user_id team st all Ha Hst Hall reply.
    rewrite <- Hloop. unfold get_all_team_sessions. run_handler.
    rewrite Ha, Hst, Hall. run_handler.
    by destruct (session_summaries _ _).
  - intros workflow_id user_id workflow st all Ha Hst Hall reply.
    rewrite <- Hloop. unfold get_all_workflow_sessions. run_handler.
    rewrite Ha, Hst, Hall. run_handler.
    by destruct (session_summaries _ _).
  - intros session. unfold session_name_of. repeat split.
    + by intros ->.
    + by intros ->.
    + intros session_data name -> Hname. unfold Py.get. rewrite Hname.
      by destruct session_data.
Qed.

(** The team ["writers"] of the desk has the sessions ["S"], which was
    named, and ["M"] and ["Q"], which were not. *)
Lemma listing_has_one_entry_per_session_witness :
  (get_all_team_sessions (H := Desk.operators) Desk.registry "writers" (Some "ann")
     Desk.world).2
  = Ok (Returned
          (Py.List
             [Py.Dict [("title", Py.Str "Plans"); ("session_id", Py.Str "S");
                       ("session_name", Py.Str "Plans"); ("created_at", Py.Int 0)];
              Py.Dict [("title", Py.Str "Session M"); ("session_id", Py.Str "M");
                       ("session_name", Py.None_); ("created_at", Py.Int 3)];
              Py.Dict [("title", Py.Str "Session Q"); ("session_id", Py.Str "Q");
                       ("session_name", Py.None_); ("created_at", Py.Int 6)]])).
Proof.
  destruct (listing_has_one_entry_per_session (H := Desk.operators) Desk.registry
              Desk.world) as (_ & Hteam & _).
  apply (Hteam "writers" (Some "ann") 0 0 _ eq_refl eq_refl eq_refl).
  eexists. split; [reflexivity|].
  repeat constructor; eexists; (split; [reflexivity|reflexivity]).
Defined.

(** ** Dictionaries with unique keys *)

Lemma lookup_absent k d : k ∉ List.map fst d → Py.lookup k d = None.
Proof.
  induction d as [|[k' v] d IH]; simpl; [done|].
  intros Hk. apply not_elem_of_cons in Hk as [Hne Hk].
  destruct (String.eqb_spec k k'); [done|]. by apply IH.
Qed.

Lemma lookup_present k d v : Py.lookup k d = Some v → k ∈ List.map fst d.
Proof.
  induction d as [|[k' v'] d IH]; simpl; [done|].
  destruct (String.eqb_spec k k') as [->|Hne]; [intros _; left|].
  intros Hl. right. by apply IH.
Qed.

Lemma pop_keys k d k' : k' ∈ List.map fst (Py.pop k d) → k' ∈ List.map fst d.
Proof.
  induction d as [|[k0 v] d IH]; simpl; [done|].
  destruct (String.eqb k k0); simpl.
  - intros Hin. by right.
  - intros [->|Hin]%elem_of_cons; [left|right; by apply IH].
Qed.

Lemma pop_unique k d : unique_keys d → unique_keys (Py.pop k d).
Proof.
  unfold unique_keys.
  induction d as [|[k0 v] d IH]; simpl; [done|].
  intros [Hk0 Hd]%NoDup_cons.
  destruct (String.eqb k k0); simpl; [done|].
  apply NoDup_cons. split; [|by apply IH].
  intros Hin. by apply Hk0, (pop_keys k).
Qed.

Lemma lookup_pop_eq k d : unique_keys d → Py.lookup k (Py.pop k d) = None.
Proof.
  unfold unique_keys.
  induction d as [|[k0 v] d IH]; simpl; [done|].
  intros [Hk0 Hd]%NoDup_cons.
  destruct (String.eqb_spec k k0) as [->|Hne]; [by apply lookup_absent|].
  simpl. destruct (String.eqb_spec k k0); [done|]. by apply IH.
Qed.

Lemma set_keys k v d k' : k' ∈ List.map fst (Py.set k v d) → k' = k ∨ k' ∈ List.map fst d.
Proof.
  induction d as [|[k0 v0] d IH]; simpl.
  - intros [->|[]%elem_of_nil]%elem_of_cons. by left.
  - destruct (String.eqb_spec k k0) as [->|Hne]; simpl.
    + intros [->|Hin]%elem_of_cons; [by left|right; by right].
    + intros [->|Hin]%elem_of_cons; [right; left|].
      destruct (IH Hin) as [->|Hin']; [by left|right; by right].
Qed.

Lemma set_unique k v d : unique_keys d → unique_keys (Py.set k v d).
Proof.
  unfold unique_keys.
  induction d as [|[k0 v0] d IH]; simpl.
  - intros _. apply NoDup_singleton.
  - intros [Hk0 Hd]%NoDup_cons.
    destruct (String.eqb_spec k k0) as [->|Hne]; simpl.
    + by apply NoDup_cons.
    + apply NoDup_cons. split; [|by apply IH].
      intros [->|Hin]%set_keys; done.
Qed.

Lemma pop_absent k d : Py.lookup k d = None → Py.pop k d = d.
Proof.
  induction d as [|[k0 v] d IH]; simpl; [done|].
  destruct (String.eqb k k0); [done|]. intros Hl. by rewrite IH.
Qed.

(** ** The session view of a workflow *)

Lemma runs_under_memory_spec d :
  Py.contains "memory" (runs_under_memory d) = true
  ∧ runs_under_memory (runs_under_memory d) = runs_under_memory d
  ∧ (Py.contains "memory" d = true → runs_under_memory d = d)
  ∧ (Py.contains "memory" d = false →
     Py.get "memory" (runs_under_memory d)
     = Py.Dict [("runs", Py.get_default "runs" (Py.List []) d)]
     ∧ (unique_keys d → Py.contains "runs" (runs_under_memory d) = false)
     ∧ ∀ k, k ≠ "memory" → k ≠ "runs" →
            Py.lookup k (runs_under_memory d) = Py.lookup k d).
Proof.
  assert (Py.contains "memory" (runs_under_memory d) = true) as Hhas.
  { unfold runs_under_memory. destruct (Py.contains "memory" d) eqn:Hm; [done|].
    unfold Py.contains. by rewrite lookup_set_eq. }
  split; [exact Hhas|]. split.
  { unfold runs_under_memory at 1. by rewrite Hhas. }
  split.
  { intros Hm. unfold runs_under_memory. by rewrite Hm. }
  intros Hm. unfold runs_under_memory. rewrite Hm. split; [apply get_set_eq|].
  split.
  - intros Hu. unfold Py.contains.
    rewrite lookup_set_ne by done. by rewrite lookup_pop_eq.
  - intros k Hk Hr. rewrite lookup_set_ne by done. by rewrite lookup_pop_ne.
Qed.

(** X11.  The session view of a workflow returns the dictionary of the
    stored session in the shape of a first-generation session, which always
    has a ["memory"] key.  A dictionary that has the key is returned as it
    is.  In one that has not, the runs move from the top of the dictionary
    to ["memory"]["runs"], the empty list standing in for runs that are not
    there, and every other key keeps its value.  Bringing a dictionary into
    that shape twice changes nothing more. *)
Theorem workflow_session_view_has_memory `{Operators} (reg : Registry) (w : World)
    (workflow_id session_id : string) (user_id : option string) (workflow st : loc)
    (workflow_session : Session.t) :
  get_workflow_by_id w workflow_id (workflows reg) = Some workflow →
  workflow_objs w !! workflow ≫= AnyWorkflow.storage = Some st →
  Storage.read session_id user_id (storage_at w st) = inr (Some workflow_session) →
  let stored := WorkflowSession_to_dict workflow_session in
  ∃ d,
    get_workflow_session reg workflow_id session_id user_id w
    = (w, Ok (JSONResponse 200 (Py.Dict d)))
    ∧ Py.contains "memory" d = true
    ∧ runs_under_memory d = d
    ∧ (Py.contains "memory" stored = true → d = stored)
    ∧ (Py.contains "memory" stored = false →
       Py.get "memory" d = Py.Dict [("runs", Py.get_default "runs" (Py.List []) stored)]
       ∧ (unique_keys stored → Py.contains "runs" d = false)
       ∧ ∀ k, k ≠ "memory" → k ≠ "runs" → Py.lookup k d = Py.lookup k stored).
Proof.
  intros Hw Hst Hread stored.
  exists (runs_under_memory stored). split.
  - unfold get_workflow_session. run_handler. by rewrite Hw, Hst, Hread.
  - apply runs_under_memory_spec.
Qed.

(** The session ["W"] of the workflow ["pipeline"] is stored with its runs
    at the top. *)
Lemma workflow_session_view_has_memory_witness :
  ∃ d,
    get_workflow_session (H := Desk.operators) Desk.registry "pipeline" "W" (Some "ann")
      Desk.world
    = (Desk.world, Ok (JSONResponse 200 (Py.Dict d)))
    ∧ Py.get "memory" d = Py.Dict [("runs", Py.List [Demo.team_run])]
    ∧ Py.contains "runs" d = false
    ∧ Py.lookup "session_id" d = Some (Py.Str "W").
Proof.
  destruct (workflow_session_view_has_memory (H := Desk.operators) Desk.registry
              Desk.world "pipeline" "W" (Some "ann") 0 0
              (Session.mk "W" (Some "ann") (Some "pipeline")
                 (Some [("runs", Py.List [Demo.team_run])]) (Some []) 2)
              eq_refl eq_refl eq_refl) as (d & Hreply & _ & _ & _ & Hmoved).
  destruct (Hmoved eq_refl) as (Hmemory & Hruns & Hframe).
  exists d. split; [exact Hreply|]. split; [exact Hmemory|]. split.
  - apply Hruns. unfold unique_keys. by apply (bool_decide_unpack _).
  - rewrite Hframe by done. reflexivity.
Defined.

(** ** The message shown for a run *)

(** X12.  The message the session views show for a run is the first of its
    messages that has the role ["user"] and whose [from_history] is absent
    or is [False]; messages that were replayed from the history are passed
    over, and so is a message whose [from_history] is any other value.  The
    search stops at that message, so what follows it is not looked at; when
    no message qualifies the run is shown with [None].  A message before the
    hit that is not a dictionary ends the view with an exception. *)
Theorem view_shows_the_first_new_user_message (messages : list Py.value) :
  (∀ passed hit rest,
     messages = passed ++ hit :: rest →
     forallb (λ msg, is_dict msg && negb (is_user_message msg)) passed = true →
     is_user_message hit = true →
     first_user_message messages = inr hit)
  ∧ (forallb (λ msg, is_dict msg && negb (is_user_message msg)) messages = true →
     first_user_message messages = inr Py.None_)
  ∧ (∀ passed bad rest,
       messages = passed ++ bad :: rest →
       forallb (λ msg, is_dict msg && negb (is_user_message msg)) passed = true →
       is_dict bad = false →
       ∃ e, first_user_message messages = inl e ∧ Py.exn_class e = "AttributeError")
  ∧ (∀ msg,
       is_user_message (Py.Dict msg) = true
       ↔ Py.lookup "role" msg = Some (Py.Str "user")
         ∧ (Py.lookup "from_history" msg = None
            ∨ Py.lookup "from_history" msg = Some (Py.Bool false))).
Proof.
  assert (∀ passed tail,
            forallb (λ msg, is_dict msg && negb (is_user_message msg)) passed = true →
            first_user_message (passed ++ tail) = first_user_message tail) as Hpass.
  { induction passed as [|msg passed IH]; intros tail Hp; [done|].
    cbn in Hp. apply andb_prop in Hp as [Hmsg Hp].
    apply andb_prop in Hmsg as [Hd Hu]. apply negb_true_iff in Hu.
    destruct msg as [| | | | |m]; try discriminate Hd.
    cbn in Hu. cbn. rewrite Hu. by apply IH. }
  split; [|split; [|split]].
  - intros passed hit rest -> Hp Hhit. rewrite (Hpass _ _ Hp).
    destruct hit as [| | | | |m]; try discriminate Hhit.
    cbn in Hhit. cbn. by rewrite Hhit.
  - intros Hp. rewrite <- (app_nil_r messages). by rewrite (Hpass _ _ Hp).
  - intros passed bad rest -> Hp Hbad. rewrite (Hpass _ _ Hp).
    destruct bad; try discriminate Hbad; by eexists.
  - intros msg. unfold is_user_message, Py.get, Py.get_default, Py.eq_str, Py.is_False.
    rewrite andb_true_iff.
    destruct (Py.lookup "role" msg) as [[| | |s| |]|];
      try (split; [intros [? _]; discriminate|intros [? _]; discriminate]).
    destruct (String.eqb_spec s "user") as [->|Hne].
    + destruct (Py.lookup "from_history" msg) as [[|[|]| | | |]|]; split;
        try (intros [_ ?]; discriminate); try (intros [_ [?|?]]; discriminate);
        try done; try (intros _; split; [done|]; by (left + right)).
    + split; [intros [? _]; discriminate|]. intros [[= ->] _]. done.
Qed.

Lemma view_shows_the_first_new_user_message_witness :
  first_user_message
    [Py.Dict [("role", Py.Str "user"); ("content", Py.Str "old");
              ("from_history", Py.Bool true)];
     Py.Dict [("role", Py.Str "system"); ("content", Py.Str "rules")];
     Py.Dict [("role", Py.Str "user"); ("content", Py.Str "new")];
     Py.Str "garbled"]
  = inr (Py.Dict [("role", Py.Str "user"); ("content", Py.Str "new")])
  ∧ first_user_message
      [Py.Dict [("role", Py.Str "user"); ("from_history", Py.None_)]]
    = inr Py.None_
  ∧ (∃ e, first_user_message
            [Py.Str "garbled";
             Py.Dict [("role", Py.Str "user"); ("content", Py.Str "new")]] = inl e
          ∧ Py.exn_class e = "AttributeError").
Proof.
  split; [|split].
  - destruct (view_shows_the_first_new_user_message
                [Py.Dict [("role", Py.Str "user"); ("content", Py.Str "old");
                          ("from_history", Py.Bool true)];
                 Py.Dict [("role", Py.Str "system"); ("content", Py.Str "rules")];
                 Py.Dict [("role", Py.Str "user"); ("content", Py.Str "new")];
                 Py.Str "garbled"]) as (Hhit & _).
    apply (Hhit [Py.Dict [("role", Py.Str "user"); ("content", Py.Str "old");
                          ("from_history", Py.Bool true)];
                 Py.Dict [("role", Py.Str "system"); ("content", Py.Str "rules")]]
             _ [Py.Str "garbled"]); reflexivity.
  - destruct (view_shows_the_first_new_user_message
                [Py.Dict [("role", Py.Str "user"); ("from_history", Py.None_)]])
      as (_ & Hnone & _).
    apply Hnone. reflexivity.
  - destruct (view_shows_the_first_new_user_message
                [Py.Str "garbled";
                 Py.Dict [("role", Py.Str "user"); ("content", Py.Str "new")]])
      as (_ & _ & Hbad & _).
    apply (Hbad [] (Py.Str "garbled")
             [Py.Dict [("role", Py.Str "user"); ("content", Py.Str "new")]]);
      reflexivity.
Defined.
(** ** The session view of an agent *)

Lemma agent_runs_loop_step rd runs d :
  agent_runs_loop (Py.Dict rd :: runs) d
  = match message_of_run (Py.Dict rd) with
    | inl e => inl e
    | inr message =>
        agent_runs_loop runs (append_run (run_entry message (Py.pop "memory" rd)) d)
    end.
Proof.
  cbn. destruct (Py.iter _) as [e|messages]; [reflexivity|]. cbn.
  destruct (first_user_message messages); reflexivity.
Qed.

Lemma agent_runs_loop_shows runs : ∀ d l,
  forallb agent_readable runs = true →
  Py.get "runs" d = Py.List l →
  ∃ d',
    agent_runs_loop runs d = inr d'
    ∧ Py.get "runs" d' = Py.List (l ++ List.map agent_entry runs)
    ∧ ∀ k, k ≠ "runs" → Py.lookup k d' = Py.lookup k d.
Proof.
  induction runs as [|run runs IH]; intros d l Hwf Hd.
  - exists d. cbn. by rewrite app_nil_r.
  - cbn in Hwf. apply andb_prop in Hwf as [Hrun Hwf].
    unfold agent_readable in Hrun.
    destruct run as [| | | | |rd]; try discriminate Hrun.
    rewrite agent_runs_loop_step. cbn [List.map]. unfold agent_entry at 1.
    destruct (message_of_run (Py.Dict rd)) as [e|message]; [discriminate Hrun|].
    destruct (IH (append_run (run_entry message (Py.pop "memory" rd)) d)
                (l ++ [run_entry message (Py.pop "memory" rd)]) Hwf)
      as (d' & Hloop & Hruns & Hframe).
    { by apply append_run_runs. }
    exists d'. split; [exact Hloop|]. split.
    + rewrite Hruns. by rewrite <- app_assoc.
    + intros k Hk. rewrite (Hframe k Hk). by apply append_run_frame.
Qed.

Lemma displayed_agent_entries runs :
  forallb agent_readable runs = true →
  omap (λ e, match e with Py.Dict d => Py.lookup "response" d | _ => None end)
    (List.map agent_entry runs)
  = List.map without_memory runs.
Proof.
  induction runs as [|run runs IH]; intros Hwf; [done|].
  cbn in Hwf. apply andb_prop in Hwf as [Hrun Hwf].
  cbn [List.map omap list_omap]. rewrite (IH Hwf).
  unfold agent_readable in Hrun. destruct run as [| | | | |rd]; try discriminate Hrun.
  unfold agent_entry. destruct (message_of_run (Py.Dict rd)); [discriminate Hrun|].
  reflexivity.
Qed.

Lemma runs_view_runs loop memory first_run runs d :
  Py.get "runs" memory = Py.List (Py.Dict first_run :: runs) →
  is_run_response first_run = true →
  runs_view loop (Some memory) d
  = loop (Py.Dict first_run :: runs) (Py.set "runs" (Py.List []) d).
Proof.
  intros Hruns Hfirst. unfold runs_view. rewrite Hruns.
  cbn [Py.is_not_None Py.first mbind Py.exn_bind].
  rewrite first_run_is_response_dict, Hfirst. reflexivity.
Qed.

Lemma runs_view_none loop memory d :
  no_run_response memory → runs_view loop memory d = inr d.
Proof.
  unfold runs_view, no_run_response.
  destruct memory as [memory|]; [|done].
  intros [->|(first_run & rest & -> & Hfirst)]; [done|].
  cbn [Py.is_not_None Py.first mbind Py.exn_bind].
  by rewrite first_run_is_response_dict, Hfirst.
Qed.

(** X13.  When the runs stored in the memory of an agent session are a
    list that is not empty, the first of them is a dictionary that has
    content or is a paused run, and every one of them can be gone through,
    the session view of the agent shows every one of them, in the stored
    order and with nothing left out: the response of the n-th entry is the
    n-th stored run without its ["memory"] key.  Every key of the session
    record other than ["runs"] is returned as stored, the ["memory"] of the
    session included. *)
Theorem agent_view_shows_every_run (reg : Registry) (w : World)
    (agent_id session_id : string) (user_id : option string) (agent st : loc)
    (agent_session : Session.t) (memory first_run : Py.dict) (runs : list Py.value) :
  get_agent_by_id w agent_id (agents reg) = Some agent →
  agent_objs w !! agent ≫= Agent.storage = Some st →
  Storage.read session_id user_id (storage_at w st) = inr (Some agent_session) →
  Session.memory agent_session = Some memory →
  Py.get "runs" memory = Py.List (Py.Dict first_run :: runs) →
  is_run_response first_run = true →
  forallb agent_readable (Py.Dict first_run :: runs) = true →
  ∃ d,
    get_agent_session reg agent_id session_id user_id w = (w, Ok (Returned (Py.Dict d)))
    ∧ displayed_runs d = List.map without_memory (Py.Dict first_run :: runs)
    ∧ Py.get "runs" d = Py.List (List.map agent_entry (Py.Dict first_run :: runs))
    ∧ ∀ k, k ≠ "runs" →
           Py.lookup k d = Py.lookup k (Session.to_dict "agent_id" agent_session).
Proof.
  intros Ha Hst Hread Hmem Hruns Hfirst Hwf.
  destruct (agent_runs_loop_shows (Py.Dict first_run :: runs)
              (Py.set "runs" (Py.List []) (Session.to_dict "agent_id" agent_session))
              [] Hwf (get_set_eq _ _ _)) as (d & Hloop & Hshown & Hframe).
  exists d. split; [|split; [|split]].
  - unfold get_agent_session. run_handler. rewrite Ha, Hst, Hread. run_handler.
    rewrite Hmem, (runs_view_runs _ _ _ _ _ Hruns Hfirst), Hloop. reflexivity.
  - unfold displayed_runs. rewrite Hshown. cbn [app].
    apply (displayed_agent_entries _ Hwf).
  - exact Hshown.
  - intros k Hk. rewrite (Hframe k Hk). by apply lookup_set_ne.
Qed.

(** The session ["A"] of the agent ["librarian"]: both runs are shown, the
    first one without the memory it was stored with, and with the message
    ["new"] that was not replayed from the history. *)
Lemma agent_view_shows_every_run_witness :
  ∃ d,
    get_agent_session Desk.registry "librarian" "A" None Desk.world
    = (Desk.world, Ok (Returned (Py.Dict d)))
    ∧ displayed_runs d
      = [without_memory Desk.noted_run; Py.Dict Demo.paused_run]
    ∧ Py.get "runs" d
      = Py.List [agent_entry Desk.noted_run; agent_entry (Py.Dict Demo.paused_run)]
    ∧ Py.contains "memory" d = true.
Proof.
  destruct (agent_view_shows_every_run Desk.registry Desk.world "librarian" "A" None
              0 0 (Session.mk "A" (Some "ann") (Some "librarian")
                     (Some [("runs", Py.List [Desk.noted_run; Py.Dict Demo.paused_run])])
                     None 1)
              [("runs", Py.List [Desk.noted_run; Py.Dict Demo.paused_run])]
              [("content", Py.Str "answer");
               ("memory", Py.Dict [("summary", Py.Str "long")]);
               ("messages",
                Py.List [Py.Dict [("role", Py.Str "user"); ("content", Py.Str "old");
                                  ("from_history", Py.Bool true)];
                         Py.Dict [("role", Py.Str "system"); ("content", Py.Str "rules")];
                         Py.Dict [("role", Py.Str "user"); ("content", Py.Str "new")];
                         Py.Str "garbled"])]
              [Py.Dict Demo.paused_run]
              eq_refl eq_refl eq_refl eq_refl eq_refl eq_refl eq_refl)
    as (d & Hrun & Hshown & Hentries & Hframe).
  exists d. split; [exact Hrun|]. split; [exact Hshown|]. split; [exact Hentries|].
  unfold Py.contains. rewrite Hframe by done. reflexivity.
Defined.

(** ** Sessions in which the views find no run *)

(** X14.  The session views of an agent and of a team return the
    dictionary of the stored session exactly as [to_dict] gives it, with no
    ["runs"] key added and the ["memory"] left in place, when they find no
    run response in it: when the session has no memory, when the memory has
    no runs, and when the first stored run has no content and is not a
    paused run. *)
Theorem session_without_run_response_is_returned_as_stored (reg : Registry) (w : World) :
  (∀ agent_id session_id user_id agent st agent_session,
     get_agent_by_id w agent_id (agents reg) = Some agent →
     agent_objs w !! agent ≫= Agent.storage = Some st →
     Storage.read session_id user_id (storage_at w st) = inr (Some agent_session) →
     no_run_response (Session.memory agent_session) →
     get_agent_session reg agent_id session_id user_id w
     = (w, Ok (Returned (Py.Dict (Session.to_dict "agent_id" agent_session)))))
  ∧ (∀ team_id session_id user_id team st team_session,
       get_team_by_id w team_id (teams reg) = Some team →
       team_objs w !! team ≫= Team.storage = Some st →
       Storage.read session_id user_id (storage_at w st) = inr (Some team_session) →
       no_run_response (Session.memory team_session) →
       get_team_session reg team_id session_id user_id w
       = (w, Ok (Returned (Py.Dict (Session.to_dict "team_id" team_session))))).
Proof.
  split.
  - intros agent_id session_id user_id agent st agent_session Ha Hst Hread Hnone.
    unfold get_agent_session. run_handler. rewrite Ha, Hst, Hread. run_handler.
    by rewrite (runs_view_none _ _ _ Hnone).
  - intros team_id session_id user_id team st team_session Ha Hst Hread Hnone.
    unfold get_team_session. run_handler. rewrite Ha, Hst, Hread. run_handler.
    by rewrite (runs_view_none _ _ _ Hnone).
Qed.

(** The session ["N"] of the agent ["librarian"] has no memory, and the
    memory of the session ["Q"] of the team ["writers"] has no runs. *)
Lemma session_without_run_response_is_returned_as_stored_witness :
  get_agent_session Desk.registry "librarian" "N" (Some "ann") Desk.world
  = (Desk.world,
     Ok (Returned
           (Py.Dict [("session_id", Py.Str "N"); ("user_id", Py.Str "ann");
                     ("agent_id", Py.Str "librarian"); ("memory", Py.None_);
                     ("session_data", Py.None_); ("created_at", Py.Int 4)])))
  ∧ get_team_session Desk.registry "writers" "Q" (Some "ann") Desk.world
    = (Desk.world,
       Ok (Returned
             (Py.Dict [("session_id", Py.Str "Q"); ("user_id", Py.Str "ann");
                       ("team_id", Py.Str "writers"); ("memory", Py.Dict []);
                       ("session_data", Py.None_); ("created_at", Py.Int 6)]))).
Proof.
  destruct (session_without_run_response_is_returned_as_stored Desk.registry Desk.world)
    as [Hagent Hteam].
  split.
  - exact (Hagent "librarian" "N" (Some "ann") 0 0
             (Session.mk "N" (Some "ann") (Some "librarian") None None 4)
             eq_refl eq_refl eq_refl I).
  - exact (Hteam "writers" "Q" (Some "ann") 0 0
             (Session.mk "Q" (Some "ann") (Some "writers") (Some []) None 6)
             eq_refl eq_refl eq_refl (or_introl eq_refl)).
Defined.

(** ** The memory of a team session on display *)

Lemma append_run_unique entry d : unique_keys d → unique_keys (append_run entry d).
Proof.
  intros Hu. unfold append_run. destruct (Py.get "runs" d); try done.
  by apply set_unique.
Qed.

Lemma team_runs_loop_memory session_id runs : ∀ d l,
  forallb (team_readable session_id) runs = true →
  Py.get "runs" d = Py.List l →
  unique_keys d →
  ∃ d',
    team_runs_loop session_id runs d = inr d'
    ∧ Py.lookup "memory" d'
      = match List.filter (λ run, negb (tagged_with session_id run)) runs with
        | [] => Py.lookup "memory" d
        | _ => None
        end.
Proof.
  induction runs as [|run runs IH]; intros d l Hwf Hd Hu.
  - by exists d.
  - cbn in Hwf. apply andb_prop in Hwf as [Hrun Hwf].
    destruct run as [| | | | |rd]; try discriminate Hrun.
    rewrite team_runs_loop_step. cbn [List.filter].
    unfold team_readable in Hrun.
    destruct (tagged_with session_id (Py.Dict rd)) eqn:Htag; cbn [negb orb] in *.
    + apply (IH d l Hwf Hd Hu).
    + destruct (message_of_run (Py.Dict rd)) as [e|message]; [discriminate Hrun|].
      destruct (IH (append_run (run_entry message rd) (Py.pop "memory" d))
                  (l ++ [run_entry message rd]) Hwf) as (d' & Hloop & Hmemory).
      { apply append_run_runs. by rewrite get_pop_ne. }
      { by apply append_run_unique, pop_unique. }
      exists d'. split; [exact Hloop|].
      rewrite Hmemory, append_run_frame by done.
      rewrite (lookup_pop_eq _ _ Hu).
      by destruct (List.filter _ runs).
Qed.

(** X15.  The team view removes the ["memory"] of the session record when,
    and only when, it shows a run: with at least one run on display the
    returned record has no ["memory"] key, and when every stored run is
    skipped, being tagged with the identifier of the session itself, the
    record keeps its memory next to an empty list of runs. *)
Theorem team_view_drops_the_memory_with_the_first_run (reg : Registry) (w : World)
    (team_id session_id : string) (user_id : option string) (team st : loc)
    (team_session : Session.t) (memory first_run : Py.dict) (runs : list Py.value) :
  get_team_by_id w team_id (teams reg) = Some team →
  team_objs w !! team ≫= Team.storage = Some st →
  Storage.read session_id user_id (storage_at w st) = inr (Some team_session) →
  Session.memory team_session = Some memory →
  Py.get "runs" memory = Py.List (Py.Dict first_run :: runs) →
  is_run_response first_run = true →
  forallb (team_readable session_id) (Py.Dict first_run :: runs) = true →
  let shown := List.filter (λ run, negb (tagged_with session_id run))
                 (Py.Dict first_run :: runs) in
  ∃ d,
    get_team_session reg team_id session_id user_id w = (w, Ok (Returned (Py.Dict d)))
    ∧ displayed_runs d = shown
    ∧ Py.lookup "memory" d
      = match shown with [] => Some (Py.Dict memory) | _ => None end.
Proof.
  intros Ht Hst Hread Hmem Hruns Hfirst Hwf shown.
  destruct (team_runs_loop_memory session_id (Py.Dict first_run :: runs)
              (Py.set "runs" (Py.List []) (Session.to_dict "team_id" team_session))
              [] Hwf (get_set_eq _ _ _)) as (d & Hloop & Hmemory).
  { apply set_unique. unfold unique_keys. by apply (bool_decide_unpack _). }
  destruct (team_runs_loop_shows session_id (Py.Dict first_run :: runs)
              (Py.set "runs" (Py.List []) (Session.to_dict "team_id" team_session))
              [] Hwf (get_set_eq _ _ _)) as (d0 & Hloop0 & Hshown & _).
  assert (d0 = d) as -> by congruence.
  exists d. split; [|split].
  - unfold get_team_session. run_handler. rewrite Ht, Hst, Hread, Hmem.
    rewrite (runs_view_runs _ _ _ _ _ Hruns Hfirst), Hloop. reflexivity.
  - unfold displayed_runs. rewrite Hshown. cbn [app].
    apply (displayed_team_entries session_id _ Hwf).
  - rewrite Hmemory. fold shown.
    rewrite lookup_set_ne by done. cbn. by rewrite Hmem.
Qed.

(** In the session ["S"] of the team ["writers"] a run is shown and the
    memory is gone; in the session ["M"] the one stored run is tagged with
    ["M"], nothing is shown and the memory is still there. *)
Lemma team_view_drops_the_memory_with_the_first_run_witness :
  (∃ d,
     get_team_session Desk.registry "writers" "S" None Desk.world
     = (Desk.world, Ok (Returned (Py.Dict d)))
     ∧ displayed_runs d = [Demo.team_run]
     ∧ Py.lookup "memory" d = None)
  ∧ (∃ d,
       get_team_session Desk.registry "writers" "M" None Desk.world
       = (Desk.world, Ok (Returned (Py.Dict d)))
       ∧ displayed_runs d = []
       ∧ Py.lookup "memory" d = Some (Py.Dict [("runs", Py.List [Desk.own_run])])).
Proof.
  split.
  - exact (team_view_drops_the_memory_with_the_first_run Desk.registry Desk.world
             "writers" "S" None 0 0
             (Session.mk "S" (Some "ann") (Some "writers")
                (Some [("runs", Py.List [Demo.team_run; Demo.member_run])])
                (Some [("session_name", Py.Str "Plans")]) 0)
             [("runs", Py.List [Demo.team_run; Demo.member_run])]
             [("content", Py.Str "plan");
              ("messages", Py.List [Py.Dict [("role", Py.Str "user");
                                             ("content", Py.Str "hello")]])]
             [Demo.member_run]
             eq_refl eq_refl eq_refl eq_refl eq_refl eq_refl eq_refl).
  - exact (team_view_drops_the_memory_with_the_first_run Desk.registry Desk.world
             "writers" "M" None 0 0
             (Session.mk "M" (Some "ann") (Some "writers")
                (Some [("runs", Py.List [Desk.own_run])]) None 3)
             [("runs", Py.List [Desk.own_run])]
             [("content", Py.Str "draft"); ("team_session_id", Py.Str "M")]
             []
             eq_refl eq_refl eq_refl eq_refl eq_refl eq_refl eq_refl).
Defined.

(** ** The content types of uploaded files *)

Lemma document_reader_none content_type :
  document_reader content_type = None ↔ type_in content_type document_types = false.
Proof.
  destruct content_type as [c|]; [|done].
  unfold document_reader, document_types, type_in. cbn [existsb].
  destruct (String.eqb c "application/pdf"); [done|].
  destruct (String.eqb c "text/csv"); [done|].
  destruct (String.eqb c _); [done|].
  destruct (String.eqb c "text/plain"); [done|].
  destruct (String.eqb c "application/json"); done.
Qed.

Lemma document_reader_some content_type :
  type_in content_type document_types = true →
  ∃ reader, document_reader content_type = Some reader.
Proof.
  intros Hd. destruct (document_reader content_type) as [reader|] eqn:Hr; [eauto|].
  apply document_reader_none in Hr. congruence.
Qed.

Lemma type_in_elem content_type types :
  type_in content_type types = true → ∃ c, content_type = Some c ∧ c ∈ types.
Proof.
  destruct content_type as [c|]; [|done]. cbn.
  intros (c' & Hin & ->%String.eqb_eq)%existsb_exists.
  exists c'. split; [done|]. by apply list_elem_of_In.
Qed.

Lemma types_disjoint content_type :
  (type_in content_type image_types = true →
   type_in content_type audio_types = false
   ∧ type_in content_type video_types = false
   ∧ type_in content_type document_types = false)
  ∧ (type_in content_type audio_types = true →
     type_in content_type video_types = false
     ∧ type_in content_type document_types = false)
  ∧ (type_in content_type video_types = true →
     type_in content_type document_types = false).
Proof.
  split; [|split]; intros (c & -> & Hin)%type_in_elem;
    unfold image_types, audio_types, video_types in Hin;
    repeat (apply elem_of_cons in Hin as [->|Hin]; [by repeat split|]);
    by apply elem_of_nil in Hin.
Qed.
Lemma supported_cases content_type :
  supported content_type = true →
  (type_in content_type image_types = true ∧ type_in content_type audio_types = false
   ∧ type_in content_type video_types = false
   ∧ type_in content_type document_types = false)
  ∨ (type_in content_type image_types = false ∧ type_in content_type audio_types = true
     ∧ type_in content_type video_types = false
     ∧ type_in content_type document_types = false)
  ∨ (type_in content_type image_types = false ∧ type_in content_type audio_types = false
     ∧ type_in content_type video_types = true
     ∧ type_in content_type document_types = false)
  ∨ (type_in content_type image_types = false ∧ type_in content_type audio_types = false
     ∧ type_in content_type video_types = false
     ∧ type_in content_type document_types = true).
Proof.
  unfold supported. destruct (types_disjoint content_type) as (Hi & Ha & Hv).
  destruct (type_in content_type image_types).
  { destruct (Hi eq_refl) as (-> & -> & ->). intros _. by left. }
  destruct (type_in content_type audio_types).
  { destruct (Ha eq_refl) as (-> & ->). intros _. right. by left. }
  destruct (type_in content_type video_types).
  { rewrite (Hv eq_refl). intros _. right. right. by left. }
  cbn. intros ->. by repeat right.
Qed.

(** ** Uploaded files on their way to the run *)

Section UploadedFiles.
Context `{Collaborators}.

Lemma add_uploads_nil up files :
  files = [] → add_uploads up (sorted_uploads files []) = up.
Proof. intros ->. unfold add_uploads. cbn. rewrite !app_nil_r. by destruct up. Qed.

Lemma documents_cons file files :
  documents (file :: files)
  = if type_in (content_type file) document_types
    then file :: documents files else documents files.
Proof. reflexivity. Qed.

(** What the handler went through when a document was read. *)
Lemma document_contents_inr file reader contents :
  document_reader (content_type file) = Some reader →
  document_contents file = inr contents →
  import_reader reader = None ∧ UploadFile_read file = inr contents.
Proof.
  intros Hreader. unfold document_contents. rewrite Hreader. cbn.
  by destruct (import_reader reader).
Qed.

Ltac sort_step Hi Ha Hv Hd Hp :=
  unfold add_uploads, sorted_uploads, processed, direct_inputs, processed_documents,
    documents;
  repeat (progress
            (cbn [hush omap list_omap List.filter List.map base64_images base64_audios
                  base64_videos input_files];
             rewrite ?Hi, ?Ha, ?Hv, ?Hd, ?Hp));
  rewrite <- ?app_assoc; reflexivity.

(** An agent without a knowledge base: every file is sorted into one of the
    four lists and the world is not touched. *)
Lemma agent_files_sorted agent files : ∀ up w,
  agent_objs w !! agent ≫= Agent.knowledge = None →
  forallb (λ file, supported (content_type file)) files = true →
  forallb readable (documents files) = true →
  agent_files agent files up w
  = (w, Ok (add_uploads up (sorted_uploads files (direct_inputs files)))).
Proof.
  induction files as [|file files IH]; intros up w Hk Hs Hr.
  { cbn. by rewrite add_uploads_nil. }
  cbn in Hs. apply andb_prop in Hs as [Hfile Hs].
  cbn [agent_files]. rewrite bind_unfold. rewrite documents_cons in Hr.
  destruct (supported_cases _ Hfile)
    as [(Hi & Ha & Hv & Hd)|[(Hi & Ha & Hv & Hd)|[(Hi & Ha & Hv & Hd)|(Hi & Ha & Hv & Hd)]]];
    unfold agent_file; rewrite Hi, ?Ha, ?Hv; rewrite Hd in Hr.
  - destruct (process_image file) as [e|image] eqn:Hp; cbn [mret M_ret];
      rewrite (IH _ _ Hk Hs Hr); do 2 f_equal; sort_step Hi Ha Hv Hd Hp.
  - destruct (process_audio file) as [e|audio] eqn:Hp; cbn [mret M_ret];
      rewrite (IH _ _ Hk Hs Hr); do 2 f_equal; sort_step Hi Ha Hv Hd Hp.
  - destruct (process_video file) as [e|video] eqn:Hp; cbn [mret M_ret];
      rewrite (IH _ _ Hk Hs Hr); do 2 f_equal; sort_step Hi Ha Hv Hd Hp.
  - cbn [forallb] in Hr. apply andb_prop in Hr as [Hread Hr].
    unfold readable in Hread.
    destruct (document_contents file) as [e|contents] eqn:Hcontents;
      [discriminate Hread|].
    destruct (document_reader_some _ Hd) as [reader Hreader].
    destruct (document_contents_inr _ _ _ Hreader Hcontents) as [Himport Hfile_read].
    rewrite Hreader. run_handler. rewrite Himport. run_handler.
    rewrite Hfile_read. run_handler. rewrite Hk.
    cbn [mret M_ret]. rewrite (IH _ _ Hk Hs Hr); do 2 f_equal.
    sort_step Hi Ha Hv Hd Hcontents.
Qed.

(** An agent without a knowledge base logs nothing and writes nothing for
    its files, however the loop ends. *)
Lemma agent_files_plain agent files : ∀ up w,
  agent_objs w !! agent ≫= Agent.knowledge = None →
  (agent_files agent files up w).1 = w.
Proof.
  induction files as [|file files IH]; intros up w Hk; [done|].
  cbn [agent_files]. rewrite bind_unfold.
  assert ((agent_file agent file up w).1 = w) as Hfile.
  { unfold agent_file.
    destruct (type_in (content_type file) image_types).
    { by destruct (process_image file). }
    destruct (type_in (content_type file) audio_types).
    { by destruct (process_audio file). }
    destruct (type_in (content_type file) video_types).
    { by destruct (process_video file). }
    destruct (document_reader (content_type file)) as [reader|]; [|done].
    run_handler. destruct (import_reader reader) as [e|]; [done|]. run_handler.
    destruct (UploadFile_read file) as [e|contents]; [done|]. run_handler.
    by rewrite Hk. }
  destruct (agent_file agent file up w) as [w1 [up1|c d|e]]; cbn [fst] in *; subst w1;
    [by apply IH|done|done].
Qed.

(** An agent with a knowledge base: the media are sorted as before, and
    every document is read and loaded into the knowledge base, in the order
    of the upload; no document becomes a file input. *)
Lemma agent_files_loaded agent kb files : ∀ up w,
  agent_objs w !! agent ≫= Agent.knowledge = Some kb →
  forallb (λ file, supported (content_type file)) files = true →
  forallb (λ file, bool_decide (is_Some (hush (read_document file)))) (documents files)
  = true →
  (∀ w' docs, ∃ knowledge, Knowledge_load_documents w' kb docs = inr knowledge) →
  ∃ w',
    agent_files agent files up w = (w', Ok (add_uploads up (sorted_uploads files [])))
    ∧ calls w' = calls w ++ List.map (knowledge_load_documents kb) (loaded files).
Proof.
  intros up w Hk Hs Hr Hload. revert up w Hk Hs Hr.
  induction files as [|file files IH]; intros up w Hk Hs Hr.
  { exists w. cbn. rewrite add_uploads_nil by done. by rewrite !app_nil_r. }
  cbn in Hs. apply andb_prop in Hs as [Hfile Hs].
  cbn [agent_files]. rewrite bind_unfold.
  destruct (supported_cases _ Hfile)
    as [(Hi & Ha & Hv & Hd)|[(Hi & Ha & Hv & Hd)|[(Hi & Ha & Hv & Hd)|(Hi & Ha & Hv & Hd)]]];
    unfold agent_file; rewrite Hi, ?Ha, ?Hv.
  - assert (documents (file :: files) = documents files) as Hdocs.
    { unfold documents. cbn. by rewrite Hd. }
    unfold loaded. rewrite Hdocs in *. fold (loaded files).
    destruct (process_image file) as [e|image] eqn:Hp; cbn [mret M_ret];
      (match goal with |- context [agent_files agent files ?up1 ?w1] =>
         destruct (IH up1 w1 Hk Hs Hr) as (w' & -> & Hc)
       end;
       exists w'; split; [do 2 f_equal; sort_step Hi Ha Hv Hd Hp|done]).
  - assert (documents (file :: files) = documents files) as Hdocs.
    { unfold documents. cbn. by rewrite Hd. }
    unfold loaded. rewrite Hdocs in *. fold (loaded files).
    destruct (process_audio file) as [e|audio] eqn:Hp; cbn [mret M_ret];
      (match goal with |- context [agent_files agent files ?up1 ?w1] =>
         destruct (IH up1 w1 Hk Hs Hr) as (w' & -> & Hc)
       end;
       exists w'; split; [do 2 f_equal; sort_step Hi Ha Hv Hd Hp|done]).
  - assert (documents (file :: files) = documents files) as Hdocs.
    { unfold documents. cbn. by rewrite Hd. }
    unfold loaded. rewrite Hdocs in *. fold (loaded files).
    destruct (process_video file) as [e|video] eqn:Hp; cbn [mret M_ret];
      (match goal with |- context [agent_files agent files ?up1 ?w1] =>
         destruct (IH up1 w1 Hk Hs Hr) as (w' & -> & Hc)
       end;
       exists w'; split; [do 2 f_equal; sort_step Hi Ha Hv Hd Hp|done]).
  - assert (documents (file :: files) = file :: documents files) as Hdocs.
    { unfold documents. cbn. by rewrite Hd. }
    unfold loaded. rewrite Hdocs in *. fold (loaded files).
    cbn [forallb] in Hr. apply andb_prop in Hr as [Hread Hr].
    apply bool_decide_eq_true in Hread as [docs Hread].
    cbn [omap list_omap]. rewrite Hread. fold (loaded files).
    destruct (document_reader_some _ Hd) as [reader Hreader].
    unfold read_document in Hread.
    destruct (document_contents file) as [e|contents] eqn:Hcontents;
      [discriminate Hread|].
    destruct (document_contents_inr _ _ _ Hreader Hcontents) as [Himport Hfile_read].
    rewrite Hreader in *. cbn [mbind Py.exn_bind] in Hread.
    run_handler. rewrite Himport. run_handler. rewrite Hfile_read. run_handler.
    rewrite Hk.
    destruct (Reader_read reader (filename file) contents) as [e|docs'];
      [discriminate Hread|]. injection Hread as ->.
    run_handler.
    match goal with |- context [Knowledge_load_documents ?w0 kb docs] =>
      destruct (Hload w0 docs) as [knowledge ->]
    end.
    run_handler.
    match goal with |- context [agent_files agent files up ?w1] =>
      destruct (IH up w1) as (w' & -> & Hc); [exact Hk|exact Hs|exact Hr|]
    end.
    exists w'. split; [do 2 f_equal; sort_step Hi Ha Hv Hd Hd|].
    cbn [calls knowledge_objs set_knowledge_objs] in *.
    by rewrite Hc, <- app_assoc.
Qed.

(** A team: documents go through [process_document] and become file
    inputs. *)
Lemma team_files_sorted files : ∀ up w,
  forallb (λ file, supported (content_type file)) files = true →
  forallb (λ file, bool_decide (is_Some (hush (process_document file))))
    (documents files) = true →
  team_files files up w
  = (w, Ok (add_uploads up (sorted_uploads files (processed_documents files)))).
Proof.
  induction files as [|file files IH]; intros up w Hs Hr.
  { cbn. unfold add_uploads. cbn. rewrite !app_nil_r. by destruct up. }
  cbn in Hs. apply andb_prop in Hs as [Hfile Hs].
  cbn [team_files]. rewrite bind_unfold.
  destruct (supported_cases _ Hfile)
    as [(Hi & Ha & Hv & Hd)|[(Hi & Ha & Hv & Hd)|[(Hi & Ha & Hv & Hd)|(Hi & Ha & Hv & Hd)]]];
    unfold team_file; rewrite Hi, ?Ha, ?Hv, ?Hd.
  - assert (documents (file :: files) = documents files) as Hdocs.
    { unfold documents. cbn. by rewrite Hd. }
    rewrite Hdocs in Hr.
    destruct (process_image file) as [e|image] eqn:Hp; cbn [mret M_ret];
      rewrite (IH _ _ Hs Hr); do 2 f_equal; sort_step Hi Ha Hv Hd Hp.
  - assert (documents (file :: files) = documents files) as Hdocs.
    { unfold documents. cbn. by rewrite Hd. }
    rewrite Hdocs in Hr.
    destruct (process_audio file) as [e|audio] eqn:Hp; cbn [mret M_ret];
      rewrite (IH _ _ Hs Hr); do 2 f_equal; sort_step Hi Ha Hv Hd Hp.
  - assert (documents (file :: files) = documents files) as Hdocs.
    { unfold documents. cbn. by rewrite Hd. }
    rewrite Hdocs in Hr.
    destruct (process_video file) as [e|video] eqn:Hp; cbn [mret M_ret];
      rewrite (IH _ _ Hs Hr); do 2 f_equal; sort_step Hi Ha Hv Hd Hp.
  - assert (documents (file :: files) = file :: documents files) as Hdocs.
    { unfold documents. cbn. by rewrite Hd. }
    rewrite Hdocs in Hr. cbn [forallb] in Hr. apply andb_prop in Hr as [Hread Hr].
    apply bool_decide_eq_true in Hread as [document_file Hread].
    run_handler.
    destruct (process_document file) as [e|[document_file'|]] eqn:Hp;
      [discriminate Hread| |]; run_handler;
      rewrite (IH _ _ Hs Hr); do 2 f_equal; sort_step Hi Ha Hv Hd Hp.
Qed.

(** A file of a type that is in none of the lists ends the loop with the
    error reply 400, which is the only error reply the loop makes. *)
Lemma agent_file_outcome agent file up w :
  (supported (content_type file) = false →
   agent_file agent file up w = (w, HTTPException 400 "Unsupported file type"))
  ∧ (∀ status_code detail,
       (agent_file agent file up w).2 = HTTPException status_code detail →
       status_code = 400 ∧ detail = "Unsupported file type")
  ∧ (∀ up', (agent_file agent file up w).2 = Ok up' →
            supported (content_type file) = true).
Proof.
  unfold agent_file, supported.
  destruct (type_in (content_type file) image_types).
  { destruct (process_image file); cbn; (split; [intros [=]|split; [intros ?? [=]|done]]). }
  destruct (type_in (content_type file) audio_types).
  { destruct (process_audio file); cbn; (split; [intros [=]|split; [intros ?? [=]|done]]). }
  destruct (type_in (content_type file) video_types).
  { destruct (process_video file); cbn; (split; [intros [=]|split; [intros ?? [=]|done]]). }
  cbn [orb].
  destruct (document_reader (content_type file)) as [reader|] eqn:Hr.
  - destruct (type_in (content_type file) document_types) eqn:Hd;
      [|apply document_reader_none in Hd; congruence].
    run_handler.
    destruct (import_reader reader) as [e|]; [by repeat split|]. run_handler.
    destruct (UploadFile_read file) as [e|contents]; [by repeat split|]. run_handler.
    destruct (agent_objs w !! agent ≫= Agent.knowledge) as [kb|]; [|by repeat split].
    run_handler.
    destruct (Reader_read reader (filename file) contents);
      run_handler; [by repeat split|].
    destruct (Knowledge_load_documents _ kb _); run_handler; by repeat split.
  - apply document_reader_none in Hr. rewrite Hr.
    split; [done|split; [by intros c d [= <- <-]|done]].
Qed.

Lemma agent_files_unsupported agent files : ∀ up w,
  existsb (λ file, negb (supported (content_type file))) files = true →
  (agent_files agent files up w).2 = HTTPException 400 "Unsupported file type"
  ∨ ∃ e, (agent_files agent files up w).2 = Uncaught e.
Proof.
  induction files as [|file files IH]; intros up w Hbad; [done|].
  cbn [agent_files]. rewrite bind_unfold.
  destruct (agent_file_outcome agent file up w) as (Hno & Hhttp & Hok).
  cbn in Hbad.
  destruct (agent_file agent file up w) as [w1 [up1|c d|e]]; cbn [snd] in *.
  - rewrite (Hok up1 eq_refl) in Hbad. by apply IH.
  - destruct (Hhttp c d eq_refl) as [-> ->]. by left.
  - right. by exists e.
Qed.

Lemma agent_files_unsupported_plain agent files : ∀ up w,
  agent_objs w !! agent ≫= Agent.knowledge = None →
  existsb (λ file, negb (supported (content_type file))) files = true →
  forallb readable (documents files) = true →
  agent_files agent files up w = (w, HTTPException 400 "Unsupported file type").
Proof.
  induction files as [|file files IH]; intros up w Hk Hbad Hr; [done|].
  cbn in Hbad. cbn [agent_files]. rewrite bind_unfold. rewrite documents_cons in Hr.
  destruct (supported (content_type file)) eqn:Hfile.
  - pose proof (agent_files_sorted agent [file] up w Hk) as Hone.
    cbn [forallb] in Hone. rewrite Hfile in Hone. rewrite documents_cons in Hone.
    assert (forallb readable (documents files) = true) as Hrest.
    { destruct (type_in (content_type file) document_types); [|done].
      cbn [forallb] in Hr. by apply andb_prop in Hr as [_ Hr]. }
    assert (forallb readable
              (if type_in (content_type file) document_types
               then file :: documents [] else documents []) = true) as Hhead.
    { destruct (type_in (content_type file) document_types); [|done].
      cbn [forallb] in Hr. apply andb_prop in Hr as [Hr _]. cbn. by rewrite Hr. }
    specialize (Hone eq_refl Hhead).
    cbn [agent_files] in Hone. rewrite bind_unfold in Hone.
    destruct (agent_file agent file up w) as [w1 [up1|c d|e]]; try discriminate Hone.
    injection Hone as -> _. by apply IH.
  - destruct (agent_file_outcome agent file up w) as (Hno & _). by rewrite (Hno Hfile).
Qed.

Lemma team_file_outcome file up w :
  (supported (content_type file) = false →
   team_file file up w = (w, HTTPException 400 "Unsupported file type"))
  ∧ (∀ status_code detail,
       (team_file file up w).2 = HTTPException status_code detail →
       status_code = 400 ∧ detail = "Unsupported file type")
  ∧ (∀ up', (team_file file up w).2 = Ok up' → supported (content_type file) = true).
Proof.
  unfold team_file, supported.
  destruct (type_in (content_type file) image_types).
  { destruct (process_image file); cbn; (split; [intros [=]|split; [intros ?? [=]|done]]). }
  destruct (type_in (content_type file) audio_types).
  { destruct (process_audio file); cbn; (split; [intros [=]|split; [intros ?? [=]|done]]). }
  destruct (type_in (content_type file) video_types).
  { destruct (process_video file); cbn; (split; [intros [=]|split; [intros ?? [=]|done]]). }
  cbn [orb].
  destruct (type_in (content_type file) document_types);
    [|split; [done|split; [by intros c d [= <- <-]|done]]].
  run_handler. destruct (process_document file) as [e|[document_file|]];
    run_handler; by repeat split.
Qed.

Lemma team_files_unsupported files : ∀ up w,
  existsb (λ file, negb (supported (content_type file))) files = true →
  (team_files files up w).2 = HTTPException 400 "Unsupported file type"
  ∨ ∃ e, (team_files files up w).2 = Uncaught e.
Proof.
  induction files as [|file files IH]; intros up w Hbad; [done|].
  cbn [team_files]. rewrite bind_unfold.
  destruct (team_file_outcome file up w) as (Hno & Hhttp & Hok).
  cbn in Hbad.
  destruct (team_file file up w) as [w1 [up1|c d|e]]; cbn [snd] in *.
  - rewrite (Hok up1 eq_refl) in Hbad. by apply IH.
  - destruct (Hhttp c d eq_refl) as [-> ->]. by left.
  - right. by exists e.
Qed.

Variable reg : Registry.

(** The setup of an agent run is the choice of the session and the write
    of the monitoring flag, followed by the loop over the files. *)
Lemma agent_run_setup_files w agent_id monitor session_id files agent :
  get_agent_by_id w agent_id (agents reg) = Some agent →
  ∃ w0,
    calls w0 = calls w
    ∧ knowledge_objs w0 = knowledge_objs w
    ∧ agent_objs w0 = alter (Agent.set_monitoring monitor) agent (agent_objs w)
    ∧ agent_run_setup reg agent_id monitor session_id (Some files) w
      = match agent_files agent files (mkUploads [] [] [] []) w0 with
        | (w1, Ok up) => (w1, Ok (agent, chosen_session w session_id, up))
        | (w1, HTTPException c d) => (w1, HTTPException c d)
        | (w1, Uncaught e) => (w1, Uncaught e)
        end.
Proof.
  intros Ha. unfold agent_run_setup. run_handler. rewrite Ha. run_handler.
  destruct (continuing_or_new_run w session_id)
    as (w' & -> & Hc & Hag & Ht & Hf & Hs & Hk & Hu).
  change (default [] (Some files)) with files.
  destruct monitor; run_handler.
  - exists (set_agent_objs (alter (Agent.set_monitoring true) agent (agent_objs w')) w').
    cbn [calls knowledge_objs agent_objs set_agent_objs]. rewrite Hag.
    split; [done|]. split; [done|]. split; [done|].
    by destruct (agent_files _ _ _ _) as [w2 [up|c d|e]].
  - exists (set_agent_objs (alter (Agent.set_monitoring false) agent (agent_objs w')) w').
    cbn [calls knowledge_objs agent_objs set_agent_objs]. rewrite Hag.
    split; [done|]. split; [done|]. split; [done|].
    by destruct (agent_files _ _ _ _) as [w2 [up|c d|e]].
Qed.

Lemma team_run_setup_files w team_id monitor session_id files team :
  get_team_by_id w team_id (teams reg) = Some team →
  ∃ w0,
    calls w0 = calls w
    ∧ team_run_setup reg team_id monitor session_id (Some files) w
      = match team_files files (mkUploads [] [] [] []) w0 with
        | (w1, Ok up) => (w1, Ok (team, chosen_session w session_id, up))
        | (w1, HTTPException c d) => (w1, HTTPException c d)
        | (w1, Uncaught e) => (w1, Uncaught e)
        end.
Proof.
  intros Ha. unfold team_run_setup. run_handler. rewrite Ha. run_handler.
  destruct (continuing_or_new_run w session_id)
    as (w' & -> & Hc & Hag & Ht & Hf & Hs & Hk & Hu).
  change (default [] (Some files)) with files.
  destruct monitor; run_handler.
  - exists (set_team_objs (alter (Team.set_monitoring true) team (team_objs w')) w').
    split; [done|]. by destruct (team_files _ _ _) as [w2 [up|c d|e]].
  - exists (set_team_objs (alter (Team.set_monitoring false) team (team_objs w')) w').
    split; [done|]. by destruct (team_files _ _ _) as [w2 [up|c d|e]].
Qed.

Lemma add_uploads_empty up : add_uploads (mkUploads [] [] [] []) up = up.
Proof. by destruct up. Qed.

End UploadedFiles.

(** X16.  A run request with a file whose content type is in none of the
    four lists of the handler starts no run.  It ends in the reply 400 or,
    when a file before the unsupported one made the handler raise, in that
    exception, which leaves the handler.  An agent without a knowledge base
    logs nothing, and is answered with status 400 when the documents that
    were uploaded can be taken in, that is, when the reader of each can be
    imported and the file can be read, however many supported files come
    before the unsupported one.  Whatever the request of an agent with a
    knowledge base logged by then is a load into the knowledge base, and
    the request of a team logged nothing. *)
Theorem unsupported_upload_stops_the_run `{Collaborators} (reg : Registry) (w : World)
    (message : string) (stream monitor : bool) (session_id user_id : option string)
    (files : list UploadFile) :
  existsb (λ file, negb (supported (content_type file))) files = true →
  (∀ agent_id agent,
     get_agent_by_id w agent_id (agents reg) = Some agent →
     let r := create_agent_run reg agent_id message stream monitor session_id user_id
                (Some files) w in
     (r.2 = HTTPException 400 "Unsupported file type" ∨ ∃ e, r.2 = Uncaught e)
     ∧ Forall is_load (new_calls w r.1)
     ∧ (agent_objs w !! agent ≫= Agent.knowledge = None →
        new_calls w r.1 = []
        ∧ (forallb readable (documents files) = true →
           r.2 = HTTPException 400 "Unsupported file type")))
  ∧ (∀ team_id team,
       get_team_by_id w team_id (teams reg) = Some team →
       let r := create_team_run reg team_id message stream monitor session_id user_id
                  (Some files) w in
       (r.2 = HTTPException 400 "Unsupported file type" ∨ ∃ e, r.2 = Uncaught e)
       ∧ new_calls w r.1 = []).
Proof.
  intros Hbad. split.
  - intros agent_id agent Ha r. subst r.
    destruct (agent_run_setup_files reg w agent_id monitor session_id files
                agent Ha) as (w0 & Hc & Hk & Hobjs & Hsetup).
    unfold create_agent_run. rewrite bind_unfold, Hsetup.
    pose proof (agent_files_unsupported agent files (mkUploads [] [] [] []) w0 Hbad)
      as Hout.
    pose proof (agent_files_loads agent files (mkUploads [] [] [] []) w0)
      as (_ & _ & _ & _ & _ & loads & Hcalls & Hloads).
    pose proof (agent_files_unsupported_plain agent files (mkUploads [] [] [] []) w0)
      as Hplain.
    pose proof (agent_files_plain agent files (mkUploads [] [] [] []) w0) as Hworld.
    rewrite Hobjs, knowledge_after_monitoring in Hplain, Hworld.
    destruct (agent_files agent files _ w0) as [w1 [up|c d|e]]; cbn [fst snd] in *.
    + destruct Hout as [Hout|[e Hout]]; discriminate Hout.
    + destruct Hout as [[= -> ->]|[e [=]]]. split; [by left|]. split.
      { rewrite (new_calls_app w w1 loads) by congruence. exact Hloads. }
      intros Hnone. rewrite (Hworld Hnone). split; [|done].
      apply new_calls_app. by rewrite Hc, app_nil_r.
    + split; [right; by exists e|]. split.
      { rewrite (new_calls_app w w1 loads) by congruence. exact Hloads. }
      intros Hnone. rewrite (Hworld Hnone). split.
      { apply new_calls_app. by rewrite Hc, app_nil_r. }
      intros Hr. specialize (Hplain Hnone Hbad Hr). discriminate Hplain.
  - intros team_id team Ha r. subst r.
    destruct (team_run_setup_files reg w team_id monitor session_id files
                team Ha) as (w0 & Hc & Hsetup).
    unfold create_team_run. rewrite bind_unfold, Hsetup.
    pose proof (team_files_unsupported files (mkUploads [] [] [] []) w0 Hbad) as Hout.
    pose proof (team_files_loads files (mkUploads [] [] [] []) w0) as Hworld.
    destruct (team_files files _ w0) as [w1 [up|c d|e]]; cbn [fst snd] in *; subst w1.
    + destruct Hout as [Hout|[e Hout]]; discriminate Hout.
    + destruct Hout as [[= -> ->]|[e [=]]].
      split; [by left|]. apply new_calls_app. by rewrite Hc, app_nil_r.
    + split; [right; by exists e|]. apply new_calls_app. by rewrite Hc, app_nil_r.
Qed.

(** A picture, a text, a spreadsheet macro and another picture for the
    agent ["clerk"] and for the team ["writers"]. *)
Lemma unsupported_upload_stops_the_run_witness :
  let files := [Desk.upload "image/png" "cat"; Desk.upload "text/plain" "notes";
                Desk.upload "application/x-msexcel" "macro";
                Desk.upload "image/jpeg" "dog"] in
  let a := create_agent_run (H := Desk.collaborators) Desk.registry "clerk" "look"
             true false None None (Some files) Desk.world in
  let t := create_team_run (H := Desk.collaborators) Desk.registry "writers" "look"
             false false None None (Some files) Desk.world in
  (a.2 = HTTPException 400 "Unsupported file type" ∧ new_calls Desk.world a.1 = [])
  ∧ ((t.2 = HTTPException 400 "Unsupported file type" ∨ ∃ e, t.2 = Uncaught e)
     ∧ new_calls Desk.world t.1 = []).
Proof.
  intros files a t.
  destruct (unsupported_upload_stops_the_run (H := Desk.collaborators) Desk.registry
              Desk.world "look" true false None None files eq_refl) as [Hagent _].
  destruct (unsupported_upload_stops_the_run (H := Desk.collaborators) Desk.registry
              Desk.world "look" false false None None files eq_refl) as [_ Hteam].
  split.
  - destruct (Hagent "clerk" 1 eq_refl) as (_ & _ & Hplain).
    destruct (Hplain eq_refl) as [Hcalls Hout]. split; [exact (Hout eq_refl)|exact Hcalls].
  - exact (Hteam "writers" 0 eq_refl).
Defined.

(** X17.  What a run is started with when every uploaded file has a
    supported content type.  The images, the audios and the videos that the
    media helpers could process reach the run in three lists, each in the
    order of the upload; a file the helper fails on is left out without a
    word, and a list that stays empty is passed as [None].  The documents
    reach an agent without a knowledge base as file inputs made of what was
    read of them, when the reader of each can be imported and the file can
    be read, and a team as what [process_document] makes of them, when it
    raises on none.  The run is then the only call the request makes, and
    no knowledge base changes. *)
Theorem uploads_reach_the_run_sorted `{Collaborators} (reg : Registry) (w : World)
    (message : string) (stream monitor : bool) (session_id user_id : option string)
    (files : list UploadFile) :
  forallb (λ file, supported (content_type file)) files = true →
  (∀ agent_id agent,
     get_agent_by_id w agent_id (agents reg) = Some agent →
     agent_objs w !! agent ≫= Agent.knowledge = None →
     forallb readable (documents files) = true →
     let r := create_agent_run reg agent_id message stream monitor session_id user_id
                (Some files) w in
     new_calls w r.1
     = [agent_arun agent
          (run_args message (chosen_session w session_id) user_id
             (sorted_uploads files (direct_inputs files)) stream)]
     ∧ knowledge_objs r.1 = knowledge_objs w)
  ∧ (∀ team_id team,
       get_team_by_id w team_id (teams reg) = Some team →
       forallb (λ file, bool_decide (is_Some (hush (process_document file))))
         (documents files) = true →
       let r := create_team_run reg team_id message stream monitor session_id user_id
                  (Some files) w in
       new_calls w r.1
       = [team_arun team
            (run_args message (chosen_session w session_id) user_id
               (sorted_uploads files (processed_documents files)) stream)]
       ∧ knowledge_objs r.1 = knowledge_objs w).
Proof.
  intros Hs. split.
  - intros agent_id agent Ha Hnone Hread r. subst r.
    destruct (agent_run_setup_files reg w agent_id monitor session_id files
                agent Ha) as (w0 & Hc & Hk & Hobjs & Hsetup).
    rewrite (agent_files_sorted agent files _ w0) in Hsetup;
      [|by rewrite Hobjs, knowledge_after_monitoring|exact Hs|exact Hread].
    rewrite add_uploads_empty in Hsetup.
    pose proof (create_agent_run_dispatch reg w agent_id message stream monitor
                  session_id user_id (Some files)) as Hrun.
    cbn zeta in Hrun. rewrite Hsetup in Hrun. destruct Hrun as [-> _].
    split; [|exact Hk]. apply new_calls_app. cbn. by rewrite Hc.
  - intros team_id team Ha Hdocs r. subst r.
    destruct (team_run_setup_files reg w team_id monitor session_id files
                team Ha) as (w0 & Hc & Hsetup).
    rewrite (team_files_sorted files _ w0 Hs Hdocs), add_uploads_empty in Hsetup.
    pose proof (create_team_run_dispatch reg w team_id message stream monitor
                  session_id user_id (Some files)) as Hrun.
    cbn zeta in Hrun. rewrite Hsetup in Hrun. destruct Hrun as [Hworld _].
    split.
    + rewrite Hworld. apply new_calls_app. cbn. by rewrite Hc.
    + rewrite (create_team_run_knowledge reg). done.
Qed.

(** Two pictures, of which the first cannot be decoded, a recording and a
    text for the agent ["clerk"], which has no knowledge base, and for the
    team ["writers"]. *)
Lemma uploads_reach_the_run_sorted_witness :
  let files := [Desk.upload "image/png" "broken"; Desk.upload "text/plain" "notes";
                Desk.upload "audio/wav" "hum"; Desk.upload "image/jpeg" "dog"] in
  new_calls Desk.world
    (create_agent_run (H := Desk.collaborators) Desk.registry "clerk" "look" true false
       (Some "A") None (Some files) Desk.world).1
  = [agent_arun 1
       (RunArgs.mk "look" (Some "A") None (Some ["dog"]) (Some ["hum"]) None
          (Some [mkFileMedia "notes"]) (Some true) (Some true))]
  ∧ new_calls Desk.world
      (create_team_run (H := Desk.collaborators) Desk.registry "writers" "look" false
         true (Some "S") None (Some files) Desk.world).1
    = [team_arun 0
         (RunArgs.mk "look" (Some "S") None (Some ["dog"]) (Some ["hum"]) None
            (Some [mkFileMedia "notes"]) (Some false) None)].
Proof.
  intros files. split.
  - destruct (uploads_reach_the_run_sorted (H := Desk.collaborators) Desk.registry
                Desk.world "look" true false (Some "A") None files eq_refl)
      as [Hagent _].
    exact (proj1 (Hagent "clerk" 1 eq_refl eq_refl eq_refl)).
  - destruct (uploads_reach_the_run_sorted (H := Desk.collaborators) Desk.registry
                Desk.world "look" false true (Some "S") None files eq_refl)
      as [_ Hteam].
    exact (proj1 (Hteam "writers" 0 eq_refl eq_refl)).
Defined.

(** X18.  An agent with a knowledge base takes uploaded documents into the
    knowledge base instead of the run.  When every file has a supported
    content type, every document can be taken in and read by the reader of
    its type, and [load_documents] of the knowledge base of the agent does
    not raise, the request calls [load_documents] of that knowledge base
    once for each document, with what was read of it and in the order of
    the upload, before it starts the run.  The run gets the media, and
    [None] for its files, however many documents were uploaded.  What the
    knowledge base holds afterwards is up to [load_documents]. *)
Theorem documents_go_to_the_knowledge_base `{Collaborators} (reg : Registry) (w : World)
    (agent_id message : string) (stream monitor : bool)
    (session_id user_id : option string) (files : list UploadFile) (agent kb : loc) :
  get_agent_by_id w agent_id (agents reg) = Some agent →
  agent_objs w !! agent ≫= Agent.knowledge = Some kb →
  forallb (λ file, supported (content_type file)) files = true →
  forallb (λ file, bool_decide (is_Some (hush (read_document file)))) (documents files)
  = true →
  (∀ w' docs, ∃ knowledge, Knowledge_load_documents w' kb docs = inr knowledge) →
  let r := create_agent_run reg agent_id message stream monitor session_id user_id
             (Some files) w in
  let args := run_args message (chosen_session w session_id) user_id
                (sorted_uploads files []) stream in
  new_calls w r.1
  = List.map (knowledge_load_documents kb) (loaded files) ++ [agent_arun agent args]
  ∧ RunArgs.files args = None.
Proof.
  intros Ha Hkb Hs Hr Hload r args. subst r args.
  destruct (agent_run_setup_files reg w agent_id monitor session_id files
              agent Ha) as (w0 & Hc & Hk & Hobjs & Hsetup).
  destruct (agent_files_loaded agent kb files (mkUploads [] [] [] []) w0)
    as (w1 & Hfiles & Hcalls);
    [by rewrite Hobjs, knowledge_after_monitoring|exact Hs|exact Hr|exact Hload|].
  rewrite Hfiles, add_uploads_empty in Hsetup.
  pose proof (create_agent_run_dispatch reg w agent_id message stream monitor
                session_id user_id (Some files)) as Hrun.
  cbn zeta in Hrun. rewrite Hsetup in Hrun. destruct Hrun as [-> _].
  split; [|done].
  apply new_calls_app. cbn. by rewrite Hcalls, Hc, <- app_assoc.
Qed.

(** A picture and two texts for the agent ["librarian"], whose knowledge
    base holds the catalogue. *)
Lemma documents_go_to_the_knowledge_base_witness :
  let files := [Desk.upload "text/plain" "notes"; Desk.upload "image/png" "cat";
                Desk.upload "application/json" "index"] in
  let r := create_agent_run (H := Desk.collaborators) Desk.registry "librarian" "file"
             false true (Some "A") None (Some files) Desk.world in
  new_calls Desk.world r.1
  = [knowledge_load_documents 0 ["notes"]; knowledge_load_documents 0 ["index"];
     agent_arun 0
       (RunArgs.mk "file" (Some "A") None (Some ["cat"]) None None None (Some false)
          None)].
Proof.
  intros files r.
  destruct (documents_go_to_the_knowledge_base (H := Desk.collaborators) Desk.registry
              Desk.world "librarian" "file" false true (Some "A") None files 0 0
              eq_refl eq_refl eq_refl eq_refl) as (Hcalls & _).
  - intros w' docs. eexists. reflexivity.
  - exact Hcalls.
Defined.

(** ** Renaming a session of an agent or a team *)


(** ** Stored runs that cannot be gone through *)

Lemma agent_runs_loop_fails runs : ∀ d,
  forallb agent_readable runs = false → ∃ e, agent_runs_loop runs d = inl e.
Proof.
  induction runs as [|run runs IH]; intros d Hbad; [done|].
  cbn [forallb] in Hbad. unfold agent_readable at 1 in Hbad.
  destruct run as [| | | | |rd]; try (by eexists).
  rewrite agent_runs_loop_step.
  destruct (message_of_run (Py.Dict rd)) as [e|message]; [by exists e|].
  by apply IH.
Qed.

Lemma team_runs_loop_fails session_id runs : ∀ d,
  forallb (team_readable session_id) runs = false →
  ∃ e, team_runs_loop session_id runs d = inl e.
Proof.
  induction runs as [|run runs IH]; intros d Hbad; [done|].
  cbn [forallb] in Hbad. unfold team_readable at 1 in Hbad.
  destruct run as [| | | | |rd]; try (by eexists).
  rewrite team_runs_loop_step.
  destruct (tagged_with session_id (Py.Dict rd)); cbn [orb andb] in Hbad;
    [by apply IH|].
  destruct (message_of_run (Py.Dict rd)) as [e|message]; [by exists e|].
  by apply IH.
Qed.

(** A first stored run that is not a dictionary stops both views: the test
    for a run response raises on it, or the loop does. *)
Lemma runs_view_first_unreadable loop memory first_run runs d :
  (∀ rest d', loop (first_run :: rest) d' = Py.as_dict first_run ≫= λ _, inr d') →
  Py.get "runs" memory = Py.List (first_run :: runs) →
  is_dict first_run = false →
  ∃ e, runs_view loop (Some memory) d = inl e
       ∧ Py.exn_class e = view_failure_class first_run.
Proof.
  intros Hloop Hruns Hfirst. unfold runs_view. rewrite Hruns.
  cbn [Py.is_not_None Py.first mbind Py.exn_bind].
  unfold first_run_is_response.
  destruct first_run as [|b|n|s|l|rd]; try discriminate Hfirst;
    cbn [Py.has mbind Py.exn_bind]; try (by eexists).
  - destruct (String.index 0 "content" s);
      cbn [Py.as_dict Py.iter mbind Py.exn_bind]; [rewrite Hloop|]; by eexists.
  - destruct (existsb _ l);
      cbn [Py.as_dict Py.iter mbind Py.exn_bind]; [rewrite Hloop|]; by eexists.
Qed.

(** X20.  The session views show all the stored runs or nothing, and write
    nothing.  When the first stored run is not a dictionary, the exception
    leaves the handler: a [TypeError] of the membership test when it is
    [None], a number or a truth value, and an [AttributeError] of [.get]
    when it is a string or a list.  When the first stored run is a
    dictionary with content, or a paused run, and one of the stored runs
    cannot be gone through, because it is not a dictionary, because its
    messages cannot be iterated or because a message before the first user
    message is not a dictionary, the exception leaves the handler and no
    part of the session is returned; for a team this concerns only the runs
    the view does not skip.  A session whose first stored run is a
    dictionary of neither kind is not looked into and is returned as
    stored. *)
Theorem unreadable_run_fails_the_whole_view (reg : Registry) (w : World)
    (session_id : string) (user_id : option string) (st : loc) (session : Session.t)
    (memory : Py.dict) (first_run : Py.value) (runs : list Py.value) :
  Storage.read session_id user_id (storage_at w st) = inr (Some session) →
  Session.memory session = Some memory →
  Py.get "runs" memory = Py.List (first_run :: runs) →
  (∀ agent_id agent,
     get_agent_by_id w agent_id (agents reg) = Some agent →
     agent_objs w !! agent ≫= Agent.storage = Some st →
     let r := get_agent_session reg agent_id session_id user_id w in
     (is_dict first_run = false →
      ∃ e, r = (w, Uncaught e) ∧ Py.exn_class e = view_failure_class first_run)
     ∧ (∀ rd, first_run = Py.Dict rd →
              is_run_response rd = true →
              forallb agent_readable (first_run :: runs) = false →
              ∃ e, r = (w, Uncaught e))
     ∧ (∀ rd, first_run = Py.Dict rd →
              is_run_response rd = false →
              r = (w, Ok (Returned (Py.Dict (Session.to_dict "agent_id" session))))))
  ∧ (∀ team_id team,
       get_team_by_id w team_id (teams reg) = Some team →
       team_objs w !! team ≫= Team.storage = Some st →
       let r := get_team_session reg team_id session_id user_id w in
       (is_dict first_run = false →
        ∃ e, r = (w, Uncaught e) ∧ Py.exn_class e = view_failure_class first_run)
       ∧ (∀ rd, first_run = Py.Dict rd →
                is_run_response rd = true →
                forallb (team_readable session_id) (first_run :: runs) = false →
                ∃ e, r = (w, Uncaught e))
       ∧ (∀ rd, first_run = Py.Dict rd →
                is_run_response rd = false →
                r = (w, Ok (Returned (Py.Dict (Session.to_dict "team_id" session)))))).
Proof.
  intros Hread Hmem Hruns. split.
  - intros agent_id agent Ha Hst r. subst r.
    unfold get_agent_session. run_handler. rewrite Ha, Hst, Hread. run_handler.
    rewrite Hmem. split; [|split].
    + intros Hfirst.
      destruct (runs_view_first_unreadable agent_runs_loop memory first_run runs
                  (Session.to_dict "agent_id" session)) as (e & -> & Hclass);
        [|exact Hruns|exact Hfirst|by exists e].
      intros rest d'. by destruct first_run.
    + intros rd -> Hfirst Hbad.
      destruct (agent_runs_loop_fails _
                  (Py.set "runs" (Py.List []) (Session.to_dict "agent_id" session)) Hbad)
        as [e Hloop].
      exists e. by rewrite (runs_view_runs _ _ _ _ _ Hruns Hfirst), Hloop.
    + intros rd -> Hfirst.
      rewrite (runs_view_none agent_runs_loop (Some memory)); [done|].
      right. by exists rd, runs.
  - intros team_id team Ha Hst r. subst r.
    unfold get_team_session. run_handler. rewrite Ha, Hst, Hread. run_handler.
    rewrite Hmem. split; [|split].
    + intros Hfirst.
      destruct (runs_view_first_unreadable (team_runs_loop session_id) memory
                  first_run runs (Session.to_dict "team_id" session))
        as (e & -> & Hclass); [|exact Hruns|exact Hfirst|by exists e].
      intros rest d'. by destruct first_run.
    + intros rd -> Hfirst Hbad.
      destruct (team_runs_loop_fails session_id _
                  (Py.set "runs" (Py.List []) (Session.to_dict "team_id" session)) Hbad)
        as [e Hloop].
      exists e. by rewrite (runs_view_runs _ _ _ _ _ Hruns Hfirst), Hloop.
    + intros rd -> Hfirst.
      rewrite (runs_view_none (team_runs_loop session_id) (Some memory)); [done|].
      right. by exists rd, runs.
Qed.

(** The second run of the session ["B"] of the desk was lost: a string is
    stored in its place.  In the session ["L"] it is the first run that was
    lost. *)
Lemma unreadable_run_fails_the_whole_view_witness :
  (∃ e, get_agent_session Desk.registry "librarian" "B" None Desk.world
        = (Desk.world, Uncaught e))
  ∧ (∃ e, get_team_session Desk.registry "writers" "B" None Desk.world
          = (Desk.world, Uncaught e))
  ∧ (∃ e, get_agent_session Desk.registry "librarian" "L" None Desk.world_with_loss
          = (Desk.world_with_loss, Uncaught e)
          ∧ Py.exn_class e = "TypeError").
Proof.
  destruct (unreadable_run_fails_the_whole_view Desk.registry Desk.world "B" None 0
              (Session.mk "B" (Some "ann") (Some "librarian")
                 (Some [("runs", Py.List [Demo.team_run; Py.Str "lost"])]) None 5)
              [("runs", Py.List [Demo.team_run; Py.Str "lost"])]
              Demo.team_run [Py.Str "lost"]
              eq_refl eq_refl eq_refl) as [Hagent Hteam].
  destruct (unreadable_run_fails_the_whole_view Desk.registry Desk.world_with_loss
              "L" None 0 Desk.lost_session
              [("runs", Py.List [Py.None_; Demo.team_run])]
              Py.None_ [Demo.team_run]
              eq_refl eq_refl eq_refl) as [Hlost _].
  split; [|split].
  - destruct (Hagent "librarian" 0 eq_refl eq_refl) as (_ & Hbad & _).
    exact (Hbad _ eq_refl eq_refl eq_refl).
  - destruct (Hteam "writers" 0 eq_refl eq_refl) as (_ & Hbad & _).
    exact (Hbad _ eq_refl eq_refl eq_refl).
  - destruct (Hlost "librarian" 0 eq_refl eq_refl) as (Hfirst & _).
    exact (Hfirst eq_refl).
Defined.
